(** * government_github: title classifier and data-integrity verifier

    A shallow embedding of
    - [classify_it_specialist.is_it_specialist] (the job-title classifier), and
    - [test_data_integrity] (the five integrity checks, the baseline file
      and [run_tests]),
    followed by the properties the specification states about them. *)

From Stdlib Require Import ZArith NArith Lia Ascii String.
From stdpp Require Import base option list strings gmap.

#[local] Set Default Proof Using "Type".

Local Open Scope string_scope.
Local Open Scope list_scope.
Local Open Scope Z_scope.

(** ** Python strings

    A Python [str] is a sequence of Unicode code points.  A code point is
    an [N]; string literals of the source are written [py "..."]. *)

Module PyStr.

Definition pystr : Type := list N.

Definition py (s : string) : pystr :=
  (fun a => N_of_ascii a) <$> list_ascii_of_string s.

(** [t.startswith(p)] *)
Fixpoint startswith (p t : pystr) : bool :=
  match p, t with
  | [], _ => true
  | _ :: _, [] => false
  | a :: p', b :: t' => (a =? b)%N && startswith p' t'
  end.

(** [p in t] on two strings: [p] occurs in [t] as a contiguous run. *)
Fixpoint contains (p t : pystr) : bool :=
  startswith p t ||
  match t with
  | [] => false
  | _ :: t' => contains p t'
  end.

(** [t.endswith(p)] *)
Definition endswith (p t : pystr) : bool :=
  startswith (reverse p) (reverse t).

(** *** Case conversion

    [str.lower] and [str.upper] are built-ins of the interpreter, driven by
    the Unicode case tables.  The tables are reproduced here for Basic
    Latin (code points below 128) and for the code points of [special]:
    a few code points outside Basic Latin whose case mapping meets Basic
    Latin, so that they matter to a matcher whose patterns are ASCII.  A
    conversion may change the length of a string (U+0130, U+00DF), so a
    code point maps to a list.  The other code points are not tabulated
    and are passed through: a statement below that depends on the tables
    is about [tabulated] strings only. *)

Definition is_ascii (c : N) : bool := (c <? 128)%N.

Definition special : list N :=
  [ 223 (* U+00DF sharp s *); 304 (* U+0130 capital I with dot above *);
    305 (* U+0131 dotless i *); 383 (* U+017F long s *);
    8490 (* U+212A Kelvin sign *) ]%N.

Definition tabulated (s : pystr) : bool :=
  forallb (fun c => is_ascii c || bool_decide (c ∈ special)) s.

Definition lower_cp (c : N) : list N :=
  if (65 <=? c)%N && (c <=? 90)%N then [c + 32]%N      (* A-Z *)
  else if (c =? 304)%N then [105; 775]%N               (* i, combining dot *)
  else if (c =? 8490)%N then [107]%N                   (* k *)
  else [c].

Definition upper_cp (c : N) : list N :=
  if (97 <=? c)%N && (c <=? 122)%N then [c - 32]%N     (* a-z *)
  else if (c =? 223)%N then [83; 83]%N                 (* SS *)
  else if (c =? 305)%N then [73]%N                     (* I *)
  else if (c =? 383)%N then [83]%N                     (* S *)
  else [c].

Definition lower (s : pystr) : pystr := s ≫= lower_cp.
Definition upper (s : pystr) : pystr := s ≫= upper_cp.

(** [s.split(sep)[-1]] for a one-character separator: what follows the
    last occurrence of [sep], the whole string when there is none. *)
Fixpoint last_field (sep : N) (s : pystr) : pystr :=
  match s with
  | [] => []
  | c :: s' =>
      if bool_decide (sep ∈ s') then last_field sep s'
      else if (c =? sep)%N then s' else s
  end.

End PyStr.
Export PyStr.

(** ** classify_it_specialist.py *)

(** The function body once [title] is known to be a non-empty string. *)
Definition is_it_specialist_str (title : pystr) : bool :=
  let title_lower := lower title in
  (* Check for ITSPEC pattern (common abbreviation) *)
  if contains (py "itspec") title_lower then true
  (* Check for IT + SPEC patterns (with or without spaces) *)
  else if contains (py "it") title_lower && contains (py "spec") title_lower
  then true
  else
    let has_it :=
      contains (py "it ") title_lower || startswith (py "it") title_lower
      || endswith (py "it") title_lower || contains (py " it ") title_lower in
    let has_specialist := contains (py "specialist") title_lower in
    let has_info_tech := contains (py "information technology") title_lower in
    (has_it && has_specialist) || (has_info_tech && has_specialist).

(** [is_it_specialist(title)]: [title] is [None] or a string, as in the
    title column of a frame read back from parquet.  [not title] holds for
    [None] and for the empty string. *)
Definition is_it_specialist (title : option pystr) : bool :=
  match title with
  | None => false
  | Some [] => false
  | Some s => is_it_specialist_str s
  end.

(** ** JSON documents

    What [json.load] returns and [json.dump] takes.  The arrays of this
    program's JSON files ([job_ids], [other_bad_titles]) hold strings, and
    so do the arrays of the model.  An object is a list of bindings, looked
    up from the front. *)

#[warnings="-register-all"]
Inductive json : Type :=
| JNull
| JBool (b : bool)
| JNum (z : Z)
| JStr (s : pystr)
| JArr (l : list pystr)
| JObj (o : list (pystr * json)).

Definition dict : Type := list (pystr * json).

(** [d.get(k)], [None] when [k] is not a key. *)
Fixpoint dict_get (k : pystr) (d : dict) : option json :=
  match d with
  | [] => None
  | (k', v) :: d' => if bool_decide (k = k') then Some v else dict_get k d'
  end.

(** Truth value of a JSON value, as [if v:] tests it. *)
Definition truthy (v : json) : bool :=
  match v with
  | JNull => false
  | JBool b => b
  | JNum z => negb (z =? 0)
  | JStr s => negb (bool_decide (s = []))
  | JArr l => negb (bool_decide (l = []))
  | JObj o => negb (bool_decide (o = []))
  end.

(** [k in v] for a string [k]: key of an object, element of an array,
    substring of a string; [None] is the [TypeError] of the other types. *)
Definition py_in (k : pystr) (v : json) : option bool :=
  match v with
  | JObj o => Some (bool_decide (is_Some (dict_get k o)))
  | JArr l => Some (bool_decide (k ∈ l))
  | JStr s => Some (contains k s)
  | JNull | JBool _ | JNum _ => None
  end.

(** [v[k]] for a string [k]: only objects can be indexed by a string. *)
Definition subscript (v : json) (k : pystr) : option json :=
  match v with
  | JObj o => dict_get k o
  | _ => None
  end.

(** [set(v)]: the elements of an array, the characters of a string, the
    keys of an object; [None] is the [TypeError] of the other types. *)
Definition py_set (v : json) : option (gset pystr) :=
  match v with
  | JArr l => Some (list_to_set l)
  | JStr s => Some (list_to_set ((fun c => [c]) <$> s))
  | JObj o => Some (list_to_set (o.*1))
  | JNull | JBool _ | JNum _ => None
  end.

(** [v != s] for a string [s]. *)
Definition differs_from (v : json) (s : pystr) : bool :=
  match v with
  | JStr s' => negb (bool_decide (s' = s))
  | _ => true
  end.

(** ** Data frames

    A frame as [pd.read_parquet] returns it: its column names and its rows.
    A row binds a column to a string; a column a row does not bind is null
    there ([dropna] drops it, [is_it_specialist] gets [None]). *)

Record frame : Type := Frame {
  columns : list string;
  rows : list (gmap string pystr)
}.

(** [c in df.columns] *)
Definition has_column (rs_columns : list string) (c : string) : bool :=
  bool_decide (c ∈ rs_columns).

(** [df[c]] as a list of cells *)
Definition column (rs : list (gmap string pystr)) (c : string)
  : list (option pystr) :=
  (fun r : gmap string pystr => r !! c) <$> rs.

(** [series.dropna()] *)
Definition dropna {A} (cells : list (option A)) : list A := omap id cells.

Definition PositionID := "MatchedObjectDescriptor_PositionID".
Definition PositionURI := "MatchedObjectDescriptor_PositionURI".
Definition PositionTitle := "MatchedObjectDescriptor_PositionTitle".
Definition PositionStartDate := "MatchedObjectDescriptor_PositionStartDate".
Definition PublicationStartDate := "MatchedObjectDescriptor_PublicationStartDate".

Definition date_cols : list string := [PositionStartDate; PublicationStartDate].

(** [pd.to_datetime('2025-10-01')], in nanoseconds since the epoch. *)
Definition cutoff_date : Z := 1759276800 * 1000000000.

(** [current_filter] of [test_no_job_loss] *)
Definition current_filter : pystr := py "Jobs posted since October 1, 2025".

(** ** The process state

    The files the verifier reads and writes, the clock and what has been
    printed. *)

Inductive level : Type := PLAIN | PASS | WARN | FAIL | CRITICAL_FAIL.

Inductive arg : Type :=
| ANum (n : Z)
| AStr (s : pystr)
| AIds (l : list pystr)
| AJson (v : json).

(** A printed line: its coloured tag, its fixed text and the values
    interpolated into it, in order. *)
Record line : Type := Line { lvl : level; text : string; args : list arg }.

Record world : Type := World {
  (** the newest [data/2210_jobs_*.parquet]: [None] when there is none,
      [Some None] when [pd.read_parquet] raises on it *)
  parquet : option (option frame);
  (** [data_baseline.json], a JSON object when it exists *)
  baseline : option dict;
  (** [data/2210_metrics.json]: [None] when it does not exist,
      [Some None] when [json.load] raises on it *)
  metrics : option (option json);
  (** [datetime.now().isoformat()] *)
  clock : pystr;
  stdout : list line
}.

Definition M (A : Type) : Type := world -> A * world.

#[global] Instance M_ret : MRet M := fun A a w => (a, w).
#[global] Instance M_bind : MBind M :=
  fun A B f m w => let '(a, w') := m w in f a w'.

Definition print (l : line) : M unit := fun w =>
  (tt, World (parquet w) (baseline w) (metrics w) (clock w) (stdout w ++ [l])).

Definition print_header (title : string) : M unit :=
  print (Line PLAIN title []).

Definition load_baseline : M (option dict) := fun w => (baseline w, w).

Definition save_baseline (baseline_data : dict) : M unit := fun w =>
  (tt, World (parquet w) (Some baseline_data) (metrics w) (clock w) (stdout w)).

Definition get_latest_parquet_file : M (option (option frame)) := fun w =>
  (parquet w, w).

Definition read_metrics_file : M (option (option json)) := fun w =>
  (metrics w, w).

Definition datetime_now : M pystr := fun w => (clock w, w).

(** [not baseline]: no file, or an empty object. *)
Definition no_baseline (b : option dict) : bool :=
  match b with
  | None | Some [] => true
  | Some (_ :: _) => false
  end.

(** ** The classifier, in the words of its specification

    The four rules of the classifier on a lowercased title [t], one by
    one, and the classifier that keeps two of them. *)

(** "it" and "spec" both occur in [t]. *)
Definition loose_rule (t : pystr) : bool :=
  contains (py "it") t && contains (py "spec") t.

(** "information technology" and "specialist" both occur in [t]. *)
Definition info_tech_rule (t : pystr) : bool :=
  contains (py "information technology") t && contains (py "specialist") t.

(** "itspec" occurs in [t]. *)
Definition itspec_rule (t : pystr) : bool := contains (py "itspec") t.

(** "it" occurs in [t] as a token and "specialist" occurs in [t]. *)
Definition word_boundary_rule (t : pystr) : bool :=
  (contains (py "it ") t || startswith (py "it") t
   || endswith (py "it") t || contains (py " it ") t)
  && contains (py "specialist") t.

(** A title is accepted when it is a non-empty string whose lowercasing
    satisfies the loose rule or the information-technology rule. *)
Definition accepts (title : option pystr) : bool :=
  match title with
  | Some (c :: s) => loose_rule (lower (c :: s)) || info_tech_rule (lower (c :: s))
  | _ => false
  end.

(** The string [ıt spec], whose first character is U+0131. *)
Definition dotless_it_spec : pystr := [305; 116; 32; 115; 112; 101; 99]%N.

(** A string of Basic Latin characters. *)
Definition ascii_only (s : pystr) : bool := forallb is_ascii s.

(** ** How a computation may use the process state *)

Definition set_stdout (out : list line) (w : world) : world :=
  World (parquet w) (baseline w) (metrics w) (clock w) out.

(** A computation is [behaved] when it leaves the data files and the clock
    alone and only appends to what is printed, without reading it back:
    its result, the baseline it leaves and the lines it prints are
    determined by the files and the clock. *)
Definition behaved {A} (m : M A) : Prop :=
  ∀ pq bl me ck, ∃ a bl' ls, ∀ out,
    m (World pq bl me ck out) = (a, World pq bl' me ck (out ++ ls)).

(** A computation is [readonly] when it moreover leaves the baseline file
    alone. *)
Definition readonly {A} (m : M A) : Prop :=
  ∀ pq bl me ck, ∃ a ls, ∀ out,
    m (World pq bl me ck out) = (a, World pq bl me ck (out ++ ls)).

(** The baseline field that holds the most recent IT-specialist date. *)
Definition date_key : pystr := py "most_recent_it_specialist_date".

(** The lines a computation prints when run in [w]. *)
Definition printed {A} (m : M A) (w : world) : list line :=
  drop (length (stdout w)) (stdout (m w).2).

(** The fields of the snapshots [create_initial_baseline] writes. *)
Definition snapshot_fields : list pystr :=
  [py "created_at"; py "job_ids"; py "total_jobs";
   py "most_recent_it_specialist_date"].

(** [bl'] is [bl], or a snapshot written by [create_initial_baseline]. *)
Definition kept_or_snapshot (bl bl' : option dict) : Prop :=
  bl' = bl ∨ ∃ b, bl' = Some b ∧ b.*1 = snapshot_fields.

(** ** A pandas for calendar dates

    An implementation of the three pandas functions that reads the dates
    written [YYYY-MM-DD] and coerces every other cell to [NaT]; the
    concrete runs below use it. *)

Module Iso.

Definition digit (c : N) : option Z :=
  if (48 <=? c)%N && (c <=? 57)%N then Some (Z.of_N c - 48) else None.

Definition number (s : pystr) : option Z :=
  foldl (fun acc c => n ← acc; d ← digit c; Some (10 * n + d)) (Some 0) s.

Definition days_from_civil (y m d : Z) : Z :=
  let y := if m <=? 2 then y - 1 else y in
  let era := y / 400 in
  let yoe := y - era * 400 in
  let doy := (153 * (if m >? 2 then m - 3 else m + 9) + 2) / 5 + d - 1 in
  let doe := yoe * 365 + yoe / 4 - yoe / 100 + doy in
  era * 146097 + doe - 719468.

Definition civil_from_days (z : Z) : Z * Z * Z :=
  let z := z + 719468 in
  let era := z / 146097 in
  let doe := z - era * 146097 in
  let yoe := (doe - doe / 1460 + doe / 36524 - doe / 146096) / 365 in
  let doy := doe - (365 * yoe + yoe / 4 - yoe / 100) in
  let mp := (5 * doy + 2) / 153 in
  let d := doy - (153 * mp + 2) / 5 + 1 in
  let m := if mp <? 10 then mp + 3 else mp - 9 in
  ((if m <=? 2 then yoe + era * 400 + 1 else yoe + era * 400), m, d).

Definition ns_per_day : Z := 86400 * 1000000000.

(** Midnight of a calendar date, when there is such a date. *)
Definition date (y m d : Z) : option Z :=
  let days := days_from_civil y m d in
  if bool_decide (civil_from_days days = (y, m, d))
  then Some (days * ns_per_day) else None.

(** [YYYY-MM-DD], or [YYYY-MM-DDTHH:MM:SS] as [isoformat] writes it. *)
Definition parse (s : pystr) : option Z :=
  match s with
  | [y1; y2; y3; y4; 45; m1; m2; 45; d1; d2]%N =>
      y ← number [y1; y2; y3; y4];
      m ← number [m1; m2];
      d ← number [d1; d2];
      date y m d
  | [y1; y2; y3; y4; 45; m1; m2; 45; d1; d2;
     84; h1; h2; 58; n1; n2; 58; s1; s2]%N =>
      y ← number [y1; y2; y3; y4];
      m ← number [m1; m2];
      d ← number [d1; d2];
      hh ← number [h1; h2];
      mm ← number [n1; n2];
      ss ← number [s1; s2];
      t ← date y m d;
      if (hh <? 24) && (mm <? 60) && (ss <? 60)
      then Some (t + (hh * 3600 + mm * 60 + ss) * 1000000000) else None
  | _ => None
  end.

Definition to_datetime (cells : list (option pystr)) : list (option Z) :=
  (fun cell => cell ≫= parse) <$> cells.

Definition to_datetime1 (v : json) : option Z :=
  match v with
  | JStr s => parse s
  | _ => None
  end.

Definition digits (width : nat) (n : Z) : pystr :=
  reverse ((fun i => (48 + Z.to_N ((n / 10 ^ Z.of_nat i) mod 10))%N) <$> seq 0 width).

Definition isoformat (t : Z) : pystr :=
  let '(y, m, d) := civil_from_days (t / ns_per_day) in
  let s := (t mod ns_per_day) / 1000000000 in
  (digits 4 y ++ py "-" ++ digits 2 m ++ py "-" ++ digits 2 d ++ py "T"
   ++ digits 2 (s / 3600) ++ py ":" ++ digits 2 ((s / 60) mod 60) ++ py ":"
   ++ digits 2 (s mod 60))%list.

End Iso.

(** ** Sample files

    Frames, metrics files and baselines for the concrete runs at the end. *)

Module Sample.

Definition job (id title posted : string) : gmap string pystr :=
  list_to_map
    [ (PositionID, py id); (PositionTitle, py title);
      (PositionStartDate, py posted) ].

Definition cols : list string := [PositionID; PositionTitle; PositionStartDate].

(** Two jobs, one of them an IT specialist posted on 2025-10-05. *)
Definition df_ab : frame :=
  Frame cols [ job "A1" "IT Specialist" "2025-10-05";
               job "B2" "IT Program Manager" "2025-10-07" ].

(** Job A1 is gone. *)
Definition df_b : frame :=
  Frame cols [ job "B2" "IT Program Manager" "2025-10-07" ].

(** The IT specialist posting is now dated 2025-10-01. *)
Definition df_stale : frame :=
  Frame cols [ job "A1" "IT Specialist" "2025-10-01";
               job "B2" "IT Program Manager" "2025-10-07" ].

(** A third job, posted on 2025-09-30. *)
Definition df_old : frame :=
  Frame cols [ job "A1" "IT Specialist" "2025-10-05";
               job "B2" "IT Program Manager" "2025-10-07";
               job "C3" "IT Specialist" "2025-09-30" ].

Definition recent_ok : json :=
  JObj [ (py "title", JStr (py "IT Specialist"));
         (py "date_posted", JStr (py "2025-10-05T00:00:00"));
         (py "link", JStr (py "https://www.usajobs.gov/job/1")) ].

(** The most recent job without its [link]. *)
Definition recent_no_link : json :=
  JObj [ (py "title", JStr (py "IT Specialist"));
         (py "date_posted", JStr (py "2025-10-05T00:00:00")) ].

Definition metrics_with (recent : json) : json :=
  JObj [ (py "generated_at", JStr (py "2025-11-03T11:59:00"));
         (py "total_2210_jobs", JNum 2);
         (py "it_specialist_jobs", JNum 1);
         (py "it_specialist_percentage", JNum 50);
         (py "most_recent_it_specialist", recent);
         (py "data_filter", JStr current_filter) ].

(** A metrics file without [it_specialist_percentage]. *)
Definition metrics_no_percentage : json :=
  JObj [ (py "generated_at", JStr (py "2025-11-03T11:59:00"));
         (py "total_2210_jobs", JNum 2);
         (py "it_specialist_jobs", JNum 1);
         (py "most_recent_it_specialist", recent_ok);
         (py "data_filter", JStr current_filter) ].

(** A baseline for [df_ab] that stores the active filter. *)
Definition baseline_filtered : dict :=
  [ (py "created_at", JStr (py "2025-11-02T12:00:00"));
    (py "job_ids", JArr [py "A1"; py "B2"]);
    (py "total_jobs", JNum 2);
    (py "most_recent_it_specialist_date", JStr (py "2025-10-05T00:00:00"));
    (py "data_filter", JStr current_filter) ].

Definition now : pystr := py "2025-11-03T12:00:00".


(** A first run with everything in place. *)
Definition w_first : world :=
  World (Some (Some df_ab)) None (Some (Some (metrics_with recent_ok))) now [].

Definition w_with (df : frame) (m : json) : world :=
  World (Some (Some df)) (Some baseline_filtered) (Some (Some m)) now [].

End Sample.

(** ** More sample files *)

Module Edge.

(** The snapshot [create_initial_baseline] takes of [Sample.df_ab]. *)
Definition snapshot_ab : dict :=
  [ (py "created_at", JStr (py "2025-11-02T12:00:00"));
    (py "job_ids", JArr [py "A1"; py "B2"]);
    (py "total_jobs", JNum 2);
    (py "most_recent_it_specialist_date", JStr (py "2025-10-05T00:00:00")) ].

(** A baseline whose stored date is not a date. *)
Definition baseline_bad_date : dict :=
  [ (py "created_at", JStr (py "2025-11-02T12:00:00"));
    (py "job_ids", JArr [py "A1"; py "B2"]);
    (py "total_jobs", JNum 2);
    (py "most_recent_it_specialist_date", JStr (py "yesterday"));
    (py "data_filter", JStr current_filter) ].

(** A frame without the identifier columns. *)
Definition df_no_ids : frame :=
  Frame [PositionTitle; PositionStartDate]
    [ list_to_map [ (PositionTitle, py "IT Specialist");
                    (PositionStartDate, py "2025-10-05") ] ].


(** A data file that cannot be read, and a baseline. *)
Definition w_unreadable : world :=
  World (Some None) (Some Sample.baseline_filtered)
        (Some (Some (Sample.metrics_with Sample.recent_ok))) Sample.now [].

Definition w_of (df : frame) (b : dict) : world :=
  World (Some (Some df)) (Some b)
        (Some (Some (Sample.metrics_with Sample.recent_ok))) Sample.now [].

End Edge.

(** ** test_classification.py

    The titles of the three test methods; [None] is one of the negative
    cases. *)

Definition positive_cases : list pystr :=
  py <$>
  [ "IT Specialist";
    "Information Technology Specialist";
    "Senior Retail IT Specialist";
    "Information Technology Support Specialist";
    "IT Support Specialist";
    "Information Technology Specialist (InfoSec)";
    "SUPERVISORY IT SPECIALIST (NETWORK) (TITLE 32)";
    "IT SPECIALIST";
    "IT SPECIALIST (NETWORK) (Title 32)";
    "IT SPECIALIST (SYSADMIN/NETWORK)";
    "IT SPECIALIST (POLICY AND PLANNING/ENTERPRISE ARCHITECTURE)";
    "IT SPECIALIST (CUSTSPT) (TITLE 32)";
    "ITSPEC (SYSADMIN) (TITLE 32)";
    "ITSPEC (INFOSEC/INFOSEC) (TITLE 32)";
    "ITSPEC (NETWORK)";
    "ITSPEC (SYSADMIN)";
    "ITSPEC (CUSTSPT)";
    "IT SPEC (NETWORK)";
    "IT SPEC (SYS ADMIN) (TITLE 32)";
    "IT SPEC (SYSADMIN)";
    "SUPV IT SPEC (INFOSEC)";
    "Specialist in IT";
    "Information Technology Data Specialist";
    "IT Security Specialist";
    "Junior IT Specialist" ].

Definition negative_cases : list (option pystr) :=
  ((fun s => Some (py s)) <$>
   [ "Information Technology Manager";
     "Computer Systems Administrator (CSA)";
     "Chief Information Officer";
     "IT Branch Manager #104";
     "Supervisory IT Project Manager (Policy and Planning)";
     "Chief Artificial Intelligence Officer";
     "Chief Technology Officer";
     "Information Technology Project Manager";
     "IT PROGRAM MANAGER (PLCYPLN/SYSANALYSIS)";
     "IT PROJECT MANAGER (APPSW)";
     "IT Program Manager (SYSANALYSIS)";
     "IT System Administrator";
     "Temporary Information Technology Technician II - 1 Year Term";
     "Information Technology Technician";
     "Security Architect, CG-2210-14";
     "DAM NECK ACTIVITY INFORMATION SYSTEMS SECURITY OFFICER (ISSO)";
     "Assistant Director (Section Chief (APDB/CBASS)), CM-2210-00";
     "Informational Technology/Operational Technology (IT/OT) Cybersecurity Assessor";
     "Human Resources Specialist";
     "Accountant";
     "Program Manager";
     "Software Engineer";
     "IT Department Head";
     "Information Technology Director" ])
  ++ [ Some []; None ].

Definition case_insensitive_cases : list pystr :=
  py <$>
  [ "it specialist"; "IT SPECIALIST"; "It Specialist"; "iT sPeCiAlIsT";
    "itspec"; "ITSPEC"; "ItSpec" ].

(** [assertTrue] on every title of a list, [assertFalse] likewise. *)
Definition test_should_be_it_specialist : bool :=
  forallb (fun title => is_it_specialist (Some title)) positive_cases.

Definition test_should_not_be_it_specialist : bool :=
  forallb (fun title => negb (is_it_specialist title)) negative_cases.

Definition test_case_insensitive : bool :=
  forallb (fun title => is_it_specialist (Some title)) case_insensitive_cases.

(** A frame that only has the URI column. *)
Definition df_uris : frame :=
  Frame [PositionURI; PositionTitle]
    [ list_to_map [ (PositionURI, py "https://www.usajobs.gov:443/job/848201300");
                    (PositionTitle, py "IT Specialist") ];
      list_to_map [ (PositionURI, py "https://www.usajobs.gov/search/");
                    (PositionTitle, py "IT Specialist") ];
      list_to_map [ (PositionTitle, py "Accountant") ] ].

(** ** fetch_2210_jobs.py

    What [response.json()] returns is any JSON value, with arrays and
    objects nested at will.  A float is a fraction; an object is the list
    of its items, in order. *)

#[warnings="-register-all"]
Inductive jval : Type :=
| VNone
| VBool (b : bool)
| VInt (z : Z)
| VFloat (num : Z) (den : positive)
| VStr (s : pystr)
| VList (l : list jval)
| VDict (d : list (pystr * jval)).

Definition jdict : Type := list (pystr * jval).

(** Induction over the values nested in arrays and objects. *)
Section JvalInd.

Variable P : jval -> Prop.
Hypothesis HNone : P VNone.
Hypothesis HBool : ∀ b, P (VBool b).
Hypothesis HInt : ∀ z, P (VInt z).
Hypothesis HFloat : ∀ num den, P (VFloat num den).
Hypothesis HStr : ∀ s, P (VStr s).
Hypothesis HList : ∀ l, Forall P l → P (VList l).
Hypothesis HDict : ∀ d, Forall (fun kv => P kv.2) d → P (VDict d).

Fixpoint jval_nested_ind (v : jval) : P v :=
  match v with
  | VNone => HNone
  | VBool b => HBool b
  | VInt z => HInt z
  | VFloat num den => HFloat num den
  | VStr s => HStr s
  | VList l =>
      HList l
        ((fix go (l : list jval) : Forall P l :=
            match l with
            | [] => @List.Forall_nil _ P
            | x :: l' => @List.Forall_cons _ P x l' (jval_nested_ind x) (go l')
            end) l)
  | VDict d =>
      HDict d
        ((fix go (d : jdict) : Forall (fun kv => P kv.2) d :=
            match d with
            | [] => @List.Forall_nil _ (fun kv => P kv.2)
            | (k, x) :: d' =>
                @List.Forall_cons _ (fun kv => P kv.2) (k, x) d'
                  (jval_nested_ind x) (go d')
            end) d)
  end.

End JvalInd.

(** [isinstance(v, (dict, list))] *)
Definition is_container (v : jval) : bool :=
  match v with
  | VList _ | VDict _ => true
  | _ => false
  end.

(** Truth value, as [if v:] and [a or b] test it. *)
Definition jtruthy (v : jval) : bool :=
  match v with
  | VNone => false
  | VBool b => b
  | VInt z => negb (z =? 0)
  | VFloat num _ => negb (num =? 0)
  | VStr s => negb (bool_decide (s = []))
  | VList l => negb (bool_decide (l = []))
  | VDict d => negb (bool_decide (d = []))
  end.

(** [d.get(k)] on a [dict] *)
Fixpoint jget (k : pystr) (d : jdict) : option jval :=
  match d with
  | [] => None
  | (k', v) :: d' => if bool_decide (k = k') then Some v else jget k d'
  end.

(** [d[k] = v]: a key that is there keeps its place, a new one goes last. *)
Fixpoint jset (k : pystr) (v : jval) (d : jdict) : jdict :=
  match d with
  | [] => [(k, v)]
  | (k', v') :: d' =>
      if bool_decide (k = k') then (k', v) :: d' else (k', v') :: jset k v d'
  end.

(** [d.update(other)] *)
Definition jupdate (d other : jdict) : jdict :=
  foldl (fun acc kv => jset kv.1 kv.2 acc) d other.

(** [sep.join(l)] *)
Fixpoint join (sep : pystr) (l : list pystr) : pystr :=
  match l with
  | [] => []
  | [x] => x
  | x :: l' => x ++ sep ++ join sep l'
  end.

(** [s.split(sep)[0]] for a one-character separator. *)
Fixpoint first_field (sep : N) (s : pystr) : pystr :=
  match s with
  | [] => []
  | c :: s' => if (c =? sep)%N then [] else c :: first_field sep s'
  end.

(** What escapes a function. *)
Inductive exception : Type := ValueError | TypeError | AttributeError.

Inductive outcome (A : Type) : Type :=
| Returns (a : A)
| Raises (e : exception).
Arguments Returns {A} a.
Arguments Raises {A} e.

(** What one request of [fetch_2210_jobs] comes to: an exception of
    [requests] ([get], [raise_for_status]), or a search result, of which
    the loop reads the items and the count ([0] when it has none).  The
    responses modelled are those whose [SearchResult] is an object, whose
    items are a list and whose count is an integer. *)
Inductive response : Type :=
| RequestException
| SearchResult (SearchResultItems : list jval) (SearchResultCountAll : Z).

Section Fetch.

(** [str(v)] and [json.dumps(v)] are the interpreter's. *)
Variable str : jval -> pystr.
Variable dumps : jval -> pystr.
(** [datetime.strptime(s, '%Y-%m-%d')] as a timestamp; [None] is its
    [ValueError]. *)
Variable strptime : pystr -> option Z.

Fixpoint flatten_json (obj : jval) (prefix sep : pystr) : jdict :=
  match obj with
  | VDict d =>
      (fix items (d : jdict) (flattened : jdict) {struct d} : jdict :=
         match d with
         | [] => flattened
         | (key, value) :: d' =>
             let new_key :=
               if bool_decide (prefix = []) then key
               else prefix ++ sep ++ key in
             items d'
               match value with
               | VList (v0 :: vs) =>
                   if negb (is_container v0) then
                     (* Simple list of primitives - join as string *)
                     jset new_key
                       (VStr (join (py ", ") (str <$> v0 :: vs))) flattened
                   else
                     (* List of objects - convert to JSON string *)
                     jset new_key (VStr (dumps value)) flattened
               | VDict _ =>
                   (* Nested dict - recursively flatten *)
                   jupdate flattened (flatten_json value new_key sep)
               | VList [] =>
                   (* Empty list *)
                   jset new_key VNone flattened
               | _ => jset new_key value flattened
               end
         end) d []
  | VList _ =>
      (* Top-level list - convert to JSON string *)
      [(prefix, VStr (dumps obj))]
  | _ => [(prefix, obj)]
  end.

(** One turn of the loop of [flatten_json] over the items of a [dict]:
    [flattened] after the item [kv]. *)
Definition flatten_item (prefix sep : pystr) (flattened : jdict)
    (kv : pystr * jval) : jdict :=
  let new_key :=
    if bool_decide (prefix = []) then kv.1 else prefix ++ sep ++ kv.1 in
  match kv.2 with
  | VList (v0 :: vs) =>
      if negb (is_container v0) then
        jset new_key (VStr (join (py ", ") (str <$> v0 :: vs))) flattened
      else jset new_key (VStr (dumps kv.2)) flattened
  | VDict _ => jupdate flattened (flatten_json kv.2 new_key sep)
  | VList [] => jset new_key VNone flattened
  | _ => jset new_key kv.2 flattened
  end.

(** [a or b] *)
Definition jor (a b : jval) : jval := if jtruthy a then a else b.

(** ['T' == v] *)
Definition is_T (v : jval) : bool :=
  match v with
  | VStr s => bool_decide (s = py "T")
  | _ => false
  end.

(** The first two lines of the [try] block of [filter_jobs_since_october]:
    [date_str], or the [AttributeError] of a [get] on what is no [dict]. *)
Definition date_str_of (job : jval) : outcome jval :=
  match job with
  | VDict job =>
      match default (VDict []) (jget (py "MatchedObjectDescriptor") job) with
      | VDict matched_obj =>
          Returns
            (jor (default VNone (jget (py "PositionStartDate") matched_obj))
                 (default VNone (jget (py "PublicationStartDate") matched_obj)))
      | _ => Raises AttributeError
      end
  | _ => Raises AttributeError
  end.

(** The rest of the block, for a [date_str] that is true: [date_posted],
    or what is raised by ['T' in date_str], [date_str.split] and
    [strptime]. *)
Definition parse_date_str (date_str : jval) : outcome Z :=
  match date_str with
  | VStr s =>
      (* Handle various date formats *)
      let s := if contains (py "T") s then first_field 84 s else s in
      match strptime s with
      | Some date_posted => Returns date_posted
      | None => Raises ValueError
      end
  | VList l =>
      if existsb is_T l then Raises AttributeError else Raises TypeError
  | VDict d =>
      if bool_decide (is_Some (jget (py "T") d)) then Raises AttributeError
      else Raises TypeError
  | VNone | VBool _ | VInt _ | VFloat _ _ => Raises TypeError
  end.

(** The [try] block: [date_posted] ([None] when it is left unset). *)
Definition date_posted_of (job : jval) : outcome (option Z) :=
  match date_str_of job with
  | Returns date_str =>
      if jtruthy date_str then
        match parse_date_str date_str with
        | Returns date_posted => Returns (Some date_posted)
        | Raises e => Raises e
        end
      else Returns None
  | Raises e => Raises e
  end.

(** The loop of [filter_jobs_since_october]: [ValueError] and
    [AttributeError] skip the job, any other exception escapes. *)
Fixpoint filter_jobs_loop (jobs filtered_jobs : list jval)
  : outcome (list jval) :=
  match jobs with
  | [] => Returns filtered_jobs
  | job :: jobs' =>
      match date_posted_of job with
      | Raises ValueError | Raises AttributeError =>
          filter_jobs_loop jobs' filtered_jobs
      | Raises e => Raises e
      | Returns date_posted =>
          filter_jobs_loop jobs'
            match date_posted with
            | Some date_posted =>
                if cutoff_date <=? date_posted
                then filtered_jobs ++ [job] else filtered_jobs
            | None => filtered_jobs
            end
      end
  end.

Definition filter_jobs_since_october (jobs : list jval)
  : outcome (list jval) :=
  filter_jobs_loop jobs [].

(** The job is appended to [filtered_jobs]. *)
Definition kept (job : jval) : bool :=
  match date_posted_of job with
  | Returns (Some date_posted) => cutoff_date <=? date_posted
  | _ => false
  end.

(** The turn of the loop for this job raises what the loop does not
    catch. *)
Definition escapes (job : jval) : bool :=
  match date_posted_of job with
  | Raises TypeError => true
  | _ => false
  end.

(** [isinstance(v, (bool, int, float))] *)
Definition is_number (v : jval) : bool :=
  match v with
  | VBool _ | VInt _ | VFloat _ _ => true
  | _ => false
  end.

(** The server: the response to the request for a page. *)
Variable request : Z -> response.

(** The [while True] loop, with a bound on the number of requests: [None]
    when the bound is reached.  It returns [all_jobs] and what it has
    printed. *)
Fixpoint fetch_pages (bound : nat) (page : Z) (all_jobs : list jval)
    (out : list line) : option (list jval * list line) :=
  match bound with
  | O => None
  | S bound =>
      match request page with
      | RequestException =>
          Some (all_jobs, out ++ [Line FAIL "Error fetching page" [ANum page]])
      | SearchResult [] _ => Some (all_jobs, out)
      | SearchResult items total_count =>
          let all_jobs := all_jobs ++ items in
          let out :=
            out ++ [Line PLAIN "Page"
                      [ANum page; ANum (Z.of_nat (length items))]] in
          (* Check if this is the last page *)
          if total_count <=? Z.of_nat (length all_jobs)
          then Some (all_jobs, out)
          else fetch_pages bound (page + 1) all_jobs out
      end
  end.

(** [fetch_2210_jobs()], given [USAJOBS_API_TOKEN]. *)
Definition fetch_2210_jobs (bound : nat) (api_key : option pystr)
  : option (outcome (list jval) * list line) :=
  let out := [Line PLAIN "Fetching 2210 jobs from USAJobs API" []] in
  match api_key with
  | None | Some [] => Some (Raises ValueError, out)
  | Some _ =>
      '(all_jobs, out) ← fetch_pages bound 1 [] out;
      let out :=
        out ++ [Line PASS "Fetched total 2210 jobs"
                  [ANum (Z.of_nat (length all_jobs))]] in
      match filter_jobs_since_october all_jobs with
      | Raises e => Some (Raises e, out)
      | Returns filtered_jobs =>
          Some (Returns filtered_jobs,
                out ++ [Line PLAIN "Filtered to jobs posted since October 1"
                          [ANum (Z.of_nat (length filtered_jobs))]])
      end
  end.

End Fetch.

(** ** Sample records and servers *)

Module Api.

(** A [strptime] for the dates written [YYYY-MM-DD]. *)
Definition strptime (s : pystr) : option Z :=
  if (length s =? 10)%nat then Iso.parse s else None.

Definition job (id : string) (start publication : jval) : jval :=
  VDict [ (py "MatchedObjectId", VStr (py id));
          (py "MatchedObjectDescriptor",
           VDict [ (py "PositionTitle", VStr (py "IT Specialist"));
                   (py "PositionStartDate", start);
                   (py "PublicationStartDate", publication) ]) ].

(** Opened on 2025-10-05. *)
Definition job_new : jval :=
  job "1" (VStr (py "2025-10-05T00:00:00.0000")) (VStr (py "2025-09-28")).

(** Opened on 2025-09-30. *)
Definition job_old : jval :=
  job "2" (VStr (py "2025-09-30")) (VStr (py "2025-10-02")).

(** A start date that is a number. *)
Definition job_number : jval := job "3" (VInt 20251005) VNone.

(** Opened on 2025-10-09. *)
Definition job_newer : jval := job "4" (VStr (py "2025-10-09")) VNone.

(** The records above hold no list: [str] and [json.dumps] are not called
    when they are flattened. *)
Definition no_text (v : jval) : pystr := [].

(** The items of the descriptor of [job_new]. *)
Definition descriptor_new : jdict :=
  [ (py "PositionTitle", VStr (py "IT Specialist"));
    (py "PositionStartDate", VStr (py "2025-10-05T00:00:00.0000"));
    (py "PublicationStartDate", VStr (py "2025-09-28")) ].

(** A server with three jobs on two pages. *)
Definition server (page : Z) : response :=
  if page =? 1 then SearchResult [job_new; job_old] 3
  else if page =? 2 then SearchResult [job_newer] 3
  else SearchResult [] 3.

(** The same server when the request for page 2 fails, and when page 2
    is empty. *)
Definition server_failing (page : Z) : response :=
  if page =? 2 then RequestException else server page.

Definition server_ending (page : Z) : response :=
  if page =? 2 then SearchResult [] 3 else server page.

End Api.

(** ** The process, with the baseline file as it may be found

    The verifier writes [data_baseline.json] as a JSON object, and the
    state [world] above holds the file as such.  A run finds the file as
    it is: it may hold text that is no JSON, or a JSON value that is no
    object.  The state of a process has the file in that generality, and
    the clock as the sequence of the readings of [datetime.now()]; a
    computation returns a value or raises an exception. *)

Inductive baseline_file : Type :=
| NoFile                 (* [os.path.exists] is false *)
| NotJson                (* [json.load] raises [JSONDecodeError] *)
| Json (v : json).       (* [json.load] returns [v] *)

Record process : Type := Process {
  p_parquet : option (option frame);
  p_baseline : baseline_file;
  p_metrics : option (option json);
  (** the readings of [datetime.now().isoformat()], in order *)
  p_clock : nat -> pystr;
  (** how many readings have been taken *)
  p_ticks : nat;
  p_stdout : list line
}.

Definition P (A : Type) : Type := process -> outcome A * process.

#[global] Instance P_ret : MRet P := fun A a d => (Returns a, d).
#[global] Instance P_bind : MBind P :=
  fun A B f m d =>
    match m d with
    | (Returns a, d') => f a d'
    | (Raises e, d') => (Raises e, d')
    end.

Definition raise {A} (e : exception) : P A := fun d => (Raises e, d).

(** The files as a computation sees them that reads neither the baseline
    file nor the clock. *)
Definition view (d : process) : world :=
  World (p_parquet d)
        match p_baseline d with
        | Json (JObj b) => Some b
        | _ => None
        end
        (p_metrics d) (p_clock d (p_ticks d)) (p_stdout d).

(** A computation that leaves the files alone, reads neither the baseline
    file nor the clock and raises nothing, run in a process: what it
    prints is printed. *)
Definition lift {A} (m : M A) : P A := fun d =>
  let '(a, w') := m (view d) in
  (Returns a,
   Process (p_parquet d) (p_baseline d) (p_metrics d) (p_clock d) (p_ticks d)
           (stdout w')).

(** [load_baseline()]; [JSONDecodeError] is a [ValueError]. *)
Definition load_baseline' : P (option json) := fun d =>
  match p_baseline d with
  | NoFile => (Returns None, d)
  | NotJson => (Raises ValueError, d)
  | Json v => (Returns (Some v), d)
  end.

Definition save_baseline' (baseline_data : dict) : P unit := fun d =>
  (Returns tt,
   Process (p_parquet d) (Json (JObj baseline_data)) (p_metrics d)
           (p_clock d) (p_ticks d) (p_stdout d)).

Definition datetime_now' : P pystr := fun d =>
  (Returns (p_clock d (p_ticks d)),
   Process (p_parquet d) (p_baseline d) (p_metrics d)
           (p_clock d) (S (p_ticks d)) (p_stdout d)).

(** The process once it has printed [ls]. *)
Definition add_stdout (ls : list line) (d : process) : process :=
  Process (p_parquet d) (p_baseline d) (p_metrics d) (p_clock d) (p_ticks d)
          (p_stdout d ++ ls).

(** [not baseline], for what [load_baseline()] returned. *)
Definition not_baseline (baseline : option json) : bool :=
  match baseline with
  | None => true
  | Some v => negb (truthy v)
  end.

(** The status the interpreter exits with on [sys.exit(run_tests())]: an
    exception nobody catches ends it with status 1. *)
Definition exit_status (o : outcome Z) : Z :=
  match o with
  | Returns status => status
  | Raises _ => 1
  end.

(** Two processes that find data, a metrics file and a baseline file that
    is no snapshot. *)
Module Crash.

Definition clock (n : nat) : pystr :=
  py "2025-11-03T12:00:0" ++ [(48 + N.of_nat n)%N].

(** The baseline file holds no JSON. *)
Definition garbled : process :=
  Process (Some (Some Sample.df_ab)) NotJson
          (Some (Some (Sample.metrics_with Sample.recent_ok))) clock 0 [].

(** The baseline file holds a list of identifiers, not an object. *)
Definition listed : process :=
  Process (Some (Some Sample.df_ab)) (Json (JArr [py "A1"; py "B2"]))
          (Some (Some (Sample.metrics_with Sample.recent_ok))) clock 0 [].

End Crash.

(** ** test_data_integrity.py

    [pd.to_datetime] and [Timestamp.isoformat] belong to pandas; the checks
    are embedded over any implementation of them.  A timestamp is its
    (time-zone-naive) number of nanoseconds since the epoch. *)

Section Verifier.

(** [pd.to_datetime(series, errors='coerce')]: one result per cell, [None]
    for [NaT]. *)
Variable to_datetime : list (option pystr) -> list (option Z).
(** [pd.to_datetime(value)] on one value; [None] when it raises. *)
Variable to_datetime1 : json -> option Z.
(** [timestamp.isoformat()] *)
Variable isoformat : Z -> pystr.

(** [series.max()] of a non-empty series. *)
Definition series_max (d : Z) (ds : list Z) : Z := foldr Z.max d ds.

(** The loop over [date_cols] that [test_date_progression] and
    [create_initial_baseline] both run on the IT-specialist rows: the
    largest date of the recognised columns, [None] when there is none. *)
Definition most_recent_in (cols : list string)
    (it_jobs : list (gmap string pystr)) : option Z :=
  foldl (fun current_max_date col =>
           if has_column cols col then
             match dropna (to_datetime (column it_jobs col)) with
             | [] => current_max_date
             | d :: ds =>
                 let col_max := series_max d ds in
                 match current_max_date with
                 | None => Some col_max
                 | Some cur => if col_max >? cur then Some col_max else Some cur
                 end
             end
           else current_max_date)
        None date_cols.

(** [df[df['is_it_specialist'] == True]] after the title column has been
    classified. *)
Definition it_specialist_rows (df : frame) : list (gmap string pystr) :=
  filter (fun r : gmap string pystr =>
            is_it_specialist (r !! PositionTitle) = true) (rows df).

(** The job identifiers of a frame, in row order. *)
Definition job_id_list (df : frame) : list pystr :=
  if has_column (columns df) PositionID then
    dropna (column (rows df) PositionID)
  else if has_column (columns df) PositionURI then
    let uris := dropna (column (rows df) PositionURI) in
    last_field 47 <$>
      filter (fun uri => contains (py "/job/") uri = true) uris
  else [].

(** The most recent IT-specialist date of a frame, as
    [create_initial_baseline] computes it: [None] without a title column,
    without IT-specialist rows or without a valid date among them. *)
Definition most_recent_it_date (df : frame) : option Z :=
  if has_column (columns df) PositionTitle then
    let it_jobs := it_specialist_rows df in
    if (0 <? length it_jobs)%nat
    then most_recent_in (columns df) it_jobs
    else None
  else None.

Definition create_initial_baseline (latest_file : option frame) : M unit :=
  match latest_file with
  | None => print (Line FAIL "Error creating baseline" [])
  | Some df =>
      let job_ids := job_id_list df in
      let most_recent_date := most_recent_it_date df in
      now ← datetime_now;
      let baseline :=
        [ (py "created_at", JStr now);
          (py "job_ids", JArr job_ids);
          (py "total_jobs", JNum (Z.of_nat (length (rows df))));
          (py "most_recent_it_specialist_date",
           match most_recent_date with
           | Some d => JStr (isoformat d)
           | None => JNull
           end) ] in
      save_baseline baseline;;
      print (Line PASS "Created baseline with job IDs"
               [ANum (Z.of_nat (length job_ids))])
  end.

Definition test_parquet_file_validity : M bool :=
  latest_file ← get_latest_parquet_file;
  match latest_file with
  | None => print (Line FAIL "No parquet files found" []);; mret false
  | Some None =>
      print (Line FAIL "Could not read parquet file" []);; mret false
  | Some (Some df) =>
      if (length (rows df) =? 0)%nat then
        print (Line FAIL "Parquet file is empty" []);; mret false
      else
        print (Line PASS "Parquet file valid"
                 [ANum (Z.of_nat (length (rows df)))]);;
        mret true
  end.

Definition test_no_job_loss : M bool :=
  baseline ← load_baseline;
  latest_file ← get_latest_parquet_file;
  match latest_file with
  | None => print (Line FAIL "No current data to test" []);; mret false
  | Some latest_file =>
      if no_baseline baseline then
        print (Line WARN "No baseline found - creating initial baseline" []);;
        create_initial_baseline latest_file;;
        mret true
      else
        let baseline := default [] baseline in
        let baseline_filter :=
          default (JStr (py "Unknown")) (dict_get (py "data_filter") baseline) in
        if differs_from baseline_filter current_filter then
          print (Line WARN "Data filter changed"
                   [AJson baseline_filter; AStr current_filter]);;
          print (Line WARN "Resetting baseline due to filter change" []);;
          create_initial_baseline latest_file;;
          mret true
        else
          match latest_file with
          | None =>
              print (Line FAIL "Error checking job loss" []);; mret false
          | Some df =>
              let current_ids : gset pystr := list_to_set (job_id_list df) in
              match py_set (default (JArr []) (dict_get (py "job_ids") baseline)) with
              | None =>
                  print (Line FAIL "Error checking job loss" []);; mret false
              | Some baseline_ids =>
                  if bool_decide (current_ids = ∅) then
                    print (Line FAIL
                             "Could not extract job IDs from current data" []);;
                    mret false
                  else
                    let lost_jobs := baseline_ids ∖ current_ids in
                    let new_jobs := current_ids ∖ baseline_ids in
                    if negb (bool_decide (lost_jobs = ∅)) then
                      print (Line CRITICAL_FAIL "jobs LOST!"
                               [ANum (Z.of_nat (size lost_jobs))]);;
                      print (Line PLAIN "First 10 lost job IDs"
                               [AIds (take 10 (elements lost_jobs))]);;
                      mret false
                    else
                      print (Line PASS "No jobs lost (+new jobs)"
                               [ANum (Z.of_nat (size new_jobs))]);;
                      mret true
              end
          end
  end.

Definition test_date_progression : M bool :=
  baseline ← load_baseline;
  latest_file ← get_latest_parquet_file;
  match latest_file with
  | None =>
      print (Line WARN "Cannot test date progression without baseline" []);;
      mret true
  | Some latest_file =>
      if no_baseline baseline then
        print (Line WARN "Cannot test date progression without baseline" []);;
        mret true
      else
        let baseline := default [] baseline in
        match latest_file with
        | None =>
            print (Line FAIL "Error checking date progression" []);;
            mret false
        | Some df =>
            if negb (has_column (columns df) PositionTitle) then
              print (Line WARN "No position title column for classification" []);;
              mret true
            else
              let it_jobs := it_specialist_rows df in
              if (length it_jobs =? 0)%nat then
                print (Line WARN "No IT specialist jobs found" []);;
                mret true
              else
                match most_recent_in (columns df) it_jobs with
                | None =>
                    print (Line WARN
                      "Could not find valid dates in IT specialist jobs" []);;
                    mret true
                | Some current_max_date =>
                    let baseline_max_date_str :=
                      default JNull
                        (dict_get (py "most_recent_it_specialist_date") baseline) in
                    if truthy baseline_max_date_str then
                      match to_datetime1 baseline_max_date_str with
                      | None =>
                          print (Line FAIL "Error checking date progression" []);;
                          mret false
                      | Some baseline_max_date =>
                          if current_max_date <? baseline_max_date then
                            print (Line CRITICAL_FAIL
                              "Most recent IT specialist date went BACKWARDS!" []);;
                            print (Line PLAIN "Baseline" [AJson baseline_max_date_str]);;
                            print (Line PLAIN "Current"
                                     [AStr (isoformat current_max_date)]);;
                            mret false
                          else if current_max_date >? baseline_max_date then
                            print (Line PASS "Most recent date advanced"
                                     [AJson baseline_max_date_str;
                                      AStr (isoformat current_max_date)]);;
                            mret true
                          else
                            print (Line PASS "Most recent date unchanged"
                                     [AStr (isoformat current_max_date)]);;
                            mret true
                      end
                    else
                      print (Line PASS "First time tracking date"
                               [AStr (isoformat current_max_date)]);;
                      mret true
                end
        end
  end.

(** The loop of [test_october_filter]: the pair [(violations,
    total_with_dates)] over the recognised date columns of the frame. *)
Definition count_dates (df : frame) : nat * nat :=
  foldl (fun '(violations, total_with_dates) col =>
           if has_column (columns df) col then
             let dates := to_datetime (column (rows df) col) in
             let valid_dates := dropna dates in
             if (0 <? length valid_dates)%nat then
               let before_cutoff :=
                 length (filter (fun d => d < cutoff_date) valid_dates) in
               (violations + before_cutoff, total_with_dates + length valid_dates)%nat
             else (violations, total_with_dates)
           else (violations, total_with_dates))
        (0%nat, 0%nat) date_cols.

Definition test_october_filter : M bool :=
  latest_file ← get_latest_parquet_file;
  match latest_file with
  | None => print (Line FAIL "No data file to test" []);; mret false
  | Some None => print (Line FAIL "Error checking date filter" []);; mret false
  | Some (Some df) =>
      let '(violations, total_with_dates) := count_dates df in
      if (0 <? violations)%nat then
        print (Line FAIL "jobs found before October 1, 2025"
                 [ANum (Z.of_nat violations)]);;
        mret false
      else if (0 <? total_with_dates)%nat then
        print (Line PASS "All dated jobs are from October 1, 2025 or later"
                 [ANum (Z.of_nat total_with_dates)]);;
        mret true
      else
        print (Line WARN "No valid dates found to check" []);;
        mret true
  end.

Definition required_fields : list pystr :=
  [py "total_2210_jobs"; py "it_specialist_jobs";
   py "it_specialist_percentage"; py "most_recent_it_specialist"].

Definition required_subfields : list pystr :=
  [py "title"; py "date_posted"; py "link"].

(** [[field for field in fields if field not in v]]; [None] when [in]
    raises. *)
Fixpoint fields_not_in (fields : list pystr) (v : json) : option (list pystr) :=
  match fields with
  | [] => Some []
  | field :: fields' =>
      match py_in field v with
      | None => None
      | Some present =>
          rest ← fields_not_in fields' v;
          Some (if present then rest else field :: rest)
      end
  end.

(** [all(key in v for key in keys)]: stops at the first key that is not
    in [v]; [None] when [in] raises. *)
Fixpoint all_in (keys : list pystr) (v : json) : option bool :=
  match keys with
  | [] => Some true
  | key :: keys' =>
      match py_in key v with
      | None => None
      | Some false => Some false
      | Some true => all_in keys' v
      end
  end.

Definition test_metrics_json : M bool :=
  metrics_file ← read_metrics_file;
  match metrics_file with
  | None => print (Line FAIL "Metrics JSON file not found" []);; mret false
  | Some None => print (Line FAIL "Error reading metrics JSON" []);; mret false
  | Some (Some metrics) =>
      match fields_not_in required_fields metrics with
      | None => print (Line FAIL "Error reading metrics JSON" []);; mret false
      | Some missing_fields =>
          if negb (bool_decide (missing_fields = [])) then
            print (Line FAIL "Metrics JSON missing fields" [AIds missing_fields]);;
            mret false
          else
            match subscript metrics (py "most_recent_it_specialist") with
            | None =>
                print (Line FAIL "Error reading metrics JSON" []);; mret false
            | Some recent =>
                match all_in required_subfields recent with
                | None =>
                    print (Line FAIL "Error reading metrics JSON" []);;
                    mret false
                | Some false =>
                    print (Line FAIL
                      "Most recent IT specialist missing required fields" []);;
                    mret false
                | Some true =>
                    print (Line PASS "Metrics JSON valid" []);;
                    print (Line PLAIN "IT specialist jobs"
                      (AJson <$> omap (subscript metrics)
                         [py "it_specialist_jobs"; py "total_2210_jobs";
                          py "it_specialist_percentage"]));;
                    mret true
                end
            end
      end
  end.

Definition update_baseline : M unit :=
  latest_file ← get_latest_parquet_file;
  match latest_file with
  | Some latest_file => create_initial_baseline latest_file
  | None => mret tt
  end.

Definition run_tests : M Z :=
  print (Line PLAIN "2210 JOBS DATA INTEGRITY TESTS" []);;
  now ← datetime_now;
  print (Line PLAIN "Run Time" [AStr now]);;
  let all_passed := true in
  print_header "1. PARQUET FILE VALIDITY";;
  r ← test_parquet_file_validity;
  let all_passed := if negb r then false else all_passed in
  print_header "2. NO JOB LOSS TEST";;
  r ← test_no_job_loss;
  let all_passed := if negb r then false else all_passed in
  print_header "3. DATE PROGRESSION TEST";;
  r ← test_date_progression;
  let all_passed := if negb r then false else all_passed in
  print_header "4. OCTOBER 1, 2024 FILTER TEST";;
  r ← test_october_filter;
  let all_passed := if negb r then false else all_passed in
  print_header "5. METRICS JSON TEST";;
  r ← test_metrics_json;
  let all_passed := if negb r then false else all_passed in
  print_header "TEST SUMMARY";;
  if all_passed then
    print (Line PASS "ALL TESTS PASSED!" []);;
    print (Line PLAIN "Data integrity verified. Updating baseline..." []);;
    update_baseline;;
    print (Line PASS "Baseline updated" []);;
    mret 0
  else
    print (Line FAIL "SOME TESTS FAILED!" []);;
    print (Line PLAIN "Data integrity issues detected!" []);;
    mret 1.

(** *** Notions the properties are stated with *)

(** The valid dates of the given columns of a frame, column by column. *)
Definition valid_dates_of (present : list string)
    (rs : list (gmap string pystr)) (cols : list string) : list Z :=
  col ← filter (fun col => has_column present col = true) cols;
  dropna (to_datetime (column rs col)).

(** The valid dates of the recognised date columns of a frame. *)
Definition dated_values (df : frame) : list Z :=
  valid_dates_of (columns df) (rows df) date_cols.

(** The verdicts of the five checks of a run started in [w], in order.
    Only the no-job-loss check can write the baseline; the checks after it
    find the files as it left them. *)
Definition verdicts (w : world) : list bool :=
  let w2 := (test_no_job_loss w).2 in
  [ (test_parquet_file_validity w).1;
    (test_no_job_loss w).1;
    (test_date_progression w2).1;
    (test_october_filter w2).1;
    (test_metrics_json w2).1 ].

(** What a run has printed when it reaches its summary. *)
Definition report (w : world) : list line :=
  let w2 := (test_no_job_loss w).2 in
  [Line PLAIN "2210 JOBS DATA INTEGRITY TESTS" [];
   Line PLAIN "Run Time" [AStr (clock w)]]
  ++ Line PLAIN "1. PARQUET FILE VALIDITY" []
     :: printed test_parquet_file_validity w
  ++ Line PLAIN "2. NO JOB LOSS TEST" []
     :: printed test_no_job_loss w
  ++ Line PLAIN "3. DATE PROGRESSION TEST" []
     :: printed test_date_progression w2
  ++ Line PLAIN "4. OCTOBER 1, 2024 FILTER TEST" []
     :: printed test_october_filter w2
  ++ Line PLAIN "5. METRICS JSON TEST" []
     :: printed test_metrics_json w2
  ++ [Line PLAIN "TEST SUMMARY" []].

(** The state of a run that reaches its summary. *)
Definition at_summary (w : world) : world :=
  World (parquet w)
        (baseline (test_no_job_loss w).2)
        (metrics w) (clock w) (stdout w ++ report w).

(** The dates of the IT-specialist rows of a frame. *)
Definition it_dates (df : frame) : list Z :=
  valid_dates_of (columns df) (it_specialist_rows df) date_cols.

(** [d] is the maximum of [dates]: the latest of them. *)
Definition latest (d : Z) (dates : list Z) : Prop :=
  d ∈ dates ∧ ∀ t, t ∈ dates → t ≤ d.

(** *** The checks in a process

    The functions above once more, for the baseline file as it may be
    found.  The three checks that do not read the baseline file are the
    ones above. *)

Definition create_initial_baseline' (latest_file : option frame) : P unit :=
  match latest_file with
  | None => lift (print (Line FAIL "Error creating baseline" []))
  | Some df =>
      let job_ids := job_id_list df in
      let most_recent_date := most_recent_it_date df in
      now ← datetime_now';
      let baseline :=
        [ (py "created_at", JStr now);
          (py "job_ids", JArr job_ids);
          (py "total_jobs", JNum (Z.of_nat (length (rows df))));
          (py "most_recent_it_specialist_date",
           match most_recent_date with
           | Some d => JStr (isoformat d)
           | None => JNull
           end) ] in
      save_baseline' baseline;;
      lift (print (Line PASS "Created baseline with job IDs"
                     [ANum (Z.of_nat (length job_ids))]))
  end.

Definition test_parquet_file_validity' : P bool :=
  lift test_parquet_file_validity.

Definition test_no_job_loss' : P bool :=
  baseline ← load_baseline';
  latest_file ← lift get_latest_parquet_file;
  match latest_file with
  | None => lift (print (Line FAIL "No current data to test" []));; mret false
  | Some latest_file =>
      if not_baseline baseline then
        lift (print (Line WARN "No baseline found - creating initial baseline" []));;
        create_initial_baseline' latest_file;;
        mret true
      else
        match baseline with
        | Some (JObj baseline) =>
            let baseline_filter :=
              default (JStr (py "Unknown"))
                (dict_get (py "data_filter") baseline) in
            if differs_from baseline_filter current_filter then
              lift (print (Line WARN "Data filter changed"
                             [AJson baseline_filter; AStr current_filter]));;
              lift (print (Line WARN "Resetting baseline due to filter change" []));;
              create_initial_baseline' latest_file;;
              mret true
            else
              match latest_file with
              | None =>
                  lift (print (Line FAIL "Error checking job loss" []));;
                  mret false
              | Some df =>
                  let current_ids : gset pystr :=
                    list_to_set (job_id_list df) in
                  match py_set (default (JArr [])
                                  (dict_get (py "job_ids") baseline)) with
                  | None =>
                      lift (print (Line FAIL "Error checking job loss" []));;
                      mret false
                  | Some baseline_ids =>
                      if bool_decide (current_ids = ∅) then
                        lift (print (Line FAIL
                          "Could not extract job IDs from current data" []));;
                        mret false
                      else
                        let lost_jobs := baseline_ids ∖ current_ids in
                        let new_jobs := current_ids ∖ baseline_ids in
                        if negb (bool_decide (lost_jobs = ∅)) then
                          lift (print (Line CRITICAL_FAIL "jobs LOST!"
                                         [ANum (Z.of_nat (size lost_jobs))]));;
                          lift (print (Line PLAIN "First 10 lost job IDs"
                                         [AIds (take 10 (elements lost_jobs))]));;
                          mret false
                        else
                          lift (print (Line PASS "No jobs lost (+new jobs)"
                                         [ANum (Z.of_nat (size new_jobs))]));;
                          mret true
                  end
              end
        | _ =>
            (* [baseline.get] on a string, a list, a number or [True]:
               an [AttributeError], outside every [try] *)
            raise AttributeError
        end
  end.

Definition test_date_progression' : P bool :=
  baseline ← load_baseline';
  latest_file ← lift get_latest_parquet_file;
  match latest_file with
  | None =>
      lift (print (Line WARN "Cannot test date progression without baseline" []));;
      mret true
  | Some latest_file =>
      if not_baseline baseline then
        lift (print (Line WARN "Cannot test date progression without baseline" []));;
        mret true
      else
        match latest_file with
        | None =>
            lift (print (Line FAIL "Error checking date progression" []));;
            mret false
        | Some df =>
            if negb (has_column (columns df) PositionTitle) then
              lift (print (Line WARN "No position title column for classification" []));;
              mret true
            else
              let it_jobs := it_specialist_rows df in
              if (length it_jobs =? 0)%nat then
                lift (print (Line WARN "No IT specialist jobs found" []));;
                mret true
              else
                match most_recent_in (columns df) it_jobs with
                | None =>
                    lift (print (Line WARN
                      "Could not find valid dates in IT specialist jobs" []));;
                    mret true
                | Some current_max_date =>
                    match baseline with
                    | Some (JObj baseline) =>
                        let baseline_max_date_str :=
                          default JNull
                            (dict_get (py "most_recent_it_specialist_date")
                               baseline) in
                        if truthy baseline_max_date_str then
                          match to_datetime1 baseline_max_date_str with
                          | None =>
                              lift (print (Line FAIL
                                "Error checking date progression" []));;
                              mret false
                          | Some baseline_max_date =>
                              if current_max_date <? baseline_max_date then
                                lift (print (Line CRITICAL_FAIL
                                  "Most recent IT specialist date went BACKWARDS!" []));;
                                lift (print (Line PLAIN "Baseline"
                                               [AJson baseline_max_date_str]));;
                                lift (print (Line PLAIN "Current"
                                               [AStr (isoformat current_max_date)]));;
                                mret false
                              else if current_max_date >? baseline_max_date then
                                lift (print (Line PASS "Most recent date advanced"
                                               [AJson baseline_max_date_str;
                                                AStr (isoformat current_max_date)]));;
                                mret true
                              else
                                lift (print (Line PASS "Most recent date unchanged"
                                               [AStr (isoformat current_max_date)]));;
                                mret true
                          end
                        else
                          lift (print (Line PASS "First time tracking date"
                                         [AStr (isoformat current_max_date)]));;
                          mret true
                    | _ =>
                        (* [baseline.get] raises inside the [try] *)
                        lift (print (Line FAIL
                          "Error checking date progression" []));;
                        mret false
                    end
                end
        end
  end.

Definition test_october_filter' : P bool := lift test_october_filter.

Definition test_metrics_json' : P bool := lift test_metrics_json.

Definition update_baseline' : P unit :=
  latest_file ← lift get_latest_parquet_file;
  match latest_file with
  | Some latest_file => create_initial_baseline' latest_file
  | None => mret tt
  end.

Definition run_tests' : P Z :=
  lift (print (Line PLAIN "2210 JOBS DATA INTEGRITY TESTS" []));;
  now ← datetime_now';
  lift (print (Line PLAIN "Run Time" [AStr now]));;
  let all_passed := true in
  lift (print_header "1. PARQUET FILE VALIDITY");;
  r ← test_parquet_file_validity';
  let all_passed := if negb r then false else all_passed in
  lift (print_header "2. NO JOB LOSS TEST");;
  r ← test_no_job_loss';
  let all_passed := if negb r then false else all_passed in
  lift (print_header "3. DATE PROGRESSION TEST");;
  r ← test_date_progression';
  let all_passed := if negb r then false else all_passed in
  lift (print_header "4. OCTOBER 1, 2024 FILTER TEST");;
  r ← test_october_filter';
  let all_passed := if negb r then false else all_passed in
  lift (print_header "5. METRICS JSON TEST");;
  r ← test_metrics_json';
  let all_passed := if negb r then false else all_passed in
  lift (print_header "TEST SUMMARY");;
  if all_passed then
    lift (print (Line PASS "ALL TESTS PASSED!" []));;
    lift (print (Line PLAIN "Data integrity verified. Updating baseline..." []));;
    update_baseline';;
    lift (print (Line PASS "Baseline updated" []));;
    mret 0
  else
    lift (print (Line FAIL "SOME TESTS FAILED!" []));;
    lift (print (Line PLAIN "Data integrity issues detected!" []));;
    mret 1.

(** The run is aborted by the baseline file: it holds no JSON, or there
    is a data file and it holds a JSON value that is true and no object. *)
Definition aborted_by_baseline (d : process) : bool :=
  match p_baseline d with
  | NoFile => false
  | NotJson => true
  | Json (JObj _) => false
  | Json v => truthy v && bool_decide (p_parquet d ≠ None)
  end.

(** A check runs and reports in [d]: after its header it returns the
    verdict [r], has printed at least one line and leaves the state
    [d']. *)
Definition runs_and_reports (title : string) (test : P bool) (d : process)
    (r : bool) (d' : process) : Prop :=
  ∃ d0 ls,
    lift (print_header title) d = (Returns tt, d0) ∧
    test d0 = (Returns r, d') ∧
    ls ≠ [] ∧
    p_stdout d' = p_stdout d ++ Line PLAIN title [] :: ls.

(** ** Properties of the verifier *)

Ltac run_monad :=
  cbv beta iota zeta delta
    [mbind M_bind mret M_ret get_latest_parquet_file load_baseline
     read_metrics_file datetime_now print print_header save_baseline].

(** *** The cutoff check *)

Lemma dropna_elem {A} (x : A) (cells : list (option A)) :
  x ∈ dropna cells ↔ Some x ∈ cells.
Proof.
  unfold dropna. rewrite list_elem_of_omap. split.
  - intros (o & Ho & Hx). simpl in Hx. by subst.
  - intros H. by exists (Some x).
Qed.

Lemma dated_values_elem df t :
  t ∈ dated_values df ↔
  ∃ col, col ∈ date_cols ∧ col ∈ columns df ∧
         Some t ∈ to_datetime (column (rows df) col).
Proof.
  unfold dated_values, valid_dates_of. rewrite list_elem_of_bind. split.
  - intros (col & Ht & Hc). apply list_elem_of_filter in Hc as [Hc Hd].
    exists col. split; [done|]. split; [by apply bool_decide_eq_true in Hc|].
    by apply dropna_elem.
  - intros (col & Hd & Hc & Ht). exists col. split; [by apply dropna_elem|].
    apply list_elem_of_filter. split; [by apply bool_decide_eq_true | done].
Qed.

Lemma valid_dates_of_cons present rs col cols :
  valid_dates_of present rs (col :: cols) =
  (if has_column present col
   then dropna (to_datetime (column rs col)) else [])
  ++ valid_dates_of present rs cols.
Proof.
  unfold valid_dates_of. rewrite filter_cons.
  destruct (has_column present col) eqn:H.
  - by rewrite decide_True.
  - by rewrite decide_False.
Qed.

Lemma count_dates_fold df cols violations total :
  foldl (fun '(violations, total_with_dates) col =>
           if has_column (columns df) col then
             let dates := to_datetime (column (rows df) col) in
             let valid_dates := dropna dates in
             if (0 <? length valid_dates)%nat then
               let before_cutoff :=
                 length (filter (fun d => d < cutoff_date) valid_dates) in
               (violations + before_cutoff, total_with_dates + length valid_dates)%nat
             else (violations, total_with_dates)
           else (violations, total_with_dates))
        (violations, total) cols =
  (Nat.add violations
     (length (filter (fun d => d < cutoff_date)
               (valid_dates_of (columns df) (rows df) cols))),
   Nat.add total (length (valid_dates_of (columns df) (rows df) cols))).
Proof.
  revert violations total. induction cols as [|col cols IH]; intros violations total.
  - simpl. f_equal; unfold valid_dates_of; simpl; lia.
  - cbn [foldl]. rewrite valid_dates_of_cons.
    destruct (has_column (columns df) col).
    + cbv zeta. destruct (dropna (to_datetime (column (rows df) col))) as [|d ds] eqn:E.
      * simpl. apply IH.
      * change (0 <? length (d :: ds))%nat with true. cbv iota.
        rewrite IH, filter_app, !length_app. f_equal; lia.
    + simpl. apply IH.
Qed.

Lemma count_dates_violations df :
  (count_dates df).1 =
  length (filter (fun d => d < cutoff_date) (dated_values df)).
Proof. unfold count_dates. by rewrite count_dates_fold. Qed.

Lemma count_dates_total df :
  (count_dates df).2 = length (dated_values df).
Proof. unfold count_dates. by rewrite count_dates_fold. Qed.

Lemma october_filter_result w df :
  parquet w = Some (Some df) →
  (test_october_filter w).1 =
  negb (0 <? (count_dates df).1)%nat.
Proof.
  intros H. unfold test_october_filter. run_monad. rewrite H.
  destruct (count_dates df) as [v t]. run_monad. cbn [fst].
  destruct (0 <? v)%nat; [done|]. destruct (0 <? t)%nat; done.
Qed.

(** C5: on a readable data file, the cutoff check fails as soon as one
    value of a recognised date column parses to a date before
    2025-10-01, and passes when every date that parses is at or after
    the cutoff. *)
Theorem october_filter_verdict (w : world) (df : frame) :
  parquet w = Some (Some df) →
  ((∃ col t, col ∈ date_cols ∧ col ∈ columns df ∧
             Some t ∈ to_datetime (column (rows df) col) ∧ t < cutoff_date) →
   (test_october_filter w).1 = false) ∧
  ((∀ col t, col ∈ date_cols → col ∈ columns df →
             Some t ∈ to_datetime (column (rows df) col) → cutoff_date ≤ t) →
   (test_october_filter w).1 = true).
Proof.
  intros Hpq. rewrite (october_filter_result w df Hpq), count_dates_violations.
  split.
  - intros (col & t & Hd & Hc & Ht & Hlt).
    assert (t ∈ filter (fun d => d < cutoff_date) (dated_values df)) as Hin.
    { apply list_elem_of_filter. split; [done|]. apply dated_values_elem. eauto. }
    destruct (filter _ _); [by apply elem_of_nil in Hin | done].
  - intros Hall.
    destruct (filter (fun d => d < cutoff_date) (dated_values df)) as [|t l] eqn:E; [done|].
    assert (t ∈ filter (fun d => d < cutoff_date) (dated_values df)) as Hin
      by (rewrite E; left).
    apply list_elem_of_filter in Hin as [Hlt Hin].
    apply dated_values_elem in Hin as (col & Hd & Hc & Ht).
    specialize (Hall col t Hd Hc Ht). lia.
Qed.

Lemma readonly_behaved {A} (m : M A) : readonly m → behaved m.
Proof. intros H pq bl me ck. destruct (H pq bl me ck) as (a & ls & E). eauto. Qed.

Lemma readonly_ret {A} (a : A) : readonly (mret a : M A).
Proof.
  intros pq bl me ck. exists a, []. intros out.
  unfold mret, M_ret. by rewrite app_nil_r.
Qed.

Lemma readonly_bind {A B} (m : M A) (f : A → M B) :
  readonly m → (∀ a, readonly (f a)) → readonly (m ≫= f).
Proof.
  intros Hm Hf pq bl me ck.
  destruct (Hm pq bl me ck) as (a & ls1 & E1).
  destruct (Hf a pq bl me ck) as (b & ls2 & E2).
  exists b, (ls1 ++ ls2). intros out.
  unfold mbind, M_bind. by rewrite E1, E2, (assoc_L (++)).
Qed.

Lemma behaved_bind {A B} (m : M A) (f : A → M B) :
  behaved m → (∀ a, behaved (f a)) → behaved (m ≫= f).
Proof.
  intros Hm Hf pq bl me ck.
  destruct (Hm pq bl me ck) as (a & bl1 & ls1 & E1).
  destruct (Hf a pq bl1 me ck) as (b & bl2 & ls2 & E2).
  exists b, bl2, (ls1 ++ ls2). intros out.
  unfold mbind, M_bind. by rewrite E1, E2, (assoc_L (++)).
Qed.

Lemma readonly_print l : readonly (print l).
Proof. intros pq bl me ck. by exists tt, [l]. Qed.

Lemma readonly_print_header t : readonly (print_header t).
Proof. apply readonly_print. Qed.

Lemma readonly_load_baseline : readonly load_baseline.
Proof.
  intros pq bl me ck. exists bl, []. intros out.
  unfold load_baseline. simpl. by rewrite app_nil_r.
Qed.

Lemma readonly_get_latest_parquet_file : readonly get_latest_parquet_file.
Proof.
  intros pq bl me ck. exists pq, []. intros out.
  unfold get_latest_parquet_file. simpl. by rewrite app_nil_r.
Qed.

Lemma readonly_read_metrics_file : readonly read_metrics_file.
Proof.
  intros pq bl me ck. exists me, []. intros out.
  unfold read_metrics_file. simpl. by rewrite app_nil_r.
Qed.

Lemma readonly_datetime_now : readonly datetime_now.
Proof.
  intros pq bl me ck. exists ck, []. intros out.
  unfold datetime_now. simpl. by rewrite app_nil_r.
Qed.

Lemma behaved_save_baseline d : behaved (save_baseline d).
Proof.
  intros pq bl me ck. exists tt, (Some d), []. intros out.
  unfold save_baseline. simpl. by rewrite app_nil_r.
Qed.

Create HintDb readonly.

#[local] Hint Resolve readonly_ret readonly_print readonly_print_header
  readonly_load_baseline readonly_get_latest_parquet_file
  readonly_read_metrics_file readonly_datetime_now : readonly.

(** Follows the structure of a computation: binds, branches, primitives. *)
Ltac readonly_steps :=
  repeat first
    [ progress intros
    | apply readonly_bind
    | apply readonly_ret
    | solve [auto with readonly]
    | match goal with
      | |- readonly (match ?x with _ => _ end) => destruct x
      | |- readonly (if ?x then _ else _) => destruct x
      | |- readonly (let '(_, _) := ?x in _) => destruct x
      end ].

Lemma readonly_test_parquet_file_validity : readonly test_parquet_file_validity.
Proof. unfold test_parquet_file_validity. readonly_steps. Qed.

Lemma readonly_test_date_progression :
  readonly test_date_progression.
Proof. unfold test_date_progression. readonly_steps. Qed.

Lemma readonly_test_october_filter : readonly test_october_filter.
Proof. unfold test_october_filter. readonly_steps. Qed.

Lemma readonly_test_metrics_json : readonly test_metrics_json.
Proof. unfold test_metrics_json. readonly_steps. Qed.

Lemma behaved_create_initial_baseline f :
  behaved (create_initial_baseline f).
Proof.
  unfold create_initial_baseline. destruct f as [df|].
  - apply behaved_bind; [apply readonly_behaved, readonly_datetime_now|].
    intros now. apply behaved_bind; [apply behaved_save_baseline|].
    intros _. apply readonly_behaved, readonly_print.
  - apply readonly_behaved, readonly_print.
Qed.

Lemma behaved_test_no_job_loss :
  behaved test_no_job_loss.
Proof.
  unfold test_no_job_loss.
  apply behaved_bind; [apply readonly_behaved; auto with readonly|]. intros bl.
  apply behaved_bind; [apply readonly_behaved; auto with readonly|]. intros latest.
  destruct latest as [latest|]; [|apply readonly_behaved; readonly_steps].
  destruct (no_baseline bl).
  { apply behaved_bind; [apply readonly_behaved; auto with readonly|]. intros _.
    apply behaved_bind; [apply behaved_create_initial_baseline|]. intros _.
    apply readonly_behaved; auto with readonly. }
  cbv zeta. destruct (differs_from _ _).
  { apply behaved_bind; [apply readonly_behaved; auto with readonly|]. intros _.
    apply behaved_bind; [apply readonly_behaved; auto with readonly|]. intros _.
    apply behaved_bind; [apply behaved_create_initial_baseline|]. intros _.
    apply readonly_behaved; auto with readonly. }
  apply readonly_behaved. readonly_steps.
Qed.

Lemma dict_get_Some_nonempty k (b : dict) v :
  dict_get k b = Some v → no_baseline (Some b) = false.
Proof. by destruct b. Qed.

(** With a baseline whose stored filter is the active one, the no-job-loss
    check is the comparison of the two identifier sets. *)
Lemma test_no_job_loss_compare w b df :
  baseline w = Some b →
  dict_get (py "data_filter") b = Some (JStr current_filter) →
  parquet w = Some (Some df) →
  test_no_job_loss w =
  let current_ids : gset pystr := list_to_set (job_id_list df) in
  match py_set (default (JArr []) (dict_get (py "job_ids") b)) with
  | None => (false, set_stdout (stdout w ++ [Line FAIL "Error checking job loss" []]) w)
  | Some baseline_ids =>
      if bool_decide (current_ids = ∅) then
        (false, set_stdout (stdout w ++
           [Line FAIL "Could not extract job IDs from current data" []]) w)
      else if bool_decide (baseline_ids ∖ current_ids = ∅) then
        (true, set_stdout (stdout w ++
           [Line PASS "No jobs lost (+new jobs)"
              [ANum (Z.of_nat (size (current_ids ∖ baseline_ids)))]]) w)
      else
        (false, set_stdout (stdout w ++
           [Line CRITICAL_FAIL "jobs LOST!"
              [ANum (Z.of_nat (size (baseline_ids ∖ current_ids)))];
            Line PLAIN "First 10 lost job IDs"
              [AIds (take 10 (elements (baseline_ids ∖ current_ids)))]]) w)
  end.
Proof.
  intros Hb Hf Hpq. unfold test_no_job_loss. run_monad.
  rewrite Hpq, Hb, (dict_get_Some_nonempty _ _ _ Hf). cbn [default id].
  rewrite Hf. cbn [default id differs_from].
  rewrite (bool_decide_eq_true_2 (current_filter = current_filter)) by done.
  cbn [negb].
  unfold set_stdout.
  destruct (py_set _) as [B|]; [|done].
  destruct (bool_decide (list_to_set (job_id_list df) = ∅)); [done|].
  destruct (bool_decide (B ∖ list_to_set (job_id_list df) = ∅)); cbn [negb].
  - done.
  - run_monad. cbn [stdout parquet baseline metrics clock].
    by rewrite <- (assoc_L (++)).
Qed.

(** C3: with a baseline whose stored filter is the active one and a data
    file from which a non-empty identifier set [C] is extracted: if some
    identifier of the baseline's [job_ids] set [B] is not in [C], the
    no-job-loss check fails and prints the number of lost jobs and up to
    ten of them, each one an identifier of [B] missing from [C]; if [B]
    is included in [C], it passes.  (The order in which a Python set is
    listed is not specified, so the statement does not fix which ten.) *)
Theorem no_job_loss_verdict (w : world) (b : dict) (ids : list pystr) (df : frame) :
  baseline w = Some b →
  dict_get (py "data_filter") b = Some (JStr current_filter) →
  dict_get (py "job_ids") b = Some (JArr ids) →
  parquet w = Some (Some df) →
  let B : gset pystr := list_to_set ids in
  let C : gset pystr := list_to_set (job_id_list df) in
  C ≠ ∅ →
  ((∃ i, i ∈ B ∧ i ∉ C) →
   (test_no_job_loss w).1 = false ∧
   ∃ reported,
     stdout (test_no_job_loss w).2 =
       stdout w ++
       [Line CRITICAL_FAIL "jobs LOST!" [ANum (Z.of_nat (size (B ∖ C)))];
        Line PLAIN "First 10 lost job IDs" [AIds reported]] ∧
     length reported = Nat.min 10 (size (B ∖ C)) ∧
     NoDup reported ∧
     ∀ i, i ∈ reported → i ∈ B ∧ i ∉ C) ∧
  (B ⊆ C → (test_no_job_loss w).1 = true).
Proof.
  intros Hb Hf Hids Hpq B C HC.
  rewrite (test_no_job_loss_compare w b df Hb Hf Hpq). cbv zeta.
  rewrite Hids. cbn [default id py_set]. subst B C.
  set (B := list_to_set ids : gset pystr) in *.
  set (C := list_to_set (job_id_list df) : gset pystr) in *.
  rewrite (bool_decide_eq_false_2 (C = ∅)) by done.
  split.
  - intros (i & HiB & HiC).
    rewrite (bool_decide_eq_false_2 (B ∖ C = ∅)).
    2:{ intros HE. apply (not_elem_of_empty (C:=gset pystr) i).
        rewrite <- HE. by apply elem_of_difference. }
    split; [done|]. exists (take 10 (elements (B ∖ C))).
    split; [done|]. split; [|split].
    + by rewrite length_take.
    + eapply sublist_NoDup; [apply (NoDup_elements (B ∖ C)) | apply sublist_take].
    + intros j Hj.
      by apply subseteq_take, elem_of_elements, elem_of_difference in Hj.
  - intros Hsub. rewrite (bool_decide_eq_true_2 (B ∖ C = ∅)); [done|].
    apply set_eq. intros j. rewrite elem_of_difference. split.
    + intros [HjB HjC]. destruct HjC. by apply Hsub.
    + intros Hj. by apply not_elem_of_empty in Hj.
Qed.

Lemma most_recent_it_date_Some df d :
  most_recent_it_date df = Some d →
  has_column (columns df) PositionTitle = true ∧
  (length (it_specialist_rows df) =? 0)%nat = false ∧
  most_recent_in (columns df) (it_specialist_rows df) = Some d.
Proof.
  unfold most_recent_it_date. destruct (has_column _ _); [|done].
  cbv zeta. destruct (it_specialist_rows df); [done|]. intros H. by repeat split.
Qed.

(** With a baseline and a frame that has a most recent IT-specialist date,
    the date-progression check is the comparison with the stored date. *)
Lemma test_date_progression_compare w b df d :
  baseline w = Some b → no_baseline (Some b) = false →
  parquet w = Some (Some df) →
  most_recent_it_date df = Some d →
  (test_date_progression w).1 =
  let stored := default JNull (dict_get date_key b) in
  if truthy stored then
    match to_datetime1 stored with
    | None => false
    | Some baseline_max_date => negb (d <? baseline_max_date)
    end
  else true.
Proof.
  intros Hb Hne Hpq (Hcol & Hlen & Hmax)%most_recent_it_date_Some.
  unfold test_date_progression. run_monad.
  rewrite Hpq, Hb, Hne. cbn [default id]. rewrite Hcol. cbn [negb].
  rewrite Hlen, Hmax. fold date_key.
  destruct (truthy _); [|done].
  destruct (to_datetime1 _) as [bd|]; [|done].
  destruct (d <? bd); [done|]. by destruct (d >? bd).
Qed.

Lemma test_date_progression_first_time w b df :
  baseline w = Some b → parquet w = Some (Some df) →
  truthy (default JNull (dict_get date_key b)) = false →
  (test_date_progression w).1 = true.
Proof.
  intros Hb Hpq Hv. unfold test_date_progression. run_monad.
  rewrite Hpq, Hb. destruct (no_baseline (Some b)); [done|].
  cbn [default id]. destruct (negb (has_column _ _)); [done|].
  destruct (_ =? _)%nat; [done|].
  destruct (most_recent_in _ _); [|done].
  fold date_key. by rewrite Hv.
Qed.


(** *** The metrics file *)

Lemma fields_not_in_obj fields o :
  fields_not_in fields (JObj o) =
  Some (filter (fun field => dict_get field o = None) fields).
Proof.
  induction fields as [|f fields IH]; [done|].
  cbn [fields_not_in py_in]. rewrite IH. cbn [mbind option_bind].
  rewrite filter_cons. destruct (dict_get f o) eqn:E.
  - rewrite bool_decide_eq_true_2 by (by eexists). by rewrite decide_False.
  - rewrite bool_decide_eq_false_2 by (by intros [? ?]). by rewrite decide_True.
Qed.

Lemma all_in_obj keys o :
  all_in keys (JObj o) =
  Some (bool_decide (Forall (fun key => is_Some (dict_get key o)) keys)).
Proof.
  induction keys as [|k keys IH]; [done|].
  cbn [all_in py_in]. destruct (dict_get k o) eqn:E.
  - rewrite bool_decide_eq_true_2 by (by eexists). rewrite IH. f_equal.
    apply bool_decide_ext. rewrite Forall_cons, E.
    split; [intros H; split; [by eexists | done] | by intros [_ ?]].
  - rewrite bool_decide_eq_false_2 by (by intros [? ?]). f_equal. symmetry.
    apply bool_decide_eq_false_2. rewrite Forall_cons, E. by intros [[? ?] _].
Qed.

(** C6, as the code has it: on a metrics file that is a JSON object, the
    check fails and prints the list of the missing fields when one of the
    four required fields is absent; with the four present, it fails with
    a fixed message, which names no field, when the nested object lacks
    one of [title], [date_posted], [link], and passes when it has the
    three. *)
Theorem metrics_json_verdict (w : world) (o : dict) :
  metrics w = Some (Some (JObj o)) →
  let missing := filter (fun field => dict_get field o = None) required_fields in
  (missing ≠ [] →
   (test_metrics_json w).1 = false ∧
   stdout (test_metrics_json w).2 =
     stdout w ++ [Line FAIL "Metrics JSON missing fields" [AIds missing]]) ∧
  (missing = [] →
   ∀ recent, dict_get (py "most_recent_it_specialist") o = Some (JObj recent) →
     ((∃ key, key ∈ required_subfields ∧ dict_get key recent = None) →
      (test_metrics_json w).1 = false ∧
      stdout (test_metrics_json w).2 =
        stdout w ++
        [Line FAIL "Most recent IT specialist missing required fields" []]) ∧
     ((∀ key, key ∈ required_subfields → is_Some (dict_get key recent)) →
      (test_metrics_json w).1 = true)).
Proof.
  intros Hm missing. unfold test_metrics_json. run_monad. rewrite Hm.
  rewrite fields_not_in_obj. fold missing. split.
  - intros Hne. by rewrite (bool_decide_eq_false_2 (missing = [])) by done.
  - intros Hnil recent Hrecent.
    rewrite (bool_decide_eq_true_2 (missing = [])) by done. cbn [negb].
    cbn [subscript]. rewrite Hrecent, all_in_obj. split.
    + intros (key & Hin & Hnone). rewrite bool_decide_eq_false_2; [done|].
      rewrite Forall_forall. intros H.
      destruct (H key Hin) as [? Hk]. by rewrite Hnone in Hk.
    + intros Hall. rewrite bool_decide_eq_true_2; [done|].
      by apply Forall_forall.
Qed.

(** *** The whole run *)

Lemma run_tests_summary w :
  run_tests w =
  if forallb id (verdicts w) then
    (0, (print (Line PASS "Baseline updated" [])
           (update_baseline
              (print (Line PLAIN "Data integrity verified. Updating baseline..." [])
                 (print (Line PASS "ALL TESTS PASSED!" []) (at_summary w)).2).2).2).2)
  else
    (1, (print (Line PLAIN "Data integrity issues detected!" [])
           (print (Line FAIL "SOME TESTS FAILED!" []) (at_summary w)).2).2).
Proof.
  destruct w as [pq bl me ck out].
  destruct (readonly_test_parquet_file_validity pq bl me ck) as (r1 & ls1 & E1).
  destruct (behaved_test_no_job_loss pq bl me ck) as (r2 & bl2 & ls2 & E2).
  destruct (readonly_test_date_progression pq bl2 me ck) as (r3 & ls3 & E3).
  destruct (readonly_test_october_filter pq bl2 me ck) as (r4 & ls4 & E4).
  destruct (readonly_test_metrics_json pq bl2 me ck) as (r5 & ls5 & E5).
  unfold at_summary, report, verdicts, printed, run_tests. run_monad.
  cbn [parquet baseline metrics clock stdout].
  rewrite !E1, !E2. cbn [fst snd parquet baseline metrics clock stdout].
  rewrite !E3, !E4, !E5. cbn [fst snd parquet baseline metrics clock stdout].
  rewrite !drop_app_length.
  destruct r1, r2, r3, r4, r5;
    cbn [forallb id andb negb fst snd parquet baseline metrics clock stdout];
    repeat (rewrite <- ?(assoc_L (++)); cbn [app]); try reflexivity.
  by destruct (update_baseline _) as [[] w'].
Qed.

Lemma behaved_update_baseline : behaved update_baseline.
Proof.
  unfold update_baseline.
  apply behaved_bind; [apply readonly_behaved; auto with readonly|].
  intros [f|]; [apply behaved_create_initial_baseline|].
  apply readonly_behaved, readonly_ret.
Qed.

Ltac run_world :=
  run_monad; cbn [parquet baseline metrics clock stdout fst snd].

(** Every check reports: it prints at least one line, whatever it finds. *)
Ltac prints_something :=
  intros [pq bl me ck out]; unfold printed;
  repeat (run_monad; cbn [parquet baseline metrics clock stdout fst snd];
          try case_match);
  rewrite <- ?(assoc_L (++)); rewrite drop_app_length; done.

Lemma test_parquet_file_validity_reports w :
  printed test_parquet_file_validity w ≠ [].
Proof. revert w. unfold test_parquet_file_validity. prints_something. Qed.

Lemma test_october_filter_reports w :
  printed test_october_filter w ≠ [].
Proof. revert w. unfold test_october_filter. prints_something. Qed.

Lemma test_metrics_json_reports w : printed test_metrics_json w ≠ [].
Proof. revert w. unfold test_metrics_json. prints_something. Qed.

Lemma test_date_progression_reports w :
  printed test_date_progression w ≠ [].
Proof. revert w. unfold test_date_progression. prints_something. Qed.

Lemma test_no_job_loss_reports w :
  printed test_no_job_loss w ≠ [].
Proof.
  destruct w as [pq bl me ck out]. unfold printed, test_no_job_loss.
  run_world.
  destruct pq as [latest|]; run_world; [|by rewrite drop_app_length].
  destruct (behaved_create_initial_baseline latest (Some latest) bl me ck)
    as (a & bl' & ls & E).
  destruct (no_baseline bl); run_world.
  { rewrite E. run_world. by rewrite <- (assoc_L (++)), drop_app_length. }
  destruct (differs_from _ _); run_world.
  { rewrite E. run_world. by rewrite <- !(assoc_L (++)), drop_app_length. }
  destruct latest as [df|]; run_world; [|by rewrite drop_app_length].
  destruct (py_set _); run_world; [|by rewrite drop_app_length].
  destruct (bool_decide _); run_world; [by rewrite drop_app_length|].
  destruct (negb _); run_world;
    by rewrite <- ?(assoc_L (++)), drop_app_length.
Qed.

Lemma behaved_stdout {A} (m : M A) w :
  behaved m → ∃ ls, stdout (m w).2 = stdout w ++ ls.
Proof.
  intros Hm. destruct w as [pq bl me ck out].
  destruct (Hm pq bl me ck) as (a & bl' & ls & E). exists ls. by rewrite E.
Qed.

Lemma forallb_id_all (rs : list bool) :
  forallb id rs = true ↔ ∀ r, r ∈ rs → r = true.
Proof.
  rewrite forallb_forall. split; intros H r Hr; apply H; by apply list_elem_of_In.
Qed.

(** With a baseline file that is absent or holds an object, a run
    executes the five checks, whatever the earlier ones returned: what it
    has printed when it reaches its summary is the five headers in order,
    each followed by the (non-empty) report of its check, and its exit
    status is 0 exactly when the five verdicts are all true, 1
    otherwise. *)
Theorem run_tests_exit_status (w : world) :
  let w2 := (test_no_job_loss w).2 in
  let run := run_tests w in
  length (verdicts w) = 5%nat ∧
  (run.1 = 0 ↔ ∀ r, r ∈ verdicts w → r = true) ∧
  (run.1 ≠ 0 → run.1 = 1) ∧
  (∃ summary, stdout run.2 = stdout w ++ report w ++ summary) ∧
  printed test_parquet_file_validity w ≠ [] ∧
  printed test_no_job_loss w ≠ [] ∧
  printed test_date_progression w2 ≠ [] ∧
  printed test_october_filter w2 ≠ [] ∧
  printed test_metrics_json w2 ≠ [].
Proof.
  intros w2 run. subst run. rewrite run_tests_summary.
  split; [done|]. rewrite <- forallb_id_all.
  split; [|split; [|split]].
  - by destruct (forallb id (verdicts w)).
  - by destruct (forallb id (verdicts w)).
  - destruct (forallb id (verdicts w)).
    + cbn [snd fst]. unfold print at 1. cbn [snd stdout].
      destruct (behaved_stdout update_baseline
        (print (Line PLAIN "Data integrity verified. Updating baseline..." [])
           (print (Line PASS "ALL TESTS PASSED!" []) (at_summary w)).2).2
        behaved_update_baseline) as [ls ->].
      unfold print, at_summary. cbn [snd stdout].
      eexists. rewrite <- !(assoc_L (++)). reflexivity.
    + unfold print, at_summary. cbn [snd stdout].
      eexists. rewrite <- !(assoc_L (++)). reflexivity.
  - auto using test_parquet_file_validity_reports, test_no_job_loss_reports,
      test_date_progression_reports, test_october_filter_reports,
      test_metrics_json_reports.
Qed.

(** *** The baseline file *)


Lemma run_tests_failure_baseline w :
  forallb id (verdicts w) = false →
  baseline (run_tests w).2 =
  baseline (test_no_job_loss w).2.
Proof. intros H. by rewrite run_tests_summary, H. Qed.


Lemma create_initial_baseline_writes f w :
  kept_or_snapshot (baseline w)
    (baseline (create_initial_baseline f w).2).
Proof.
  unfold create_initial_baseline. destruct f as [df|]; run_world.
  - right. eexists. split; [reflexivity|]. done.
  - by left.
Qed.

Lemma test_no_job_loss_writes w :
  kept_or_snapshot (baseline w)
    (baseline (test_no_job_loss w).2).
Proof.
  destruct w as [pq bl me ck out]. unfold test_no_job_loss. run_world.
  destruct pq as [latest|]; run_world; [|by left].
  destruct (no_baseline bl); run_world.
  { destruct (create_initial_baseline _ _) as [[] w'] eqn:E. run_world.
    pose proof (create_initial_baseline_writes latest
      (World (Some latest) bl me ck
         (out ++ [Line WARN "No baseline found - creating initial baseline" []])))
      as H. by rewrite E in H. }
  destruct (differs_from _ _); run_world.
  { destruct (create_initial_baseline _ _) as [[] w'] eqn:E. run_world.
    match type of E with
    | create_initial_baseline _ ?w0 = _ =>
        pose proof (create_initial_baseline_writes latest w0) as H
    end. by rewrite E in H. }
  left. destruct latest as [df|]; run_world; [|done].
  destruct (py_set _); run_world; [|done].
  destruct (bool_decide _); run_world; [done|].
  by destruct (negb _); run_world.
Qed.

Lemma snapshot_no_data_filter (b : dict) :
  b.*1 = snapshot_fields → dict_get (py "data_filter") b = None.
Proof.
  destruct b as [|[k1 v1] [|[k2 v2] [|[k3 v3] [|[k4 v4] [|? ?]]]]]; try done.
  intros [= -> -> -> ->]. reflexivity.
Qed.

(** X1: the baseline file a run leaves is the one it started with, or a
    snapshot of [create_initial_baseline]: four fields, and no
    [data_filter] among them. *)
Lemma run_tests_writes w :
  let bl' := baseline (run_tests w).2 in
  bl' = baseline w ∨
  ∃ b, bl' = Some b ∧ b.*1 = snapshot_fields ∧
       dict_get (py "data_filter") b = None.
Proof.
  cbv zeta.
  assert (∀ bl bl', kept_or_snapshot bl bl' →
            bl' = bl ∨ ∃ b, bl' = Some b ∧ b.*1 = snapshot_fields ∧
                            dict_get (py "data_filter") b = None) as Hks.
  { intros bl bl' [->|(b & -> & Hb)]; [by left|right].
    exists b. eauto using snapshot_no_data_filter. }
  rewrite run_tests_summary.
  pose proof (test_no_job_loss_writes w) as H2.
  destruct (forallb id (verdicts w)); cbn [snd]; [|by apply Hks].
  unfold print at 1. cbn [snd baseline]. unfold update_baseline. run_world.
  unfold at_summary. run_world.
  destruct (parquet w) as [latest|]; run_world; [|by apply Hks].
  match goal with
  | |- context [create_initial_baseline _ ?w0] =>
      pose proof (create_initial_baseline_writes latest w0) as H
  end.
  cbn [baseline] in H. destruct H as [->|(b & -> & Hb)]; [by apply Hks|].
  right. exists b. eauto using snapshot_no_data_filter.
Qed.

(** *** The most recent date is a maximum *)

Lemma series_max_spec d ds :
  series_max d ds ∈ d :: ds ∧ ∀ t, t ∈ d :: ds → t ≤ series_max d ds.
Proof.
  clear to_datetime to_datetime1 isoformat.
  unfold series_max. induction ds as [|x ds [IHin IHle]]; cbn [foldr].
  - split; [left|]. by intros t ->%list_elem_of_singleton.
  - split.
    + destruct (Z.max_spec x (foldr Z.max d ds)) as [[_ ->]|[_ ->]].
      * apply elem_of_cons in IHin as [->|?]; [left | do 2 right]; done.
      * right; left.
    + intros t Ht.
      assert (t = x ∨ t ∈ d :: ds) as [->|Ht'].
      { apply elem_of_cons in Ht as [->|Ht]; [right; left|].
        apply elem_of_cons in Ht as [->|Ht]; [by left | right; by right]. }
      { lia. }
      specialize (IHle t Ht'). lia.
Qed.

Lemma most_recent_in_fold present rs cols acc d :
  foldl (fun current_max_date col =>
           if has_column present col then
             match dropna (to_datetime (column rs col)) with
             | [] => current_max_date
             | d :: ds =>
                 let col_max := series_max d ds in
                 match current_max_date with
                 | None => Some col_max
                 | Some cur => if col_max >? cur then Some col_max else Some cur
                 end
             end
           else current_max_date)
        acc cols = Some d →
  (acc = Some d ∨ d ∈ valid_dates_of present rs cols) ∧
  (∀ t, t ∈ valid_dates_of present rs cols → t ≤ d) ∧
  (∀ a, acc = Some a → a ≤ d).
Proof.
  revert acc. induction cols as [|col cols IH]; intros acc; cbn [foldl].
  - intros ->. split; [by left|]. split.
    + intros t Ht. by apply elem_of_nil in Ht.
    + by intros a [= ->].
  - rewrite valid_dates_of_cons. intros H. apply IH in H as (Hd & Hle & Hacc).
    destruct (has_column present col); [|by rewrite app_nil_l].
    destruct (dropna (to_datetime (column rs col))) as [|x xs] eqn:E;
      [by rewrite app_nil_l|].
    cbv zeta in Hd, Hacc.
    destruct (series_max_spec x xs) as [Hin Hmax].
    set (m := series_max x xs) in *.
    assert (∃ a', (match acc with
                   | None => Some m
                   | Some cur => if m >? cur then Some m else Some cur
                   end) = Some a' ∧ m ≤ a' ∧ (∀ a, acc = Some a → a ≤ a') ∧
                  (a' = m ∨ acc = Some a')) as (a' & Ea & Hm & Hcur & Hsrc).
    { destruct acc as [cur|].
      - destruct (m >? cur) eqn:Hgt.
        + exists m. repeat split; [lia| |by left].
          intros a [= ->]. apply Z.gtb_lt in Hgt. lia.
        + exists cur. repeat split; [|by intros a [= ->]|by right].
          rewrite Z.gtb_ltb in Hgt. apply Z.ltb_ge in Hgt. lia.
      - exists m. repeat split; [lia|done|by left]. }
    rewrite Ea in Hd, Hacc. specialize (Hacc a' eq_refl).
    split; [|split].
    + destruct Hd as [[= <-]|Hd].
      * destruct Hsrc as [->|?]; [right | by left].
        apply elem_of_app. by left.
      * right. apply elem_of_app. by right.
    + intros t [Ht|Ht]%elem_of_app; [|by apply Hle].
      specialize (Hmax t Ht). lia.
    + intros a Ha. specialize (Hcur a Ha). lia.
Qed.

Lemma most_recent_it_date_is_max df d :
  most_recent_it_date df = Some d →
  d ∈ it_dates df ∧ ∀ t, t ∈ it_dates df → t ≤ d.
Proof.
  intros (_ & _ & H)%most_recent_it_date_Some.
  apply most_recent_in_fold in H as ([[=]|Hin] & Hle & _). by split.
Qed.

Lemma most_recent_in_found present rs cols acc :
  acc ≠ None ∨ valid_dates_of present rs cols ≠ [] →
  foldl (fun current_max_date col =>
           if has_column present col then
             match dropna (to_datetime (column rs col)) with
             | [] => current_max_date
             | d :: ds =>
                 let col_max := series_max d ds in
                 match current_max_date with
                 | None => Some col_max
                 | Some cur => if col_max >? cur then Some col_max else Some cur
                 end
             end
           else current_max_date)
        acc cols ≠ None.
Proof.
  revert acc. induction cols as [|col cols IH]; intros acc; cbn [foldl].
  - intros [H|H]; [done|]. by destruct H.
  - rewrite valid_dates_of_cons. intros H. apply IH.
    destruct (has_column present col).
    + destruct (dropna (to_datetime (column rs col))) as [|x xs].
      * by rewrite app_nil_l in H.
      * left. cbv zeta. destruct acc as [cur|]; [|done].
        by destruct (_ >? _).
    + by rewrite app_nil_l in H.
Qed.

(** The code finds the latest date of the IT-specialist rows whenever
    there is one. *)
Lemma most_recent_it_date_latest df d :
  PositionTitle ∈ columns df →
  it_specialist_rows df ≠ [] →
  latest d (it_dates df) →
  most_recent_it_date df = Some d.
Proof.
  intros Htitle Hrows [Hin Hmax]. unfold most_recent_it_date, has_column.
  rewrite bool_decide_eq_true_2 by done. cbv zeta.
  destruct (it_specialist_rows df) as [|r rs] eqn:Hit; [done|].
  cbn [length Nat.ltb Nat.leb]. rewrite <- Hit.
  destruct (most_recent_in (columns df) (it_specialist_rows df))
    as [d'|] eqn:Hd'.
  - pose proof Hd' as H.
    apply most_recent_in_fold in H as ([[=]|Hin'] & Hle & _).
    f_equal. apply Z.le_antisymm; [by apply Hmax | by apply Hle].
  - exfalso. revert Hd'. apply most_recent_in_found. right.
    intros Hnil. unfold it_dates in Hin. rewrite Hnil in Hin.
    by apply elem_of_nil in Hin.
Qed.

(** C4: with a baseline that stores a date and a readable data file whose
    IT-specialist rows have valid dates: the date the code compares is
    the latest of these dates over both date columns, and the
    date-progression check fails if it is strictly earlier than the stored
    date and passes if it is equal or later; when the baseline stores no
    date (no field, or null), the check passes. *)
Theorem date_progression_verdict (w : world) (b : dict) (df : frame) :
  baseline w = Some b →
  parquet w = Some (Some df) →
  (∀ stored baseline_max_date current_max_date,
     dict_get date_key b = Some stored →
     truthy stored = true →
     to_datetime1 stored = Some baseline_max_date →
     PositionTitle ∈ columns df →
     it_specialist_rows df ≠ [] →
     latest current_max_date (it_dates df) →
     most_recent_it_date df = Some current_max_date ∧
     (current_max_date < baseline_max_date →
      (test_date_progression w).1 = false) ∧
     (baseline_max_date ≤ current_max_date →
      (test_date_progression w).1 = true)) ∧
  (dict_get date_key b = None ∨ dict_get date_key b = Some JNull →
   (test_date_progression w).1 = true).
Proof.
  intros Hb Hpq. split.
  - intros v bd d Hv Ht Hbd Htitle Hrows Hlatest.
    pose proof (most_recent_it_date_latest df d Htitle Hrows Hlatest) as Hd.
    split; [done|].
    rewrite (test_date_progression_compare w b df d Hb
               (dict_get_Some_nonempty _ _ _ Hv) Hpq Hd).
    cbv zeta. rewrite Hv. cbn [default id]. rewrite Ht, Hbd. split; intros H.
    + by rewrite (proj2 (Z.ltb_lt _ _) H).
    + by rewrite (proj2 (Z.ltb_ge _ _) H).
  - intros Hnone. apply (test_date_progression_first_time w b df Hb Hpq).
    by destruct Hnone as [-> | ->].
Qed.

End Verifier.

(** ** Properties of the classifier *)

Section StringFacts.

Lemma startswith_prefix p t : startswith p t = true ↔ p `prefix_of` t.
Proof.
  revert t; induction p as [|a p IH]; intros [|b t]; simpl.
  - split; [intros _; apply prefix_nil | done].
  - split; [intros _; apply prefix_nil | done].
  - split; [done | intros H; by apply prefix_nil_not in H].
  - rewrite andb_true_iff, N.eqb_eq, IH. split.
    + intros [-> H]. by apply prefix_cons.
    + intros H. split; [by eapply prefix_cons_inv_1 | by eapply prefix_cons_inv_2].
Qed.

Lemma contains_infix p t : contains p t = true ↔ ∃ a b, t = a ++ p ++ b.
Proof.
  induction t as [|c t IH]; simpl.
  - rewrite orb_false_r, startswith_prefix. split.
    + intros [k ->]. by exists [], k.
    + intros (a & b & H). destruct a; simpl in H; [by exists b | done].
  - rewrite orb_true_iff, startswith_prefix, IH. split.
    + intros [[k ->] | (a & b & ->)]; [by exists [], k | by exists (c :: a), b].
    + intros (a & b & H). destruct a as [|c' a]; simpl in H.
      * left. by exists b.
      * right. injection H as -> ->. by exists a, b.
Qed.

Lemma endswith_suffix p t : endswith p t = true ↔ p `suffix_of` t.
Proof. unfold endswith. by rewrite startswith_prefix, prefix_suffix_reverse, !reverse_involutive. Qed.

Lemma contains_part x q y t :
  contains (x ++ q ++ y) t = true → contains q t = true.
Proof.
  rewrite !contains_infix. intros (a & b & ->).
  exists (a ++ x), (y ++ b). by rewrite <- !(assoc_L (++)).
Qed.

Lemma startswith_contains p t : startswith p t = true → contains p t = true.
Proof. rewrite startswith_prefix, contains_infix. intros [k ->]. by exists [], k. Qed.

Lemma endswith_contains p t : endswith p t = true → contains p t = true.
Proof.
  rewrite endswith_suffix, contains_infix. intros [k ->]. exists k, [].
  by rewrite app_nil_r.
Qed.

End StringFacts.

Lemma itspec_rule_loose t : itspec_rule t = true → loose_rule t = true.
Proof.
  unfold itspec_rule, loose_rule. intros H. apply andb_true_iff. split.
  - apply (contains_part [] (py "it") (py "spec")). exact H.
  - apply (contains_part (py "it") (py "spec") []). exact H.
Qed.

Lemma word_boundary_rule_loose t : word_boundary_rule t = true → loose_rule t = true.
Proof.
  unfold word_boundary_rule, loose_rule.
  rewrite !andb_true_iff, !orb_true_iff. intros [Hit Hs]. split.
  - destruct Hit as [[[H|H]|H]|H].
    + by apply (contains_part [] (py "it") (py " ")).
    + by apply startswith_contains.
    + by apply endswith_contains.
    + by apply (contains_part (py " ") (py "it") (py " ")).
  - by apply (contains_part [] (py "spec") (py "ialist")).
Qed.

Lemma is_it_specialist_str_rules s :
  is_it_specialist_str s =
  itspec_rule (lower s) || loose_rule (lower s)
  || word_boundary_rule (lower s) || info_tech_rule (lower s).
Proof.
  unfold is_it_specialist_str, itspec_rule, loose_rule, word_boundary_rule, info_tech_rule.
  cbv zeta.
  destruct (contains (py "itspec") (lower s)); [done|].
  destruct (contains (py "it") (lower s) && contains (py "spec") (lower s)); done.
Qed.

Lemma is_it_specialist_accepts (title : option pystr) :
  is_it_specialist title = accepts title.
Proof.
  destruct title as [[|c s]|]; try done.
  change (is_it_specialist_str (c :: s) =
          loose_rule (lower (c :: s)) || info_tech_rule (lower (c :: s))).
  rewrite is_it_specialist_str_rules.
  pose proof (itspec_rule_loose (lower (c :: s))).
  pose proof (word_boundary_rule_loose (lower (c :: s))).
  destruct (itspec_rule _), (loose_rule _), (word_boundary_rule _),
    (info_tech_rule _); simpl in *; auto; try discriminate.
  all: try (symmetry; auto).
Qed.

(** C10: [is_it_specialist] returns true exactly on the titles that are a
    non-empty string whose lowercasing has "it" and "spec" as substrings,
    or "information technology" and "specialist"; the "itspec" rule and
    the word-boundary "it" + "specialist" branch accept nothing that the
    loose substring rule does not accept. *)
Theorem is_it_specialist_refines :
  (∀ title : option pystr,
     is_it_specialist title = true ↔
     ∃ s, title = Some s ∧ s ≠ [] ∧
          (contains (py "it") (lower s) = true ∧
           contains (py "spec") (lower s) = true ∨
           contains (py "information technology") (lower s) = true ∧
           contains (py "specialist") (lower s) = true)) ∧
  (∀ title, is_it_specialist title = accepts title) ∧
  (∀ t, itspec_rule t = true → loose_rule t = true) ∧
  (∀ t, word_boundary_rule t = true → loose_rule t = true).
Proof.
  split; [|split; [exact is_it_specialist_accepts|split;
    [exact itspec_rule_loose | exact word_boundary_rule_loose]]].
  intros title. rewrite is_it_specialist_accepts.
  destruct title as [[|c s]|]; cbn [accepts].
  - split; [done|]. by intros (s & [= <-] & Hs & _).
  - unfold loose_rule, info_tech_rule.
    rewrite orb_true_iff, !andb_true_iff. split.
    + intros H. by exists (c :: s).
    + by intros (s' & [= <-] & _ & H).
  - split; [done|]. by intros (s & [=] & _).
Qed.

Section CaseFacts.

Lemma lower_cons c s : lower (c :: s) = lower_cp c ++ lower s.
Proof. reflexivity. Qed.

Lemma upper_cons c s : upper (c :: s) = upper_cp c ++ upper s.
Proof. reflexivity. Qed.

Lemma lower_app s1 s2 : lower (s1 ++ s2) = lower s1 ++ lower s2.
Proof. unfold lower. apply bind_app. Qed.

Lemma lower_cp_nonempty c : lower_cp c ≠ [].
Proof. unfold lower_cp. repeat case_match; done. Qed.

Lemma upper_cp_nonempty c : upper_cp c ≠ [].
Proof. unfold upper_cp. repeat case_match; done. Qed.

Lemma lower_nil_inv s : lower s = [] → s = [].
Proof.
  destruct s as [|c s]; [done|]. rewrite lower_cons. intros H.
  apply app_eq_nil in H as [H _]. by apply lower_cp_nonempty in H.
Qed.

Lemma upper_nil_inv s : upper s = [] → s = [].
Proof.
  destruct s as [|c s]; [done|]. rewrite upper_cons. intros H.
  apply app_eq_nil in H as [H _]. by apply upper_cp_nonempty in H.
Qed.

Lemma ascii_cases (P : N → bool) :
  forallb P (N.of_nat <$> seq 0 128) = true →
  ∀ c, is_ascii c = true → P c = true.
Proof.
  intros H c Hc%N.ltb_lt. rewrite forallb_forall in H. apply H.
  apply list_elem_of_In, list_elem_of_fmap. exists (N.to_nat c). split; [lia|].
  apply elem_of_seq. lia.
Qed.

Lemma lower_upper_cp c :
  is_ascii c = true → lower (upper_cp c) = lower_cp c.
Proof.
  intros Hc. eapply bool_decide_eq_true_1.
  revert c Hc. apply ascii_cases. vm_compute. reflexivity.
Qed.

Lemma lower_lower_cp c :
  is_ascii c = true → lower (lower_cp c) = lower_cp c.
Proof.
  intros Hc. eapply bool_decide_eq_true_1.
  revert c Hc. apply ascii_cases. vm_compute. reflexivity.
Qed.

Lemma lower_upper s : ascii_only s = true → lower (upper s) = lower s.
Proof.
  induction s as [|c s IH]; [done|]. intros H.
  change (is_ascii c && ascii_only s = true) in H.
  apply andb_true_iff in H as [Hc Hs].
  rewrite upper_cons, lower_app, lower_cons, IH by done.
  by rewrite lower_upper_cp.
Qed.

Lemma lower_lower s : ascii_only s = true → lower (lower s) = lower s.
Proof.
  induction s as [|c s IH]; [done|]. intros H.
  change (is_ascii c && ascii_only s = true) in H.
  apply andb_true_iff in H as [Hc Hs].
  rewrite !lower_cons, lower_app, IH by done.
  by rewrite lower_lower_cp.
Qed.

Lemma is_it_specialist_Some s :
  is_it_specialist (Some s) =
  if bool_decide (s = []) then false else is_it_specialist_str s.
Proof. by destruct s. Qed.

Lemma is_it_specialist_lower_eq s s' :
  (s = [] ↔ s' = []) → lower s = lower s' →
  is_it_specialist (Some s) = is_it_specialist (Some s').
Proof.
  intros Hnil Hl. rewrite !is_it_specialist_Some.
  destruct (decide (s = [])) as [Hs|Hs].
  - rewrite !bool_decide_eq_true_2; [done | by apply Hnil | done].
  - rewrite !bool_decide_eq_false_2; [| by rewrite <- Hnil | done].
    unfold is_it_specialist_str. by rewrite Hl.
Qed.

End CaseFacts.

Lemma lower_idempotent_cp c : lower (lower_cp c) = lower_cp c.
Proof.
  unfold lower_cp.
  destruct (N.leb_spec 65 c), (N.leb_spec c 90); cbn [andb].
  - unfold lower. cbn [mbind list_bind app]. unfold lower_cp.
    destruct (N.leb_spec 65 (c + 32)), (N.leb_spec (c + 32) 90),
      (N.eqb_spec (c + 32) 304), (N.eqb_spec (c + 32) 8490);
      cbn [andb]; try lia; reflexivity.
  - destruct (N.eqb_spec c 304) as [->|]; [reflexivity|].
    destruct (N.eqb_spec c 8490) as [->|]; [reflexivity|].
    unfold lower. cbn [mbind list_bind app]. unfold lower_cp.
    destruct (N.leb_spec 65 c), (N.leb_spec c 90), (N.eqb_spec c 304),
      (N.eqb_spec c 8490); cbn [andb]; try lia; reflexivity.
  - destruct (N.eqb_spec c 304) as [->|]; [reflexivity|].
    destruct (N.eqb_spec c 8490) as [->|]; [reflexivity|].
    unfold lower. cbn [mbind list_bind app]. unfold lower_cp.
    destruct (N.leb_spec 65 c), (N.leb_spec c 90), (N.eqb_spec c 304),
      (N.eqb_spec c 8490); cbn [andb]; try lia; reflexivity.
  - destruct (N.eqb_spec c 304) as [->|]; [reflexivity|].
    destruct (N.eqb_spec c 8490) as [->|]; [reflexivity|].
    unfold lower. cbn [mbind list_bind app]. unfold lower_cp.
    destruct (N.leb_spec 65 c), (N.leb_spec c 90), (N.eqb_spec c 304),
      (N.eqb_spec c 8490); cbn [andb]; try lia; reflexivity.
Qed.

(** Lowercasing twice is lowercasing once, for every string. *)
Lemma lower_idempotent s : lower (lower s) = lower s.
Proof.
  induction s as [|c s IH]; [done|].
  by rewrite !lower_cons, lower_app, IH, lower_idempotent_cp.
Qed.

(** C9, as the code has it: for every title, the classification of the
    title and of its lower-casing are the same; for every title made of
    ASCII characters only, so is the classification of its
    upper-casing. *)
Theorem is_it_specialist_case_insensitive_ascii :
  (∀ s : pystr,
     is_it_specialist (Some s) = is_it_specialist (Some (lower s))) ∧
  (∀ s : pystr,
     ascii_only s = true →
     is_it_specialist (Some s) = is_it_specialist (Some (upper s))).
Proof.
  split.
  - intros s. apply is_it_specialist_lower_eq.
    + split; [by intros -> | apply lower_nil_inv].
    + by rewrite lower_idempotent.
  - intros s Hs. apply is_it_specialist_lower_eq.
    + split; [by intros -> | apply upper_nil_inv].
    + by rewrite lower_upper.
Qed.

(** C9, witness: the mixed-case title of the test suite. *)
Lemma is_it_specialist_case_insensitive_ascii_witness :
  ascii_only (py "iT sPeCiAlIsT") = true ∧
  is_it_specialist (Some (py "iT sPeCiAlIsT")) = is_it_specialist (Some (upper (py "iT sPeCiAlIsT"))) ∧
  is_it_specialist (Some (py "iT sPeCiAlIsT")) = is_it_specialist (Some (lower (py "iT sPeCiAlIsT"))).
Proof.
  split; [reflexivity|].
  destruct is_it_specialist_case_insensitive_ascii as [Hlower Hupper].
  split; [apply Hupper; reflexivity | apply Hlower].
Defined.

(** C9, counterexample: the title "ıt spec", written with a dotless i
    (U+0131), is not classified as IT specialist; its upper-casing is
    "IT SPEC", which is. *)
Lemma is_it_specialist_case_sensitive_dotless :
  tabulated dotless_it_spec = true ∧
  upper dotless_it_spec = py "IT SPEC" ∧
  is_it_specialist (Some dotless_it_spec) = false ∧
  is_it_specialist (Some (upper dotless_it_spec)) = true ∧
  ¬ (∀ s : pystr,
       is_it_specialist (Some s) = is_it_specialist (Some (upper s)) ∧
       is_it_specialist (Some s) = is_it_specialist (Some (lower s))).
Proof.
  repeat split; try reflexivity.
  intros H. destruct (H dotless_it_spec) as [H1 _]. vm_compute in H1. discriminate.
Qed.

(** C8: [is_it_specialist] is false on [None] and on the empty string,
    true on "IT Specialist", "ITSPEC (NETWORK)" and "IT SPEC (SYSADMIN)",
    false on "Information Technology Manager", "IT Program Manager" and
    "IT System Administrator". *)
Theorem is_it_specialist_examples :
  is_it_specialist None = false ∧
  is_it_specialist (Some (py "")) = false ∧
  is_it_specialist (Some (py "IT Specialist")) = true ∧
  is_it_specialist (Some (py "ITSPEC (NETWORK)")) = true ∧
  is_it_specialist (Some (py "IT SPEC (SYSADMIN)")) = true ∧
  is_it_specialist (Some (py "Information Technology Manager")) = false ∧
  is_it_specialist (Some (py "IT Program Manager")) = false ∧
  is_it_specialist (Some (py "IT System Administrator")) = false.
Proof. repeat split; vm_compute; reflexivity. Qed.

(** ** Concrete runs

    The checks instantiated with the calendar-date pandas [Iso] and run on
    the sample files. *)

Ltac by_compute :=
  match goal with
  | |- ?P => apply (bool_decide_unpack P); vm_compute; exact I
  end.

Example iso_cutoff : Iso.parse (py "2025-10-01") = Some cutoff_date.
Proof. reflexivity. Qed.

Example iso_isoformat :
  Iso.isoformat cutoff_date = py "2025-10-01T00:00:00" ∧
  Iso.parse (Iso.isoformat (cutoff_date + 3723000000000)) =
    Some (cutoff_date + 3723000000000) ∧
  Iso.parse (py "2025-02-30") = None.
Proof. repeat split; vm_compute; reflexivity. Qed.

Example sample_most_recent :
  most_recent_it_date Iso.to_datetime Sample.df_ab
  = Iso.parse (py "2025-10-05").
Proof. vm_compute. reflexivity. Qed.



(** C2: a first run on which all five checks pass writes a baseline with
    four fields, none of them [data_filter]. *)
Theorem first_baseline_lacks_data_filter :
  (run_tests Iso.to_datetime Iso.to_datetime1 Iso.isoformat Sample.w_first).1 = 0 ∧
  baseline (run_tests Iso.to_datetime Iso.to_datetime1 Iso.isoformat
              Sample.w_first).2
  = Some [ (py "created_at", JStr Sample.now);
           (py "job_ids", JArr [py "A1"; py "B2"]);
           (py "total_jobs", JNum 2);
           (py "most_recent_it_specialist_date",
            JStr (py "2025-10-05T00:00:00")) ] ∧
  (baseline (run_tests Iso.to_datetime Iso.to_datetime1 Iso.isoformat
               Sample.w_first).2
     ≫= dict_get (py "data_filter")) = None.
Proof. repeat split; vm_compute; reflexivity. Qed.

(** What follows from it: on the next run job A1 has disappeared, but the
    baseline just written reads as a changed filter, so the no-job-loss
    check resets it and passes. *)
Example job_loss_missed_after_first_run :
  let w1 := (run_tests Iso.to_datetime Iso.to_datetime1 Iso.isoformat
               Sample.w_first).2 in
  let w_next := World (Some (Some Sample.df_b)) (baseline w1) (metrics w1)
                      Sample.now [] in
  (test_no_job_loss Iso.to_datetime Iso.isoformat w_next).1 = true ∧
  take 2 (stdout (test_no_job_loss Iso.to_datetime Iso.isoformat w_next).2)
  = [ Line WARN "Data filter changed"
        [AJson (JStr (py "Unknown")); AStr current_filter];
      Line WARN "Resetting baseline due to filter change" [] ].
Proof. split; vm_compute; reflexivity. Qed.

(** C3, witness: the baseline lists A1 and B2, the data only has B2. *)
Lemma no_job_loss_verdict_witness :
  list_to_set (job_id_list Sample.df_b) ≠ (∅ : gset pystr) ∧
  (test_no_job_loss Iso.to_datetime Iso.isoformat
     (Sample.w_with Sample.df_b (Sample.metrics_with Sample.recent_ok))).1 = false.
Proof.
  assert (list_to_set (job_id_list Sample.df_b) ≠ (∅ : gset pystr)) as HC
    by by_compute.
  split; [exact HC|].
  apply (no_job_loss_verdict Iso.to_datetime Iso.isoformat
           (Sample.w_with Sample.df_b (Sample.metrics_with Sample.recent_ok))
           Sample.baseline_filtered [py "A1"; py "B2"] Sample.df_b).
  - reflexivity.
  - vm_compute. reflexivity.
  - vm_compute. reflexivity.
  - reflexivity.
  - exact HC.
  - exists (py "A1"). split; by_compute.
Defined.

(** C4, witness: the baseline stores 2025-10-05 and the one
    IT-specialist posting is now dated 2025-10-01. *)
Lemma date_progression_verdict_witness :
  latest cutoff_date (it_dates Iso.to_datetime Sample.df_stale) ∧
  most_recent_it_date Iso.to_datetime Sample.df_stale = Some cutoff_date ∧
  (test_date_progression Iso.to_datetime Iso.to_datetime1 Iso.isoformat
     (Sample.w_with Sample.df_stale (Sample.metrics_with Sample.recent_ok))).1
  = false.
Proof.
  assert (latest cutoff_date (it_dates Iso.to_datetime Sample.df_stale))
    as Hlatest.
  { split; [by_compute|]. intros t Ht. vm_compute in Ht.
    apply list_elem_of_singleton in Ht as ->. reflexivity. }
  split; [exact Hlatest|].
  destruct (date_progression_verdict Iso.to_datetime Iso.to_datetime1
              Iso.isoformat
              (Sample.w_with Sample.df_stale (Sample.metrics_with Sample.recent_ok))
              Sample.baseline_filtered Sample.df_stale eq_refl eq_refl)
    as [Hcompare _].
  destruct (Hcompare (JStr (py "2025-10-05T00:00:00"))
              (cutoff_date + 4 * Iso.ns_per_day) cutoff_date)
    as (Hfound & Hfail & _).
  - vm_compute. reflexivity.
  - vm_compute. reflexivity.
  - vm_compute. reflexivity.
  - by_compute.
  - vm_compute. discriminate.
  - exact Hlatest.
  - split; [exact Hfound|]. apply Hfail. vm_compute. reflexivity.
Defined.

(** C5, witness: one posting is dated 2025-09-30. *)
Lemma october_filter_verdict_witness :
  Iso.parse (py "2025-09-30") = Some (cutoff_date - Iso.ns_per_day) ∧
  (test_october_filter Iso.to_datetime
     (Sample.w_with Sample.df_old (Sample.metrics_with Sample.recent_ok))).1
  = false.
Proof.
  split; [vm_compute; reflexivity|].
  apply (proj1 (october_filter_verdict Iso.to_datetime
           (Sample.w_with Sample.df_old (Sample.metrics_with Sample.recent_ok))
           Sample.df_old eq_refl)).
  exists PositionStartDate, (cutoff_date - Iso.ns_per_day).
  repeat split; by_compute.
Defined.

(** C6, counterexample: the most recent job lacks its [link]; the check
    fails, and the one line it prints names no field. *)
Lemma metrics_subfield_not_named :
  subscript Sample.recent_no_link (py "link") = None ∧
  (test_metrics_json
     (Sample.w_with Sample.df_ab (Sample.metrics_with Sample.recent_no_link))).1
  = false ∧
  stdout (test_metrics_json
     (Sample.w_with Sample.df_ab (Sample.metrics_with Sample.recent_no_link))).2
  = [Line FAIL "Most recent IT specialist missing required fields" []].
Proof. repeat split; vm_compute; reflexivity. Qed.

(** C6, witness: the metrics file lacks [it_specialist_percentage]; the
    check fails and the line it prints names that field. *)
Lemma metrics_json_verdict_witness :
  (test_metrics_json
     (Sample.w_with Sample.df_ab Sample.metrics_no_percentage)).1 = false ∧
  stdout (test_metrics_json
     (Sample.w_with Sample.df_ab Sample.metrics_no_percentage)).2
  = [Line FAIL "Metrics JSON missing fields"
       [AIds [py "it_specialist_percentage"]]].
Proof.
  destruct Sample.metrics_no_percentage as [| | | | |o] eqn:E; try discriminate E.
  injection E as <-.
  refine (proj1 (metrics_json_verdict (Sample.w_with Sample.df_ab _) _ eq_refl) _).
  vm_compute. discriminate.
Defined.

(** ** More on the verifier: errors, resets and repeated runs *)

Ltac run_state :=
  cbv beta iota zeta delta
    [mbind M_bind mret M_ret get_latest_parquet_file load_baseline
     read_metrics_file datetime_now print print_header save_baseline];
  cbn [parquet baseline metrics clock stdout fst snd].

Section VerifierEdges.

Variable to_datetime : list (option pystr) -> list (option Z).
Variable to_datetime1 : json -> option Z.
Variable isoformat : Z -> pystr.

Lemma snapshot_nonempty (b : dict) : b.*1 = snapshot_fields → no_baseline (Some b) = false.
Proof. by destruct b. Qed.

Lemma create_initial_baseline_frame df w :
  baseline (create_initial_baseline to_datetime isoformat (Some df) w).2 =
  Some [ (py "created_at", JStr (clock w));
         (py "job_ids", JArr (job_id_list df));
         (py "total_jobs", JNum (Z.of_nat (length (rows df))));
         (py "most_recent_it_specialist_date",
          match most_recent_it_date to_datetime df with
          | Some d => JStr (isoformat d)
          | None => JNull
          end) ].
Proof. unfold create_initial_baseline. run_state. reflexivity. Qed.

Lemma create_initial_baseline_unreadable w :
  baseline (create_initial_baseline to_datetime isoformat None w).2 = baseline w.
Proof. reflexivity. Qed.

(** With a data file and a baseline whose stored filter is not the active
    one, the no-job-loss check does not compare anything. *)
Lemma test_no_job_loss_reset w b latest :
  baseline w = Some b → no_baseline (Some b) = false →
  differs_from (default (JStr (py "Unknown")) (dict_get (py "data_filter") b))
    current_filter = true →
  parquet w = Some latest →
  (test_no_job_loss to_datetime isoformat w).1 = true ∧
  baseline (test_no_job_loss to_datetime isoformat w).2 =
  baseline (create_initial_baseline to_datetime isoformat latest w).2.
Proof.
  intros Hb Hne Hdiff Hpq. unfold test_no_job_loss. run_state.
  rewrite Hpq, Hb, Hne. cbn [default id]. rewrite Hdiff. run_state.
  destruct latest as [df|]; unfold create_initial_baseline; run_state; done.
Qed.

(** X2: against a baseline that is a snapshot of
    [create_initial_baseline] (its four fields, hence no [data_filter])
    the no-job-loss check compares no job identifiers: with a readable
    data file it passes whatever jobs the baseline lists, and replaces
    the baseline by the snapshot of the current frame. *)
Theorem no_job_loss_blind_to_snapshots (w : world) (b : dict) (df : frame) :
  baseline w = Some b →
  b.*1 = snapshot_fields →
  parquet w = Some (Some df) →
  (test_no_job_loss to_datetime isoformat w).1 = true ∧
  baseline (test_no_job_loss to_datetime isoformat w).2 =
  Some [ (py "created_at", JStr (clock w));
         (py "job_ids", JArr (job_id_list df));
         (py "total_jobs", JNum (Z.of_nat (length (rows df))));
         (py "most_recent_it_specialist_date",
          match most_recent_it_date to_datetime df with
          | Some d => JStr (isoformat d)
          | None => JNull
          end) ].
Proof.
  intros Hb Hs Hpq.
  destruct (test_no_job_loss_reset w b (Some df) Hb (snapshot_nonempty b Hs))
    as [Hr Hbl]; [|done|].
  { by rewrite (snapshot_no_data_filter b Hs). }
  split; [done|]. by rewrite Hbl, create_initial_baseline_frame.
Qed.

(** *** What each check reads *)

Lemma test_parquet_file_validity_passes w :
  (test_parquet_file_validity w).1 = true ↔
  ∃ df, parquet w = Some (Some df) ∧ rows df ≠ [].
Proof.
  unfold test_parquet_file_validity. run_state.
  destruct (parquet w) as [[df|]|]; run_state.
  - destruct (rows df) as [|r rs] eqn:E; cbn [length Nat.eqb]; run_state.
    + split; [done|]. intros (df' & [= <-] & H). by rewrite E in H.
    + split; [|done]. intros _. exists df. by rewrite E.
  - split; [done|]. by intros (df & [=] & _).
  - split; [done|]. by intros (df & [=] & _).
Qed.

Lemma test_october_filter_reads_data w w' :
  parquet w = parquet w' →
  (test_october_filter to_datetime w).1 = (test_october_filter to_datetime w').1.
Proof.
  intros H. unfold test_october_filter. run_state. rewrite H.
  destruct (parquet w') as [[df|]|]; run_state; try done.
  destruct (count_dates to_datetime df) as [v t]. run_state.
  destruct (0 <? v)%nat; [done|]. by destruct (0 <? t)%nat.
Qed.

Lemma test_metrics_json_reads_metrics w w' :
  metrics w = metrics w' →
  (test_metrics_json w).1 = (test_metrics_json w').1.
Proof.
  intros H. unfold test_metrics_json. run_state. rewrite H.
  destruct (metrics w') as [[v|]|]; run_state; try done.
  destruct (fields_not_in _ _) as [missing|]; run_state; [|done].
  destruct (negb _); run_state; [done|].
  destruct (subscript _ _) as [recent|]; run_state; [|done].
  by destruct (all_in _ _) as [[|]|]; run_state.
Qed.

Lemma test_parquet_file_validity_reads_data w w' :
  parquet w = parquet w' →
  (test_parquet_file_validity w).1 = (test_parquet_file_validity w').1.
Proof.
  intros H. unfold test_parquet_file_validity. run_state. rewrite H.
  destruct (parquet w') as [[df|]|]; run_state; try done.
  by destruct (_ =? _)%nat.
Qed.

Lemma behaved_files {A} (m : M A) w :
  behaved m →
  parquet (m w).2 = parquet w ∧ metrics (m w).2 = metrics w ∧
  clock (m w).2 = clock w.
Proof.
  intros Hm. destruct w as [pq bl me ck out].
  destruct (Hm pq bl me ck) as (a & bl' & ls & E). by rewrite E.
Qed.

Lemma verdicts_all_true w :
  forallb id (verdicts to_datetime to_datetime1 isoformat w) = true ↔
  (test_parquet_file_validity w).1 = true ∧
  (test_no_job_loss to_datetime isoformat w).1 = true ∧
  (test_date_progression to_datetime to_datetime1 isoformat
     (test_no_job_loss to_datetime isoformat w).2).1 = true ∧
  (test_october_filter to_datetime w).1 = true ∧
  (test_metrics_json w).1 = true.
Proof.
  unfold verdicts. cbn [forallb id]. rewrite !andb_true_iff.
  destruct (behaved_files _ w (behaved_test_no_job_loss to_datetime isoformat))
    as (Hpq & Hme & _).
  rewrite (test_october_filter_reads_data _ w Hpq).
  rewrite (test_metrics_json_reads_metrics _ w Hme). tauto.
Qed.

Lemma run_tests_exit_0 w :
  (run_tests to_datetime to_datetime1 isoformat w).1 = 0 ↔
  forallb id (verdicts to_datetime to_datetime1 isoformat w) = true.
Proof. rewrite run_tests_summary. by destruct (forallb _ _). Qed.

Lemma run_tests_pass_baseline w df :
  (run_tests to_datetime to_datetime1 isoformat w).1 = 0 →
  parquet w = Some (Some df) →
  baseline (run_tests to_datetime to_datetime1 isoformat w).2 =
  baseline (create_initial_baseline to_datetime isoformat (Some df) w).2.
Proof.
  intros H0 Hpq. apply run_tests_exit_0 in H0. rewrite run_tests_summary, H0.
  unfold print at 1. cbn [snd baseline]. unfold update_baseline. run_state.
  unfold at_summary. run_state. rewrite Hpq.
  by rewrite !create_initial_baseline_frame.
Qed.

Lemma run_tests_pass_frame w :
  (run_tests to_datetime to_datetime1 isoformat w).1 = 0 →
  ∃ df, parquet w = Some (Some df) ∧ rows df ≠ [] ∧
    baseline (run_tests to_datetime to_datetime1 isoformat w).2 =
    baseline (create_initial_baseline to_datetime isoformat (Some df) w).2.
Proof.
  intros H0. pose proof H0 as Hall.
  apply run_tests_exit_0, verdicts_all_true in Hall as (H1 & _).
  apply test_parquet_file_validity_passes in H1 as (df & Hpq & Hrows).
  exists df. split; [done|]. split; [done|].
  by apply run_tests_pass_baseline.
Qed.

(** X3: a run that exits with status 0 had a readable data file with at
    least one row, and the baseline file it leaves is the snapshot of that
    frame taken at the time of the run. *)
Theorem run_tests_pass_snapshot (w : world) :
  (run_tests to_datetime to_datetime1 isoformat w).1 = 0 →
  ∃ df, parquet w = Some (Some df) ∧ rows df ≠ [] ∧
    baseline (run_tests to_datetime to_datetime1 isoformat w).2 =
    Some [ (py "created_at", JStr (clock w));
           (py "job_ids", JArr (job_id_list df));
           (py "total_jobs", JNum (Z.of_nat (length (rows df))));
           (py "most_recent_it_specialist_date",
            match most_recent_it_date to_datetime df with
            | Some d => JStr (isoformat d)
            | None => JNull
            end) ].
Proof.
  intros H0. destruct (run_tests_pass_frame w H0) as (df & Hpq & Hrows & Hbl).
  exists df. split; [done|]. split; [done|].
  by rewrite Hbl, create_initial_baseline_frame.
Qed.

(** *** Running again *)

Lemma behaved_run_tests : behaved (run_tests to_datetime to_datetime1 isoformat).
Proof.
  unfold run_tests.
  repeat match goal with
  | |- behaved (_ ≫= _) => apply behaved_bind; [|intros]
  | |- behaved (if ?b then _ else _) => destruct b
  | |- behaved (let _ := _ in _) => cbv zeta
  end;
  first
    [ apply behaved_test_no_job_loss
    | apply behaved_update_baseline
    | apply readonly_behaved;
      first [ apply readonly_print | apply readonly_print_header
            | apply readonly_datetime_now | apply readonly_ret
            | apply readonly_test_parquet_file_validity
            | apply readonly_test_date_progression
            | apply readonly_test_october_filter
            | apply readonly_test_metrics_json ] ].
Qed.

(** X4: running the verifier again on unchanged files.  When a run has
    exited with status 0, and the date it stored is a non-empty string that
    [pd.to_datetime] reads back as the same timestamp, the next run on the
    same data file and metrics file, at whatever time it is started, exits
    with status 0 as well, and the baseline it leaves is the one it found
    but for [created_at]. *)
Theorem run_tests_again_passes (w : world) (later : pystr) (out : list line) :
  (run_tests to_datetime to_datetime1 isoformat w).1 = 0 →
  (∀ df d, parquet w = Some (Some df) →
           most_recent_it_date to_datetime df = Some d →
           isoformat d ≠ [] ∧ to_datetime1 (JStr (isoformat d)) = Some d) →
  let w1 := (run_tests to_datetime to_datetime1 isoformat w).2 in
  let w' := World (parquet w1) (baseline w1) (metrics w1) later out in
  (run_tests to_datetime to_datetime1 isoformat w').1 = 0 ∧
  ∃ df created_at created_at',
    parquet w = Some (Some df) ∧
    baseline w' =
      Some [ (py "created_at", JStr created_at);
             (py "job_ids", JArr (job_id_list df));
             (py "total_jobs", JNum (Z.of_nat (length (rows df))));
             (py "most_recent_it_specialist_date",
              match most_recent_it_date to_datetime df with
              | Some d => JStr (isoformat d)
              | None => JNull
              end) ] ∧
    baseline (run_tests to_datetime to_datetime1 isoformat w').2 =
      Some [ (py "created_at", JStr created_at');
             (py "job_ids", JArr (job_id_list df));
             (py "total_jobs", JNum (Z.of_nat (length (rows df))));
             (py "most_recent_it_specialist_date",
              match most_recent_it_date to_datetime df with
              | Some d => JStr (isoformat d)
              | None => JNull
              end) ].
Proof.
  intros H0 Hiso w1 w'.
  destruct (run_tests_pass_frame w H0) as (df & Hpq & Hrows & Hbl).
  rewrite create_initial_baseline_frame in Hbl.
  destruct (behaved_files _ w behaved_run_tests) as (Hpq1 & Hme1 & _).
  fold w1 in Hbl, Hpq1, Hme1.
  pose proof H0 as Hall.
  apply run_tests_exit_0, verdicts_all_true in Hall as (H1 & _ & _ & H4 & H5).
  assert (parquet w' = parquet w) as Hpq' by done.
  assert (metrics w' = metrics w) as Hme' by done.
  assert (parquet w' = Some (Some df)) as Hpqw' by by rewrite Hpq'.
  assert (baseline w' = baseline w1) as Hblw' by done.
  rewrite Hbl in Hblw'.
  destruct (test_no_job_loss_reset w' _ (Some df) Hblw' eq_refl eq_refl Hpqw')
    as [H2' Hbl2'].
  rewrite create_initial_baseline_frame in Hbl2'.
  assert ((run_tests to_datetime to_datetime1 isoformat w').1 = 0) as H0'.
  { apply run_tests_exit_0, verdicts_all_true.
    rewrite (test_parquet_file_validity_reads_data w' w Hpq').
    rewrite (test_october_filter_reads_data w' w Hpq').
    rewrite (test_metrics_json_reads_metrics w' w Hme').
    repeat split; try done.
    destruct (behaved_files _ w' (behaved_test_no_job_loss to_datetime isoformat))
      as (Hpq2 & _ & _).
    rewrite Hpqw' in Hpq2.
    destruct (most_recent_it_date to_datetime df) as [d|] eqn:Hd.
    - destruct (Hiso df d Hpq Hd) as [Hne Hparse].
      rewrite (test_date_progression_compare to_datetime to_datetime1 isoformat
                 _ _ df d Hbl2' eq_refl Hpq2 Hd).
      cbv zeta. change (dict_get date_key _) with (Some (JStr (isoformat d))).
      cbn [default id truthy]. rewrite bool_decide_eq_false_2 by done.
      cbn [negb]. by rewrite Hparse, Z.ltb_irrefl.
    - by apply (test_date_progression_first_time to_datetime to_datetime1
                  isoformat _ _ df Hbl2' Hpq2). }
  split; [done|].
  destruct (run_tests_pass_frame w' H0') as (df' & Hpq'' & _ & Hbl'').
  rewrite Hpqw' in Hpq''. injection Hpq'' as <-.
  exists df, (clock w), (clock w'). split; [done|]. split; [done|].
  by rewrite Hbl'', create_initial_baseline_frame.
Qed.

(** *** Without usable data *)



(** *** The date check without dates, and on errors *)

(** X6: when the data file has no IT-specialist date to offer (no title
    column, no IT-specialist row, or no valid date among those rows), the
    date check passes whatever date the baseline stores. *)
Theorem date_progression_without_it_dates (w : world) (df : frame) :
  parquet w = Some (Some df) →
  most_recent_it_date to_datetime df = None →
  (test_date_progression to_datetime to_datetime1 isoformat w).1 = true.
Proof.
  intros Hpq Hnone. unfold test_date_progression. run_state. rewrite Hpq.
  destruct (no_baseline (baseline w)); run_state; [done|].
  unfold most_recent_it_date in Hnone.
  destruct (has_column (columns df) PositionTitle); run_state; [|done].
  cbv zeta in Hnone.
  destruct (it_specialist_rows df) as [|r rs]; [done|].
  cbn [length Nat.ltb Nat.leb Nat.eqb] in *. by rewrite Hnone.
Qed.

(** X7: the two errors of the date check.  With a non-empty baseline, a
    data file that cannot be read fails the check; and when the data has an
    IT-specialist date, a stored date that is set but that [pd.to_datetime]
    cannot parse fails the check. *)
Theorem date_progression_errors (w : world) (b : dict) :
  baseline w = Some b →
  no_baseline (Some b) = false →
  (parquet w = Some None →
   (test_date_progression to_datetime to_datetime1 isoformat w).1 = false) ∧
  (∀ df d stored,
     parquet w = Some (Some df) →
     most_recent_it_date to_datetime df = Some d →
     dict_get date_key b = Some stored →
     truthy stored = true →
     to_datetime1 stored = None →
     (test_date_progression to_datetime to_datetime1 isoformat w).1 = false).
Proof.
  intros Hb Hne. split.
  - intros Hpq. unfold test_date_progression. run_state.
    by rewrite Hpq, Hb, Hne.
  - intros df d stored Hpq Hd Hs Ht Hparse.
    rewrite (test_date_progression_compare _ _ _ w b df d Hb Hne Hpq Hd).
    cbv zeta. rewrite Hs. cbn [default id]. by rewrite Ht, Hparse.
Qed.

(** *** The metrics check and the job identifiers *)

(** X8: the metrics check only passes on a metrics file that holds a JSON
    object with the four required fields. *)
Theorem metrics_json_pass_needs_object (w : world) :
  (test_metrics_json w).1 = true →
  ∃ o, metrics w = Some (Some (JObj o)) ∧
       ∀ field, field ∈ required_fields → is_Some (dict_get field o).
Proof.
  unfold test_metrics_json. run_state.
  destruct (metrics w) as [[v|]|]; run_state; try done.
  destruct (fields_not_in required_fields v) as [missing|] eqn:E; run_state;
    [|done].
  destruct missing as [|f fs]; run_state; [|done].
  destruct v as [| | | | |o]; try done. intros _. exists o. split; [done|].
  rewrite fields_not_in_obj in E. injection E as E. intros field Hin.
  destruct (dict_get field o) eqn:Hg; [by eexists|].
  assert (field ∈ filter (fun field => dict_get field o = None) required_fields)
    as Hf by by apply list_elem_of_filter.
  rewrite E in Hf. by apply elem_of_nil in Hf.
Qed.

Lemma job_id_list_without_columns df :
  PositionID ∉ columns df → PositionURI ∉ columns df → job_id_list df = [].
Proof.
  intros H1 H2. unfold job_id_list, has_column.
  by rewrite !bool_decide_eq_false_2.
Qed.

(** X9: against a baseline that stores the active filter, a data file
    with neither a [PositionID] nor a [PositionURI] column fails the
    no-job-loss check, even when the baseline lists no job at all. *)
Theorem no_job_loss_without_ids (w : world) (b : dict) (df : frame) :
  baseline w = Some b →
  dict_get (py "data_filter") b = Some (JStr current_filter) →
  parquet w = Some (Some df) →
  PositionID ∉ columns df →
  PositionURI ∉ columns df →
  (test_no_job_loss to_datetime isoformat w).1 = false.
Proof.
  intros Hb Hf Hpq H1 H2.
  rewrite (test_no_job_loss_compare _ _ w b df Hb Hf Hpq). cbv zeta.
  rewrite (job_id_list_without_columns df H1 H2).
  destruct (py_set _); [|done].
  by rewrite (bool_decide_eq_true_2 (list_to_set [] = (∅ : gset pystr))).
Qed.

(** *** What the baseline is worth *)

Lemma run_tests_kept_or_snapshot w :
  kept_or_snapshot (baseline w)
    (baseline (run_tests to_datetime to_datetime1 isoformat w).2).
Proof.
  destruct (forallb id (verdicts to_datetime to_datetime1 isoformat w)) eqn:Hall.
  - apply run_tests_exit_0 in Hall.
    destruct (run_tests_pass_frame w Hall) as (df & _ & _ & ->).
    apply create_initial_baseline_writes.
  - rewrite (run_tests_failure_baseline _ _ _ w Hall).
    apply test_no_job_loss_writes.
Qed.

(** X23: the date a passing run stores is the latest IT-specialist date of
    the data.  When a run exits with status 0 and the data has an
    IT-specialist date, the baseline it leaves holds that date in ISO
    format, and the date is the maximum of the valid dates of the
    IT-specialist rows over both date columns. *)
Theorem baseline_date_is_latest (w : world) (df : frame) (d : Z) :
  (run_tests to_datetime to_datetime1 isoformat w).1 = 0 →
  parquet w = Some (Some df) →
  most_recent_it_date to_datetime df = Some d →
  (baseline (run_tests to_datetime to_datetime1 isoformat w).2
     ≫= dict_get date_key) = Some (JStr (isoformat d)) ∧
  d ∈ it_dates to_datetime df ∧
  ∀ t, t ∈ it_dates to_datetime df → t ≤ d.
Proof.
  intros H0 Hpq Hd. split.
  - rewrite (run_tests_pass_baseline w df H0 Hpq), create_initial_baseline_frame.
    by rewrite Hd.
  - by apply most_recent_it_date_is_max.
Qed.

(** X24: the verifier does not detect a job loss against a baseline it
    has written itself.  When a run has changed the baseline file, the
    no-job-loss check of a later run that finds this baseline passes on
    every readable data file, whatever jobs are gone from it. *)
Theorem job_loss_undetected_after_write (w w' : world) (df' : frame) :
  baseline (run_tests to_datetime to_datetime1 isoformat w).2 ≠ baseline w →
  baseline w' = baseline (run_tests to_datetime to_datetime1 isoformat w).2 →
  parquet w' = Some (Some df') →
  (test_no_job_loss to_datetime isoformat w').1 = true.
Proof.
  intros Hchanged Hb' Hpq'.
  destruct (run_tests_kept_or_snapshot w) as [Hkept|(b & Hb & Hfields)];
    [done|].
  rewrite Hb in Hb'.
  apply (test_no_job_loss_reset w' b (Some df') Hb'); [|  |done].
  - by apply snapshot_nonempty.
  - by rewrite (snapshot_no_data_filter b Hfields).
Qed.

End VerifierEdges.

(** ** More on the classifier and on the job identifiers *)

(** X10: the three test methods of [test_classification.py] succeed: the
    classifier accepts every positive case, rejects every negative case
    ([None] and the empty title among them) and accepts every spelling of
    the case test. *)
Theorem test_classification_passes :
  test_should_be_it_specialist = true ∧
  test_should_not_be_it_specialist = true ∧
  test_case_insensitive = true.
Proof. repeat split; vm_compute; reflexivity. Qed.

(** X11: the classifier is monotone under added text.  A title that is
    accepted stays accepted whatever is written before or after it (for
    strings within the case tables). *)
Theorem is_it_specialist_extends (a s b : pystr) :
  tabulated (a ++ s ++ b) = true →
  is_it_specialist (Some s) = true →
  is_it_specialist (Some (a ++ s ++ b)) = true.
Proof.
  intros _. rewrite !is_it_specialist_accepts.
  destruct s as [|c s]; [done|]. cbn [accepts].
  assert (∃ c' s', a ++ (c :: s) ++ b = c' :: s') as (c' & s' & E).
  { destruct a; simpl; eauto. }
  rewrite E. cbn [accepts]. rewrite <- E, !lower_app.
  assert (∀ p, contains p (lower (c :: s)) = true →
               contains p (lower a ++ lower (c :: s) ++ lower b) = true) as Hc.
  { intros p. rewrite !contains_infix. intros (x & y & ->).
    exists (lower a ++ x), (y ++ lower b). by rewrite <- !(assoc_L (++)). }
  unfold loose_rule, info_tech_rule.
  rewrite !orb_true_iff, !andb_true_iff. intros [[??]|[??]]; auto.
Qed.

Section LastField.

Lemma last_field_whole sep s : sep ∉ s → last_field sep s = s.
Proof.
  destruct s as [|c s]; [done|]. intros H. cbn [last_field].
  rewrite bool_decide_eq_false_2 by set_solver.
  destruct (N.eqb_spec c sep) as [->|]; [|done]. set_solver.
Qed.

Lemma last_field_split sep s :
  sep ∈ s → ∃ pre, s = pre ++ sep :: last_field sep s ∧ sep ∉ last_field sep s.
Proof.
  induction s as [|c s IH]; [by intros ?%elem_of_nil|].
  intros Hin. cbn [last_field]. case_bool_decide as Hs.
  - destruct (IH Hs) as (pre & E & Hn). exists (c :: pre). split; [|done].
    simpl. by rewrite <- E.
  - destruct (N.eqb_spec c sep) as [->|Hne].
    + by exists [].
    + apply elem_of_cons in Hin as [->|]; done.
Qed.

Lemma contains_elem c p t : c ∈ p → contains p t = true → c ∈ t.
Proof.
  intros Hc (a & b & ->)%contains_infix.
  rewrite !elem_of_app. auto.
Qed.

End LastField.

(** X12: the identifiers of a frame that has no [PositionID] column come
    from its URIs.  Each is what follows the last [/] of a non-null
    [PositionURI] cell that contains [/job/], and has no [/] in it. *)
Theorem job_ids_from_uris (df : frame) (id : pystr) :
  PositionID ∉ columns df →
  id ∈ job_id_list df →
  (47%N ∉ id) ∧
  ∃ uri pre, Some uri ∈ column (rows df) PositionURI ∧
             contains (py "/job/") uri = true ∧
             uri = pre ++ py "/" ++ id.
Proof.
  intros Hno. unfold job_id_list, has_column.
  rewrite (bool_decide_eq_false_2 _ Hno). case_bool_decide; [|set_solver].
  intros (uri & -> & (Hjob & Hcell)%list_elem_of_filter)%list_elem_of_fmap.
  assert (47%N ∈ uri) as Hslash.
  { apply (contains_elem _ (py "/job/")); [by_compute|done]. }
  destruct (last_field_split 47 uri Hslash) as (pre & E & Hn).
  split; [done|]. exists uri, pre. split; [by apply dropna_elem|].
  split; [done|exact E].
Qed.

(** ** Properties of the fetcher *)

Section DictFacts.

Lemma jset_keys k v d :
  (jset k v d).*1 = if bool_decide (k ∈ d.*1) then d.*1 else d.*1 ++ [k].
Proof.
  induction d as [|[k' v'] d IH]; [done|]. cbn [jset].
  rewrite (fmap_cons fst (k', v') d). cbn [fst].
  destruct (decide (k = k')) as [->|Hne].
  - rewrite (bool_decide_eq_true_2 (k' = k')) by done.
    rewrite (bool_decide_eq_true_2 (k' ∈ k' :: d.*1)) by by left.
    reflexivity.
  - rewrite (bool_decide_eq_false_2 (k = k')) by done.
    rewrite fmap_cons, IH. cbn [fst].
    destruct (decide (k ∈ d.*1)) as [Hin|Hin].
    + rewrite (bool_decide_eq_true_2 (k ∈ d.*1)) by done.
      rewrite (bool_decide_eq_true_2 (k ∈ k' :: d.*1)) by by right.
      reflexivity.
    + rewrite (bool_decide_eq_false_2 (k ∈ d.*1)) by done.
      rewrite (bool_decide_eq_false_2 (k ∈ k' :: d.*1)); [done|].
      by intros [?|?]%elem_of_cons.
Qed.

Lemma jset_NoDup k v d : NoDup d.*1 → NoDup (jset k v d).*1.
Proof.
  intros Hd. rewrite jset_keys. case_bool_decide as Hk; [done|].
  apply NoDup_app. split; [done|]. split; [|apply NoDup_singleton].
  by intros x Hx ->%list_elem_of_singleton.
Qed.

Lemma jset_fresh k v d : k ∉ d.*1 → jset k v d = d ++ [(k, v)].
Proof.
  induction d as [|[k' v'] d IH]; [done|]. cbn [jset].
  rewrite (fmap_cons fst (k', v') d). cbn [fst]. intros Hk.
  rewrite (bool_decide_eq_false_2 (k = k')).
  - cbn [app]. f_equal. apply IH. intros Hin. apply Hk. by right.
  - intros ->. apply Hk. by left.
Qed.

Lemma jset_elem k v d kv : kv ∈ jset k v d → kv ∈ d ∨ kv = (k, v).
Proof.
  induction d as [|[k' v'] d IH]; cbn [jset].
  - intros ->%list_elem_of_singleton. by right.
  - case_bool_decide as Hk.
    + subst. intros [->|H]%elem_of_cons; [by right|]. left. by right.
    + intros [->|H]%elem_of_cons; [left; by left|].
      destruct (IH H) as [?|?]; [left; by right | by right].
Qed.

Lemma jupdate_NoDup d other : NoDup d.*1 → NoDup (jupdate d other).*1.
Proof.
  unfold jupdate. revert d.
  induction other as [|[k v] other IH]; intros d Hd; [done|].
  cbn [foldl]. apply IH. by apply jset_NoDup.
Qed.

Lemma jupdate_elem d other kv : kv ∈ jupdate d other → kv ∈ d ∨ kv ∈ other.
Proof.
  unfold jupdate. revert d.
  induction other as [|[k v] other IH]; intros d; cbn [foldl]; [by left|].
  intros H. cbn [fst snd] in H. apply IH in H as [H|H].
  - apply jset_elem in H as [H|H]; [by left|]. subst. right. by left.
  - right. by right.
Qed.

Lemma foldl_invariant {A B} (P : A → Prop) (f : A → B → A) (l : list B) a :
  P a → (∀ a b, b ∈ l → P a → P (f a b)) → P (foldl f a l).
Proof.
  revert a. induction l as [|b l IH]; intros a Ha Hf; [done|].
  cbn [foldl]. apply IH.
  - apply Hf; [by left|done].
  - intros a' b' Hb'. apply Hf. by right.
Qed.

End DictFacts.

Section FlattenFacts.

Variable str : jval -> pystr.
Variable dumps : jval -> pystr.

Lemma flatten_json_dict d prefix sep :
  flatten_json str dumps (VDict d) prefix sep =
  foldl (flatten_item str dumps prefix sep) [] d.
Proof.
  cbn [flatten_json]. generalize (@nil (pystr * jval)).
  induction d as [|[k v] d IH]; intros acc; [done|].
  cbn [foldl]. rewrite <- IH. reflexivity.
Qed.

Lemma flatten_item_NoDup prefix sep acc kv :
  NoDup acc.*1 → NoDup (flatten_item str dumps prefix sep acc kv).*1.
Proof.
  intros Hacc. unfold flatten_item.
  destruct kv.2 as [| | | | |[|v0 vs]|d];
    try destruct (negb _); auto using jset_NoDup, jupdate_NoDup.
Qed.

Lemma flatten_json_keys_NoDup obj prefix sep :
  NoDup (flatten_json str dumps obj prefix sep).*1.
Proof.
  destruct obj as [| | | | | |d]; try (cbn; apply NoDup_singleton).
  rewrite flatten_json_dict. apply foldl_invariant; [constructor|].
  intros acc kv _. apply flatten_item_NoDup.
Qed.

Lemma flatten_json_values_scalar obj prefix sep key value :
  (key, value) ∈ flatten_json str dumps obj prefix sep →
  is_container value = false.
Proof.
  revert prefix key value.
  induction obj as [| | | | | |d IH] using jval_nested_ind; intros prefix;
    try (intros key value [= -> ->]%list_elem_of_singleton; done).
  rewrite flatten_json_dict.
  apply (foldl_invariant
           (fun acc : jdict => ∀ key value,
              (key, value) ∈ acc → is_container value = false)).
  { by intros ?? ?%elem_of_nil. }
  intros acc [k v] Hin Hacc key value. unfold flatten_item. cbn [fst snd].
  rewrite Forall_forall in IH. specialize (IH (k, v) Hin). cbn [snd] in IH.
  destruct v as [| | | | |[|v0 vs]|d']; try destruct (negb _);
    try (intros [H|[= -> ->]]%jset_elem; [by eapply Hacc | done]).
  intros [H|H]%jupdate_elem; [by eapply Hacc|]. by eapply IH.
Qed.

(** X13: the keys of a flattened record are pairwise distinct, and none of
    its values is a [dict] or a [list]: every cell of the data frame built
    from it is [None], a Boolean, a number or a string. *)
Theorem flatten_json_scalars (obj : jval) (prefix sep : pystr) :
  NoDup (flatten_json str dumps obj prefix sep).*1 ∧
  ∀ key value, jget key (flatten_json str dumps obj prefix sep) = Some value →
               is_container value = false.
Proof.
  split; [apply flatten_json_keys_NoDup|].
  intros key value Hget. apply (flatten_json_values_scalar obj prefix sep key).
  revert Hget. generalize (flatten_json str dumps obj prefix sep).
  induction j as [|[k' v'] j IH]; [done|]. cbn [jget].
  case_bool_decide as Hk.
  - intros [= ->]. subst. by left.
  - intros H. right. by apply IH.
Qed.

Lemma flatten_item_flat sep acc kv :
  kv.1 ∉ acc.*1 → is_container kv.2 = false →
  flatten_item str dumps [] sep acc kv = acc ++ [kv].
Proof.
  destruct kv as [k v]. cbn [fst snd]. intros Hk Hv. unfold flatten_item.
  cbn [fst snd]. rewrite bool_decide_eq_true_2 by done.
  destruct v; try done; by apply jset_fresh.
Qed.

Lemma flatten_json_flat (d : jdict) (sep : pystr) :
  NoDup d.*1 →
  (∀ key value, (key, value) ∈ d → is_container value = false) →
  flatten_json str dumps (VDict d) [] sep = d.
Proof.
  intros Hnd Hsc. rewrite flatten_json_dict.
  assert (∀ acc, NoDup (acc ++ d).*1 →
            foldl (flatten_item str dumps [] sep) acc d = acc ++ d) as H.
  { clear Hnd. induction d as [|[k v] d IH]; intros acc Hacc.
    - by rewrite app_nil_r.
    - cbn [foldl].
      assert ((acc ++ [(k, v)]) ++ d = acc ++ (k, v) :: d) as Hassoc
        by by rewrite <- (assoc_L (++)).
      rewrite flatten_item_flat.
      + rewrite IH; [done| |by rewrite Hassoc].
        intros key value Hin. apply (Hsc key value). by right.
      + cbn [fst]. rewrite fmap_app, fmap_cons in Hacc. cbn [fst] in Hacc.
        apply NoDup_app in Hacc as (_ & Hd & _).
        intros Hin. by apply (Hd k Hin); left.
      + cbn [snd]. apply (Hsc k v). by left. }
  apply (H []). done.
Qed.

(** X14: flattening is idempotent.  A flattened record, taken as a [dict]
    again, flattens to itself: what [flatten_json] returns has nothing left
    to flatten. *)
Theorem flatten_json_idempotent (obj : jval) (sep : pystr) :
  flatten_json str dumps (VDict (flatten_json str dumps obj [] sep)) [] sep
  = flatten_json str dumps obj [] sep.
Proof.
  apply flatten_json_flat; [apply flatten_json_keys_NoDup|].
  intros key value. apply flatten_json_values_scalar.
Qed.

End FlattenFacts.

Section FilterFacts.

Variable strptime : pystr -> option Z.

Lemma date_str_of_raises job e :
  date_str_of job = Raises e → e = AttributeError.
Proof.
  unfold date_str_of. destruct job as [| | | | | |d]; try by intros [= <-].
  destruct (default _ _); by intros [= <-].
Qed.

Lemma filter_jobs_loop_cons job jobs filtered_jobs :
  filter_jobs_loop strptime (job :: jobs) filtered_jobs =
  if escapes strptime job then Raises TypeError
  else filter_jobs_loop strptime jobs
         (if kept strptime job then filtered_jobs ++ [job] else filtered_jobs).
Proof.
  cbn [filter_jobs_loop]. unfold escapes, kept.
  destruct (date_posted_of strptime job) as [[t|]|[]]; try done.
Qed.

Lemma filter_jobs_loop_result jobs filtered_jobs :
  filter_jobs_loop strptime jobs filtered_jobs =
  if existsb (escapes strptime) jobs then Raises TypeError
  else Returns (filtered_jobs ++ filter (fun job => kept strptime job = true) jobs).
Proof.
  revert filtered_jobs. induction jobs as [|job jobs IH]; intros acc.
  - cbn. by rewrite app_nil_r.
  - rewrite filter_jobs_loop_cons. cbn [existsb].
    destruct (escapes strptime job); [done|]. cbn [orb]. rewrite IH.
    destruct (existsb _ jobs); [done|]. f_equal.
    rewrite filter_cons. destruct (kept strptime job) eqn:Hk.
    + rewrite decide_True by done. by rewrite <- (assoc_L (++)).
    + rewrite decide_False; [done|]. by intros [=].
Qed.

Lemma filter_jobs_since_october_result jobs :
  filter_jobs_since_october strptime jobs =
  if existsb (escapes strptime) jobs then Raises TypeError
  else Returns (filter (fun job => kept strptime job = true) jobs).
Proof. unfold filter_jobs_since_october. by rewrite filter_jobs_loop_result. Qed.

Lemma kept_spec job :
  kept strptime job = true ↔
  ∃ s t, date_str_of job = Returns (VStr s) ∧ s ≠ [] ∧
         strptime (if contains (py "T") s then first_field 84 s else s)
           = Some t ∧
         cutoff_date ≤ t.
Proof.
  unfold kept, date_posted_of. split.
  - destruct (date_str_of job) as [v|e]; [|done].
    destruct (jtruthy v) eqn:Hv; [|done].
    destruct v as [| | | |s|l|d]; cbn [parse_date_str]; try done.
    + destruct (strptime _) as [t|] eqn:Hs; [|done].
      intros Ht%Z.leb_le. exists s, t. repeat split; try done.
      intros ->. done.
    + by destruct (existsb _ _).
    + by destruct (bool_decide _).
  - intros (s & t & -> & Hne & Hs & Ht). cbn [jtruthy].
    rewrite bool_decide_eq_false_2 by done. cbn [negb parse_date_str].
    rewrite Hs. by apply Z.leb_le.
Qed.

(** X15: what [filter_jobs_since_october] keeps.  When it returns, the
    jobs it returns are jobs of its argument, in the same order, and a job
    is among them exactly when its date string (the position start date,
    or the publication start date when the first is missing or empty) is
    a non-empty string whose part before the first [T] is a date
    [strptime] reads, on or after 2025-10-01. *)
Theorem filter_jobs_since_october_keeps (jobs filtered_jobs : list jval) :
  filter_jobs_since_october strptime jobs = Returns filtered_jobs →
  filtered_jobs `sublist_of` jobs ∧
  ∀ job, job ∈ filtered_jobs ↔
         job ∈ jobs ∧
         ∃ s t, date_str_of job = Returns (VStr s) ∧ s ≠ [] ∧
                strptime (if contains (py "T") s then first_field 84 s else s)
                  = Some t ∧
                cutoff_date ≤ t.
Proof.
  rewrite filter_jobs_since_october_result.
  destruct (existsb _ _); [done|]. intros [= <-]. split.
  - apply sublist_filter.
  - intros job. by rewrite list_elem_of_filter, kept_spec, (comm and).
Qed.

(** X16: filtering what has been filtered changes nothing. *)
Theorem filter_jobs_since_october_idempotent (jobs filtered_jobs : list jval) :
  filter_jobs_since_october strptime jobs = Returns filtered_jobs →
  filter_jobs_since_october strptime filtered_jobs = Returns filtered_jobs.
Proof.
  rewrite !filter_jobs_since_october_result.
  destruct (existsb _ jobs) eqn:He; [done|]. intros [= <-].
  assert (existsb (escapes strptime)
            (filter (fun job => kept strptime job = true) jobs) = false) as ->.
  { apply not_true_is_false. intros (job & Hin & Hesc)%existsb_exists.
    apply list_elem_of_In, list_elem_of_filter in Hin as [Hk _].
    unfold kept, escapes in *.
    by destruct (date_posted_of strptime job) as [[t|]|[]]. }
  f_equal. apply list_filter_filter_l. done.
Qed.

(** X17: one job whose date field is a number other than zero (or [True])
    makes the whole filter raise [TypeError]: the test ['T' in date_str]
    is not in the exceptions the loop skips. *)
Theorem filter_jobs_since_october_raises (jobs : list jval) (job v : jval) :
  job ∈ jobs →
  date_str_of job = Returns v →
  is_number v = true →
  jtruthy v = true →
  filter_jobs_since_october strptime jobs = Raises TypeError.
Proof.
  intros Hin Hv Hnum Ht. rewrite filter_jobs_since_october_result.
  assert (existsb (escapes strptime) jobs = true) as ->; [|done].
  apply existsb_exists. exists job. split; [by apply list_elem_of_In|].
  unfold escapes, date_posted_of. rewrite Hv, Ht. by destruct v.
Qed.

(** X18: the filter returns on every list of jobs whose date strings are
    strings or [None]: jobs that are no object, that lack the descriptor
    or a date, or whose date does not parse, are skipped. *)
Theorem filter_jobs_since_october_returns (jobs : list jval) :
  (∀ job v, job ∈ jobs → date_str_of job = Returns v →
            v = VNone ∨ ∃ s, v = VStr s) →
  ∃ filtered_jobs,
    filter_jobs_since_october strptime jobs = Returns filtered_jobs.
Proof.
  intros Hjobs. rewrite filter_jobs_since_october_result.
  assert (existsb (escapes strptime) jobs = false) as ->; [|by eexists].
  apply not_true_is_false. intros (job & Hin & Hesc)%existsb_exists.
  apply list_elem_of_In in Hin. unfold escapes, date_posted_of in Hesc.
  destruct (date_str_of job) as [v|e] eqn:Hv;
    [|by rewrite (date_str_of_raises job e Hv) in Hesc].
  destruct (Hjobs job v Hin Hv) as [->|[s ->]]; [done|].
  destruct (jtruthy (VStr s)); [|done]. cbn [parse_date_str] in Hesc.
  by destruct (strptime _).
Qed.

End FilterFacts.

Section FetchFacts.

Variable strptime : pystr -> option Z.

Lemma fetch_pages_more (request : Z → response) bound bound' page all_jobs
    out result :
  fetch_pages request bound page all_jobs out = Some result →
  (bound ≤ bound')%nat →
  fetch_pages request bound' page all_jobs out = Some result.
Proof.
  revert bound' page all_jobs out.
  induction bound as [|bound IH]; intros bound' page all_jobs out; [done|].
  destruct bound' as [|bound']; [lia|]. cbn [fetch_pages].
  destruct (request page) as [|[|item items] total]; try done.
  destruct (_ <=? _); [done|]. intros H Hle. apply (IH _ _ _ _ H). lia.
Qed.

(** X19: the loop of [fetch_2210_jobs] ends.  When the counts the server
    reports are at most [T], the loop returns within [max 1 T] requests,
    and a larger bound on the requests changes nothing: every page it
    goes on after has added a job. *)
Theorem fetch_pages_terminates (request : Z → response) (T : nat)
    (out : list line) :
  (∀ page items total_count,
     request page = SearchResult items total_count → total_count ≤ Z.of_nat T) →
  is_Some (fetch_pages request (Nat.max 1 T) 1 [] out) ∧
  ∀ bound, (Nat.max 1 T ≤ bound)%nat →
    fetch_pages request bound 1 [] out
    = fetch_pages request (Nat.max 1 T) 1 [] out.
Proof.
  intros Hcount.
  assert (∀ bound page all_jobs out,
            (0 < bound)%nat → (T ≤ bound + length all_jobs)%nat →
            is_Some (fetch_pages request bound page all_jobs out)) as H.
  { induction bound as [|bound IH]; intros page all_jobs out' H0 HT; [lia|].
    cbn [fetch_pages]. destruct (request page) as [|items total] eqn:Hr; [done|].
    destruct items as [|item items]; [done|].
    pose proof (Hcount _ _ _ Hr) as Htotal.
    destruct (Z.leb_spec total
                (Z.of_nat (length (all_jobs ++ item :: items)))) as [|Hlt];
      [done|].
    rewrite length_app in *. cbn [length] in *. apply IH; [lia|].
    rewrite length_app. cbn [length]. lia. }
  assert (is_Some (fetch_pages request (Nat.max 1 T) 1 [] out)) as [result Hr].
  { apply H; [lia|]. cbn [length]. lia. }
  split; [by eexists|].
  intros bound Hbound. rewrite Hr. by apply (fetch_pages_more _ _ _ _ _ _ _ Hr).
Qed.

(** X20: a failed request ends the fetch as the end of the results does.
    Of two servers that differ on one page only, where the first fails
    and the second has no items left, [fetch_2210_jobs] returns the same
    jobs: the data it hands on is cut short and nothing is raised. *)
Theorem fetch_error_as_end (request1 request2 : Z → response) (p c : Z)
    (bound : nat) (api_key : option pystr) :
  request1 p = RequestException →
  request2 p = SearchResult [] c →
  (∀ page, page ≠ p → request1 page = request2 page) →
  fst <$> fetch_2210_jobs strptime request1 bound api_key =
  fst <$> fetch_2210_jobs strptime request2 bound api_key.
Proof.
  intros H1 H2 Hsame.
  assert (∀ bound page all_jobs out1 out2,
            fst <$> fetch_pages request1 bound page all_jobs out1 =
            fst <$> fetch_pages request2 bound page all_jobs out2) as Hpages.
  { clear bound. induction bound as [|bound IH]; intros page all_jobs o1 o2;
      [done|].
    cbn [fetch_pages]. destruct (decide (page = p)) as [->|Hne].
    - by rewrite H1, H2.
    - rewrite (Hsame page Hne).
      destruct (request2 page) as [|[|item items] total]; try done.
      destruct (_ <=? _); [done|]. apply IH. }
  unfold fetch_2210_jobs. destruct api_key as [[|ch key]|]; try done.
  specialize (Hpages bound 1 []
                [Line PLAIN "Fetching 2210 jobs from USAJobs API" []]
                [Line PLAIN "Fetching 2210 jobs from USAJobs API" []]).
  destruct (fetch_pages request1 _ _ _ _) as [[jobs1 o1]|],
           (fetch_pages request2 _ _ _ _) as [[jobs2 o2]|];
    cbn in Hpages; try done.
  injection Hpages as ->. cbn.
  by destruct (filter_jobs_since_october strptime jobs2).
Qed.

Lemma fetch_pages_items (request : Z → response) bound page all_jobs out
    jobs out' :
  fetch_pages request bound page all_jobs out = Some (jobs, out') →
  ∀ job, job ∈ jobs →
    job ∈ all_jobs ∨
    ∃ p items total_count,
      page ≤ p ∧ request p = SearchResult items total_count ∧ job ∈ items.
Proof.
  revert page all_jobs out.
  induction bound as [|bound IH]; intros page all_jobs out; [done|].
  cbn [fetch_pages]. destruct (request page) as [|items total] eqn:Hr.
  { intros [= <- _] job Hin. by left. }
  destruct items as [|item items]; [intros [= <- _] job Hin; by left|].
  assert (∀ job, job ∈ all_jobs ++ item :: items →
            job ∈ all_jobs ∨
            ∃ p items' total_count,
              page ≤ p ∧ request p = SearchResult items' total_count ∧
              job ∈ items') as Hhere.
  { intros job [Hin|Hin]%elem_of_app; [by left|right].
    exists page, (item :: items), total. split; [lia|]. by split. }
  destruct (_ <=? _).
  - intros [= <- _]. exact Hhere.
  - intros Hrest job Hin.
    destruct (IH _ _ _ Hrest job Hin) as [Hold|(p & its & tot & Hp & Hreq & Hj)].
    + by apply Hhere.
    + right. exists p, its, tot. split; [lia|]. by split.
Qed.

(** X25: what [fetch_2210_jobs] returns comes from the server and has
    passed the date filter.  Every job it returns is an item of the
    response to the request for some page, from page 1 on, and is dated
    on or after 2025-10-01. *)
Theorem fetch_2210_jobs_sound (request : Z → response) (bound : nat)
    (api_key : option pystr) (jobs : list jval) (out : list line) :
  fetch_2210_jobs strptime request bound api_key = Some (Returns jobs, out) →
  ∀ job, job ∈ jobs →
    (∃ page items total_count,
       1 ≤ page ∧ request page = SearchResult items total_count ∧
       job ∈ items) ∧
    ∃ s t, date_str_of job = Returns (VStr s) ∧ s ≠ [] ∧
           strptime (if contains (py "T") s then first_field 84 s else s)
             = Some t ∧
           cutoff_date ≤ t.
Proof.
  unfold fetch_2210_jobs. destruct api_key as [[|ch key]|]; try done.
  destruct (fetch_pages request bound 1 [] _) as [[all_jobs out']|] eqn:Hpages;
    [|done].
  cbn [mbind option_bind].
  rewrite filter_jobs_since_october_result.
  destruct (existsb _ _); [done|]. intros [= <- _] job.
  rewrite list_elem_of_filter. intros [Hkept Hin]. split.
  - destruct (fetch_pages_items _ _ _ _ _ _ _ Hpages job Hin) as [Hnil|H];
      [by apply elem_of_nil in Hnil|done].
  - by apply kept_spec.
Qed.

End FetchFacts.

Section FlattenKeys.

Variable str : jval -> pystr.
Variable dumps : jval -> pystr.

Lemma jget_jset K k v d :
  jget K (jset k v d) = if bool_decide (K = k) then Some v else jget K d.
Proof.
  induction d as [|[k' v'] d IH]; cbn [jset jget]; [done|].
  destruct (decide (k = k')) as [->|Hne].
  - rewrite (bool_decide_eq_true_2 (k' = k')) by done. cbn [jget].
    by destruct (bool_decide (K = k')).
  - rewrite (bool_decide_eq_false_2 (k = k')) by done. cbn [jget]. rewrite IH.
    destruct (decide (K = k')) as [->|HK].
    + rewrite (bool_decide_eq_true_2 (k' = k')) by done.
      by rewrite (bool_decide_eq_false_2 (k' = k)) by done.
    + by rewrite (bool_decide_eq_false_2 (K = k')) by done.
Qed.

Lemma jget_None K d : K ∉ d.*1 → jget K d = None.
Proof.
  induction d as [|[k v] d IH]; [done|]. rewrite fmap_cons. cbn [fst jget].
  intros Hk. rewrite bool_decide_eq_false_2.
  - apply IH. intros Hin. apply Hk. by right.
  - intros ->. apply Hk. by left.
Qed.

Lemma jget_elem K v d : jget K d = Some v → (K, v) ∈ d.
Proof.
  induction d as [|[k' v'] d IH]; [done|]. cbn [jget].
  case_bool_decide as Hk.
  - intros [= ->]. subst. by left.
  - intros H. right. by apply IH.
Qed.

Lemma jset_key_elem K k v d : K ∈ (jset k v d).*1 → K ∈ d.*1 ∨ K = k.
Proof.
  rewrite jset_keys. case_bool_decide; [by left|].
  intros [?|Hk]%elem_of_app; [by left|right].
  by apply list_elem_of_singleton in Hk.
Qed.

Lemma jupdate_key_elem K d other :
  K ∈ (jupdate d other).*1 → K ∈ d.*1 ∨ K ∈ other.*1.
Proof.
  unfold jupdate. revert d.
  induction other as [|[k v] other IH]; intros d; cbn [foldl]; [by left|].
  intros H. cbn [fst snd] in H. rewrite fmap_cons. cbn [fst].
  apply IH in H as [H|H].
  - apply jset_key_elem in H as [H| ->]; [by left|]. right. by left.
  - right. by right.
Qed.

Lemma jupdate_untouched K d other :
  K ∉ other.*1 → jget K (jupdate d other) = jget K d.
Proof.
  unfold jupdate. revert d.
  induction other as [|[k v] other IH]; intros d Hk; [done|].
  cbn [foldl fst snd]. rewrite fmap_cons in Hk. cbn [fst] in Hk.
  rewrite IH.
  - rewrite jget_jset, bool_decide_eq_false_2; [done|].
    intros ->. apply Hk. by left.
  - intros Hin. apply Hk. by right.
Qed.

Lemma jupdate_set K v d other :
  NoDup other.*1 → (K, v) ∈ other → jget K (jupdate d other) = Some v.
Proof.
  unfold jupdate. revert d.
  induction other as [|[k v'] other IH]; intros d Hnd Hin;
    [by apply elem_of_nil in Hin|].
  rewrite fmap_cons in Hnd. cbn [fst] in Hnd.
  apply NoDup_cons in Hnd as [Hk Hnd]. cbn [foldl fst snd].
  apply elem_of_cons in Hin as [[= <- <-]|Hin].
  - rewrite (jupdate_untouched K _ other Hk), jget_jset.
    by rewrite bool_decide_eq_true_2.
  - by apply IH.
Qed.

(** The key an item is flattened under. *)
Lemma flatten_item_keys prefix sep acc kv K :
  (∀ obj prefix' k,
     obj = kv.2 → k ∈ (flatten_json str dumps obj prefix' sep).*1 →
     prefix' `prefix_of` k) →
  K ∈ (flatten_item str dumps prefix sep acc kv).*1 →
  K ∈ acc.*1 ∨
  (if bool_decide (prefix = []) then kv.1 else prefix ++ sep ++ kv.1)
    `prefix_of` K.
Proof.
  intros IH. unfold flatten_item.
  destruct kv.2 as [| | | | |[|v0 vs]|d] eqn:E; try destruct (negb _);
    try (intros [?| ->]%jset_key_elem; [by left | by right]).
  intros [?|H]%jupdate_key_elem; [by left|right].
  by apply (IH (VDict d) _ K).
Qed.

Lemma flatten_json_keys_prefixed obj prefix sep k :
  k ∈ (flatten_json str dumps obj prefix sep).*1 → prefix `prefix_of` k.
Proof.
  revert prefix k.
  induction obj as [| | | | | |d IH] using jval_nested_ind; intros prefix k;
    try (intros ->%list_elem_of_singleton; done).
  rewrite flatten_json_dict.
  apply (foldl_invariant
           (fun acc : jdict => k ∈ acc.*1 → prefix `prefix_of` k)).
  { by intros ?%elem_of_nil. }
  intros acc kv Hin Hacc Hk. rewrite Forall_forall in IH.
  apply flatten_item_keys in Hk as [Hk|Hk]; [by apply Hacc| |].
  - case_bool_decide as Hp; [subst; apply prefix_nil|].
    etrans; [|exact Hk]. by apply prefix_app_r.
  - intros obj prefix' k' -> Hk'. by apply (IH kv Hin).
Qed.

Lemma flatten_item_untouched prefix sep acc kv K :
  ¬ (if bool_decide (prefix = []) then kv.1 else prefix ++ sep ++ kv.1)
      `prefix_of` K →
  jget K (flatten_item str dumps prefix sep acc kv) = jget K acc.
Proof.
  destruct kv as [k v]. cbn [fst snd]. intros Hk. unfold flatten_item.
  cbn [fst snd].
  assert (∀ v, jget K
            (jset (if bool_decide (prefix = []) then k
                   else prefix ++ sep ++ k) v acc) = jget K acc) as Hset.
  { intros v'. rewrite jget_jset, bool_decide_eq_false_2; [done|].
    intros ->. by apply Hk. }
  destruct v as [| | | | |[|v0 vs]|d]; try destruct (negb _); try apply Hset.
  apply jupdate_untouched. intros Hin.
  by apply flatten_json_keys_prefixed in Hin.
Qed.

Lemma flatten_items_untouched prefix sep acc items K :
  (∀ kv, kv ∈ items →
     ¬ (if bool_decide (prefix = []) then kv.1 else prefix ++ sep ++ kv.1)
         `prefix_of` K) →
  jget K (foldl (flatten_item str dumps prefix sep) acc items) = jget K acc.
Proof.
  revert acc. induction items as [|kv items IH]; intros acc Hk; [done|].
  cbn [foldl]. rewrite IH.
  - apply flatten_item_untouched. apply Hk. by left.
  - intros kv' Hin. apply Hk. by right.
Qed.

Lemma jget_split K v d :
  jget K d = Some v →
  ∃ d1 d2, d = d1 ++ (K, v) :: d2.
Proof. intros H%jget_elem. by apply list_elem_of_split. Qed.

Lemma NoDup_keys_split (d1 d2 : jdict) K v kv :
  NoDup (d1 ++ (K, v) :: d2).*1 → kv ∈ d1 ++ d2 → kv.1 ≠ K.
Proof.
  rewrite fmap_app, fmap_cons. cbn [fst].
  intros (_ & H1 & [H2 _]%NoDup_cons)%NoDup_app Hin ?. subst.
  apply elem_of_app in Hin as [Hin|Hin].
  - apply (H1 kv.1); [by apply list_elem_of_fmap_2|by left].
  - apply H2. by apply list_elem_of_fmap_2.
Qed.

(** X21: a field of a nested object becomes the column named by its path.
    For the item [field] of the object under the top-level key [k0], a
    value that is not a [dict] or a [list] is found in the flattened
    record under [k0 + sep + field], provided no other top-level key is a
    prefix of that name and no other key of the nested object is a prefix
    of [field].  So it is for [MatchedObjectDescriptor] and the
    [PositionID], [PositionTitle] and date fields the verifier reads. *)
Theorem flatten_json_nested_field (d m : jdict) (k0 field sep : pystr)
    (v : jval) :
  NoDup d.*1 → NoDup m.*1 →
  jget k0 d = Some (VDict m) →
  jget field m = Some v →
  is_container v = false →
  k0 ≠ [] →
  (∀ k, k ∈ d.*1 → k ≠ k0 → startswith k (k0 ++ sep ++ field) = false) →
  (∀ k, k ∈ m.*1 → k ≠ field → startswith k field = false) →
  jget (k0 ++ sep ++ field) (flatten_json str dumps (VDict d) [] sep) = Some v.
Proof.
  intros Hd Hm Hk0 Hfield Hv Hne Hd_other Hm_other.
  destruct (jget_split _ _ _ Hk0) as (d1 & d2 & ->).
  destruct (jget_split _ _ _ Hfield) as (m1 & m2 & ->).
  rewrite flatten_json_dict, foldl_app. cbn [foldl].
  rewrite flatten_items_untouched.
  2:{ intros kv Hin. rewrite bool_decide_eq_true_2 by done.
      rewrite <- startswith_prefix, not_true_iff_false.
      apply Hd_other.
      - apply list_elem_of_fmap_2. apply elem_of_app. right. by right.
      - apply (NoDup_keys_split d1 d2 k0 (VDict (m1 ++ (field, v) :: m2)));
          [done|]. apply elem_of_app. by right. }
  unfold flatten_item at 1. cbn [fst snd].
  rewrite bool_decide_eq_true_2 by done.
  apply jupdate_set; [apply flatten_json_keys_NoDup|]. apply jget_elem.
  rewrite flatten_json_dict, foldl_app. cbn [foldl].
  rewrite flatten_items_untouched.
  2:{ intros kv Hin. rewrite bool_decide_eq_false_2 by done.
      intros Hp. apply prefix_app_inv, prefix_app_inv in Hp.
      apply startswith_prefix in Hp. revert Hp. apply not_true_iff_false.
      apply Hm_other.
      - apply list_elem_of_fmap_2. apply elem_of_app. right. by right.
      - apply (NoDup_keys_split m1 m2 field v); [done|].
        apply elem_of_app. by right. }
  generalize (foldl (flatten_item str dumps k0 sep) [] m1). intros acc.
  unfold flatten_item. cbn [fst snd]. rewrite bool_decide_eq_false_2 by done.
  destruct v as [| | | | |l|d']; try done;
    by rewrite jget_jset, bool_decide_eq_true_2.
Qed.

(** X22: two paths of a record can meet in one key, and then a value is
    lost.  A nested field [a.b] and a top-level field named [a + sep + b]
    are flattened to one key, which holds the value of whichever comes
    later. *)
Theorem flatten_json_collision (a b sep : pystr) (x y : jval) :
  a ≠ [] →
  is_container x = false →
  is_container y = false →
  flatten_json str dumps
    (VDict [(a, VDict [(b, x)]); (a ++ sep ++ b, y)]) [] sep
  = [(a ++ sep ++ b, y)] ∧
  flatten_json str dumps
    (VDict [(a ++ sep ++ b, y); (a, VDict [(b, x)])]) [] sep
  = [(a ++ sep ++ b, x)].
Proof.
  intros Ha Hx Hy. rewrite !flatten_json_dict. cbn [foldl].
  unfold flatten_item. cbn [fst snd].
  rewrite !(bool_decide_eq_true_2 (@nil N = [])) by done.
  assert (flatten_json str dumps (VDict [(b, x)]) a sep = [(a ++ sep ++ b, x)])
    as ->.
  { rewrite flatten_json_dict. cbn [foldl]. unfold flatten_item. cbn [fst snd].
    rewrite bool_decide_eq_false_2 by done. by destruct x. }
  split.
  - unfold jupdate. cbn [foldl fst snd jset].
    destruct y; try done; cbn [jset]; by rewrite bool_decide_eq_true_2.
  - destruct y; try done; unfold jupdate; cbn [foldl fst snd jset];
      by rewrite bool_decide_eq_true_2.
Qed.

End FlattenKeys.

(** *** Concrete runs of the edge cases *)

(** X2, witness: job A1 of the snapshot is gone from the data, and the
    check passes. *)
Lemma no_job_loss_blind_to_snapshots_witness :
  (py "A1" ∉ job_id_list Sample.df_b) ∧
  (test_no_job_loss Iso.to_datetime Iso.isoformat
     (Edge.w_of Sample.df_b Edge.snapshot_ab)).1 = true.
Proof.
  split; [by_compute|].
  apply (no_job_loss_blind_to_snapshots Iso.to_datetime Iso.isoformat
           (Edge.w_of Sample.df_b Edge.snapshot_ab) Edge.snapshot_ab
           Sample.df_b); reflexivity.
Defined.

(** X3, witness: the first run of the samples. *)
Lemma run_tests_pass_snapshot_witness :
  (run_tests Iso.to_datetime Iso.to_datetime1 Iso.isoformat Sample.w_first).1
  = 0 ∧
  ∃ df, parquet Sample.w_first = Some (Some df) ∧ rows df ≠ [] ∧
    baseline (run_tests Iso.to_datetime Iso.to_datetime1 Iso.isoformat
                Sample.w_first).2 =
    Some [ (py "created_at", JStr (clock Sample.w_first));
           (py "job_ids", JArr (job_id_list df));
           (py "total_jobs", JNum (Z.of_nat (length (rows df))));
           (py "most_recent_it_specialist_date",
            match most_recent_it_date Iso.to_datetime df with
            | Some d => JStr (Iso.isoformat d)
            | None => JNull
            end) ].
Proof.
  split; [vm_compute; reflexivity|].
  apply (run_tests_pass_snapshot Iso.to_datetime Iso.to_datetime1
           Iso.isoformat Sample.w_first).
  vm_compute. reflexivity.
Defined.

(** X4, witness: the first run of the samples, and a run on the files
    it leaves, a day later. *)
Lemma run_tests_again_passes_witness :
  (run_tests Iso.to_datetime Iso.to_datetime1 Iso.isoformat Sample.w_first).1
  = 0 ∧
  (run_tests Iso.to_datetime Iso.to_datetime1 Iso.isoformat
     (World (parquet Sample.w_first)
        (baseline (run_tests Iso.to_datetime Iso.to_datetime1 Iso.isoformat
                     Sample.w_first).2)
        (metrics Sample.w_first) (py "2025-11-04T12:00:00") [])).1 = 0.
Proof.
  split; [vm_compute; reflexivity|].
  apply (run_tests_again_passes Iso.to_datetime Iso.to_datetime1
           Iso.isoformat Sample.w_first (py "2025-11-04T12:00:00") []).
  - vm_compute. reflexivity.
  - intros df d [= <-] Hd. vm_compute in Hd. injection Hd as <-.
    split; [vm_compute; discriminate|vm_compute; reflexivity].
Defined.


(** X6, witness: the data has no IT-specialist row, the baseline stores
    2025-10-05. *)
Lemma date_progression_without_it_dates_witness :
  most_recent_it_date Iso.to_datetime Sample.df_b = None ∧
  (test_date_progression Iso.to_datetime Iso.to_datetime1 Iso.isoformat
     (Edge.w_of Sample.df_b Sample.baseline_filtered)).1 = true.
Proof.
  split; [vm_compute; reflexivity|].
  apply (date_progression_without_it_dates Iso.to_datetime Iso.to_datetime1
           Iso.isoformat (Edge.w_of Sample.df_b Sample.baseline_filtered)
           Sample.df_b).
  - reflexivity.
  - vm_compute. reflexivity.
Defined.

(** X7, witness: an unreadable data file, and a baseline whose stored
    date is the word [yesterday]. *)
Lemma date_progression_errors_witness :
  (test_date_progression Iso.to_datetime Iso.to_datetime1 Iso.isoformat
     Edge.w_unreadable).1 = false ∧
  Iso.to_datetime1 (JStr (py "yesterday")) = None ∧
  (test_date_progression Iso.to_datetime Iso.to_datetime1 Iso.isoformat
     (Edge.w_of Sample.df_ab Edge.baseline_bad_date)).1 = false.
Proof.
  split; [|split; [reflexivity|]].
  - apply (proj1 (date_progression_errors Iso.to_datetime Iso.to_datetime1
                    Iso.isoformat Edge.w_unreadable Sample.baseline_filtered
                    eq_refl eq_refl)).
    reflexivity.
  - apply (proj2 (date_progression_errors Iso.to_datetime Iso.to_datetime1
                    Iso.isoformat
                    (Edge.w_of Sample.df_ab Edge.baseline_bad_date)
                    Edge.baseline_bad_date eq_refl eq_refl)
             Sample.df_ab (cutoff_date + 4 * Iso.ns_per_day)
             (JStr (py "yesterday"))).
    all: vm_compute; reflexivity.
Defined.

(** X8, witness: the metrics file of the samples. *)
Lemma metrics_json_pass_needs_object_witness :
  (test_metrics_json Sample.w_first).1 = true ∧
  ∃ o, metrics Sample.w_first = Some (Some (JObj o)) ∧
       ∀ field, field ∈ required_fields → is_Some (dict_get field o).
Proof.
  split; [vm_compute; reflexivity|].
  apply (metrics_json_pass_needs_object Sample.w_first).
  vm_compute. reflexivity.
Defined.

(** X9, witness: the frame has a title and a date column only. *)
Lemma no_job_loss_without_ids_witness :
  (PositionID ∉ columns Edge.df_no_ids) ∧
  (PositionURI ∉ columns Edge.df_no_ids) ∧
  (test_no_job_loss Iso.to_datetime Iso.isoformat
     (Edge.w_of Edge.df_no_ids Sample.baseline_filtered)).1 = false.
Proof.
  assert (PositionID ∉ columns Edge.df_no_ids) as H1 by by_compute.
  assert (PositionURI ∉ columns Edge.df_no_ids) as H2 by by_compute.
  split; [exact H1|]. split; [exact H2|].
  apply (no_job_loss_without_ids Iso.to_datetime Iso.isoformat
           (Edge.w_of Edge.df_no_ids Sample.baseline_filtered)
           Sample.baseline_filtered Edge.df_no_ids); done.
Defined.

(** X23, witness: the first run of the samples stores 2025-10-05. *)
Lemma baseline_date_is_latest_witness :
  most_recent_it_date Iso.to_datetime Sample.df_ab
    = Some (cutoff_date + 4 * Iso.ns_per_day) ∧
  (baseline (run_tests Iso.to_datetime Iso.to_datetime1 Iso.isoformat
               Sample.w_first).2 ≫= dict_get date_key)
  = Some (JStr (Iso.isoformat (cutoff_date + 4 * Iso.ns_per_day))).
Proof.
  split; [vm_compute; reflexivity|].
  apply (baseline_date_is_latest Iso.to_datetime Iso.to_datetime1
           Iso.isoformat Sample.w_first Sample.df_ab
           (cutoff_date + 4 * Iso.ns_per_day)).
  all: vm_compute; reflexivity.
Defined.

(** X24, witness: the first run of the samples writes a baseline; on the
    next run job A1 is gone from the data, and the check passes. *)
Lemma job_loss_undetected_after_write_witness :
  (py "A1" ∈ job_id_list Sample.df_ab) ∧
  (py "A1" ∉ job_id_list Sample.df_b) ∧
  (test_no_job_loss Iso.to_datetime Iso.isoformat
     (World (Some (Some Sample.df_b))
        (baseline (run_tests Iso.to_datetime Iso.to_datetime1 Iso.isoformat
                     Sample.w_first).2)
        None Sample.now [])).1 = true.
Proof.
  split; [by_compute|]. split; [by_compute|].
  apply (job_loss_undetected_after_write Iso.to_datetime Iso.to_datetime1
           Iso.isoformat Sample.w_first
           (World (Some (Some Sample.df_b))
              (baseline (run_tests Iso.to_datetime Iso.to_datetime1
                           Iso.isoformat Sample.w_first).2)
              None Sample.now [])
           Sample.df_b).
  - vm_compute. discriminate.
  - vm_compute. reflexivity.
  - reflexivity.
Defined.

(** X11, witness: an accepted title with a grade before it and a parenthesis
    after it. *)
Lemma is_it_specialist_extends_witness :
  is_it_specialist (Some (py "IT Specialist")) = true ∧
  is_it_specialist
    (Some (py "Senior " ++ py "IT Specialist" ++ py " (InfoSec)")) = true.
Proof.
  split; [vm_compute; reflexivity|].
  apply (is_it_specialist_extends (py "Senior ") (py "IT Specialist")
           (py " (InfoSec)")); vm_compute; reflexivity.
Defined.

(** X12, witness: of the three rows of [df_uris] one has a job URI. *)
Lemma job_ids_from_uris_witness :
  job_id_list df_uris = [py "848201300"] ∧
  (47%N ∉ py "848201300") ∧
  ∃ uri pre, Some uri ∈ column (rows df_uris) PositionURI ∧
             contains (py "/job/") uri = true ∧
             uri = pre ++ py "/" ++ py "848201300".
Proof.
  split; [vm_compute; reflexivity|].
  apply (job_ids_from_uris df_uris (py "848201300")); by_compute.
Defined.

(** X15, witness: of a job opened on 2025-10-05, a job opened on
    2025-09-30 and a record that is no object, the first is kept. *)
Lemma filter_jobs_since_october_keeps_witness :
  filter_jobs_since_october Api.strptime [Api.job_new; Api.job_old; VNone]
  = Returns [Api.job_new] ∧
  [Api.job_new] `sublist_of` [Api.job_new; Api.job_old; VNone].
Proof.
  assert (filter_jobs_since_october Api.strptime
            [Api.job_new; Api.job_old; VNone] = Returns [Api.job_new]) as H
    by (vm_compute; reflexivity).
  split; [exact H|].
  exact (proj1 (filter_jobs_since_october_keeps Api.strptime _ _ H)).
Defined.

(** X16, witness: the same jobs, filtered twice. *)
Lemma filter_jobs_since_october_idempotent_witness :
  filter_jobs_since_october Api.strptime [Api.job_new; Api.job_old; VNone]
  = Returns [Api.job_new] ∧
  filter_jobs_since_october Api.strptime [Api.job_new] = Returns [Api.job_new].
Proof.
  assert (filter_jobs_since_october Api.strptime
            [Api.job_new; Api.job_old; VNone] = Returns [Api.job_new]) as H
    by (vm_compute; reflexivity).
  split; [exact H|].
  exact (filter_jobs_since_october_idempotent Api.strptime _ _ H).
Defined.

(** X17, witness: the second job has the number 20251005 for a start
    date. *)
Lemma filter_jobs_since_october_raises_witness :
  date_str_of Api.job_number = Returns (VInt 20251005) ∧
  filter_jobs_since_october Api.strptime [Api.job_new; Api.job_number]
  = Raises TypeError.
Proof.
  split; [vm_compute; reflexivity|].
  apply (filter_jobs_since_october_raises Api.strptime
           [Api.job_new; Api.job_number] Api.job_number (VInt 20251005)).
  - apply list_elem_of_In. right. left. reflexivity.
  - vm_compute. reflexivity.
  - reflexivity.
  - reflexivity.
Defined.

(** X18, witness: two jobs with dates and a record that is no object. *)
Lemma filter_jobs_since_october_returns_witness :
  ∃ filtered_jobs,
    filter_jobs_since_october Api.strptime [Api.job_new; Api.job_old; VNone]
    = Returns filtered_jobs.
Proof.
  apply (filter_jobs_since_october_returns Api.strptime
           [Api.job_new; Api.job_old; VNone]).
  intros job v Hin Hv.
  apply elem_of_cons in Hin as [->|Hin];
    [injection Hv as <-; right; by eexists|].
  apply elem_of_cons in Hin as [->|Hin];
    [injection Hv as <-; right; by eexists|].
  apply list_elem_of_singleton in Hin as ->. discriminate Hv.
Defined.

(** X19, witness: the server of three jobs is done with in three
    requests. *)
Lemma fetch_pages_terminates_witness :
  is_Some (fetch_pages Api.server 3 1 [] []).
Proof.
  apply (fetch_pages_terminates Api.server 3 []).
  intros page items total_count. unfold Api.server.
  destruct (page =? 1); [by intros [= _ <-]|].
  destruct (page =? 2); by intros [= _ <-].
Defined.

(** X20, witness: the request for page 2 fails; the jobs returned are
    those of page 1 that pass the filter. *)
Lemma fetch_error_as_end_witness :
  fst <$> fetch_2210_jobs Api.strptime Api.server_failing 5 (Some (py "key"))
  = Some (Returns [Api.job_new]) ∧
  fst <$> fetch_2210_jobs Api.strptime Api.server_failing 5 (Some (py "key"))
  = fst <$> fetch_2210_jobs Api.strptime Api.server_ending 5 (Some (py "key")).
Proof.
  split; [vm_compute; reflexivity|].
  apply (fetch_error_as_end Api.strptime Api.server_failing Api.server_ending
           2 3 5 (Some (py "key"))).
  - reflexivity.
  - reflexivity.
  - intros page Hne. unfold Api.server_failing, Api.server_ending.
    destruct (Z.eqb_spec page 2); done.
Defined.

(** X25, witness: the server of three jobs returns the two that were
    opened in October. *)
Lemma fetch_2210_jobs_sound_witness :
  fetch_2210_jobs Api.strptime Api.server 5 (Some (py "key"))
  = Some (Returns [Api.job_new; Api.job_newer],
          [ Line PLAIN "Fetching 2210 jobs from USAJobs API" [];
            Line PLAIN "Page" [ANum 1; ANum 2];
            Line PLAIN "Page" [ANum 2; ANum 1];
            Line PASS "Fetched total 2210 jobs" [ANum 3];
            Line PLAIN "Filtered to jobs posted since October 1" [ANum 2] ]) ∧
  ∃ page items total_count,
    1 ≤ page ∧ Api.server page = SearchResult items total_count ∧
    Api.job_newer ∈ items.
Proof.
  assert (fetch_2210_jobs Api.strptime Api.server 5 (Some (py "key"))
          = Some (Returns [Api.job_new; Api.job_newer],
                  [ Line PLAIN "Fetching 2210 jobs from USAJobs API" [];
                    Line PLAIN "Page" [ANum 1; ANum 2];
                    Line PLAIN "Page" [ANum 2; ANum 1];
                    Line PASS "Fetched total 2210 jobs" [ANum 3];
                    Line PLAIN "Filtered to jobs posted since October 1"
                      [ANum 2] ])) as E
    by (vm_compute; reflexivity).
  split; [exact E|].
  apply (fetch_2210_jobs_sound Api.strptime Api.server 5 (Some (py "key"))
           _ _ E Api.job_newer).
  right. left.
Defined.

(** X21, witness: the start date of [Api.job_new] is the cell of the
    column [MatchedObjectDescriptor_PositionStartDate]. *)
Lemma flatten_json_nested_field_witness :
  jget (py "MatchedObjectDescriptor") 
    [ (py "MatchedObjectId", VStr (py "1"));
      (py "MatchedObjectDescriptor", VDict Api.descriptor_new) ]
  = Some (VDict Api.descriptor_new) ∧
  jget (py "MatchedObjectDescriptor" ++ py "_" ++ py "PositionStartDate")
    (flatten_json Api.no_text Api.no_text Api.job_new [] (py "_"))
  = Some (VStr (py "2025-10-05T00:00:00.0000")).
Proof.
  split; [reflexivity|].
  apply (flatten_json_nested_field Api.no_text Api.no_text
           [ (py "MatchedObjectId", VStr (py "1"));
             (py "MatchedObjectDescriptor", VDict Api.descriptor_new) ]
           Api.descriptor_new (py "MatchedObjectDescriptor")
           (py "PositionStartDate") (py "_")
           (VStr (py "2025-10-05T00:00:00.0000"))).
  - by_compute.
  - by_compute.
  - reflexivity.
  - reflexivity.
  - reflexivity.
  - discriminate.
  - intros k Hin Hne.
    apply elem_of_cons in Hin as [->|Hin]; [reflexivity|].
    apply list_elem_of_singleton in Hin as ->. done.
  - intros k Hin Hne.
    apply elem_of_cons in Hin as [->|Hin]; [reflexivity|].
    apply elem_of_cons in Hin as [->|Hin]; [done|].
    apply list_elem_of_singleton in Hin as ->. reflexivity.
Defined.

(** X22, witness: [{"a": {"b": 1}, "a_b": 2}] flattens to [{"a_b": 2}]. *)
Lemma flatten_json_collision_witness :
  flatten_json Api.no_text Api.no_text
    (VDict [(py "a", VDict [(py "b", VInt 1)]); (py "a_b", VInt 2)])
    [] (py "_")
  = [(py "a_b", VInt 2)].
Proof.
  exact (proj1 (flatten_json_collision Api.no_text Api.no_text
                  (py "a") (py "b") (py "_") (VInt 1) (VInt 2)
                  ltac:(discriminate) eq_refl eq_refl)).
Defined.

(** ** The run of a process *)

Section ProcessFacts.

Variable to_datetime : list (option pystr) -> list (option Z).
Variable to_datetime1 : json -> option Z.
Variable isoformat : Z -> pystr.

Lemma P_bind_returns {A B} (m : P A) (f : A → P B) d a d' :
  m d = (Returns a, d') → (m ≫= f) d = f a d'.
Proof. intros H. unfold mbind, P_bind. by rewrite H. Qed.

Lemma P_bind_raises {A B} (m : P A) (f : A → P B) d e d' :
  m d = (Raises e, d') → (m ≫= f) d = (Raises e, d').
Proof. intros H. unfold mbind, P_bind. by rewrite H. Qed.

Lemma lift_print l d : lift (print l) d = (Returns tt, add_stdout [l] d).
Proof. reflexivity. Qed.

Lemma lift_get_latest_parquet_file d :
  lift get_latest_parquet_file d = (Returns (p_parquet d), add_stdout [] d).
Proof. unfold add_stdout. by rewrite app_nil_r. Qed.

Lemma add_stdout_nil d : add_stdout [] d = d.
Proof. destruct d. unfold add_stdout. cbn. by rewrite app_nil_r. Qed.

Lemma add_stdout_app ls1 ls2 d :
  add_stdout ls2 (add_stdout ls1 d) = add_stdout (ls1 ++ ls2) d.
Proof. unfold add_stdout. cbn. by rewrite (assoc_L (++)). Qed.

(** A check that leaves the files alone runs in a process as it does
    above. *)
Lemma lift_behaved {A} (m : M A) d :
  behaved m →
  lift m d = (Returns (m (view d)).1, add_stdout (printed m (view d)) d).
Proof.
  intros Hm. unfold lift, printed.
  destruct (behaved_stdout m (view d) Hm) as [ls E].
  destruct (m (view d)) as [a w'] eqn:Em. cbn [fst snd] in *.
  rewrite E, drop_app_length. reflexivity.
Qed.

Ltac run_process :=
  cbv beta iota zeta delta
    [mbind P_bind mret P_ret lift view raise load_baseline' save_baseline'
     datetime_now' print print_header get_latest_parquet_file
     p_parquet p_baseline p_metrics p_clock p_ticks p_stdout
     parquet baseline metrics clock stdout not_baseline].

Ltac returns_and_prints :=
  eexists _, _, _, _; split;
  [ rewrite <- ?(assoc_L (++)); reflexivity
  | split; [done | first [by left | right; by eexists | assumption]] ].

Lemma create_initial_baseline'_returns latest pq bl me ck t out :
  ∃ u bl' t' ls,
    create_initial_baseline' to_datetime isoformat latest
      (Process pq bl me ck t out)
    = (Returns u, Process pq bl' me ck t' (out ++ ls)) ∧
    ls ≠ [] ∧ (bl' = bl ∨ ∃ b, bl' = Json (JObj b)).
Proof.
  destruct latest as [df|]; unfold create_initial_baseline'; run_process;
    returns_and_prints.
Qed.

Ltac create_then_return :=
  match goal with
  | |- context [create_initial_baseline' ?td ?iso ?latest
                  (Process ?pq ?bl ?me ?ck ?t ?out)] =>
      let E := fresh "E" in
      destruct (create_initial_baseline'_returns latest pq bl me ck t out)
        as ([] & ? & ? & ? & E & ? & ?);
      rewrite E; run_process; returns_and_prints
  end.

Lemma test_no_job_loss'_returns pq bl me ck t out :
  aborted_by_baseline (Process pq bl me ck t out) = false →
  ∃ r bl' t' ls,
    test_no_job_loss' to_datetime isoformat (Process pq bl me ck t out)
    = (Returns r, Process pq bl' me ck t' (out ++ ls)) ∧
    ls ≠ [] ∧ (bl' = bl ∨ ∃ b, bl' = Json (JObj b)).
Proof.
  unfold aborted_by_baseline. cbn [p_baseline p_parquet]. intros Hok.
  unfold test_no_job_loss'.
  destruct bl as [| |v]; [|done|].
  - run_process. destruct pq as [latest|]; [|run_process; returns_and_prints].
    cbv beta iota. create_then_return.
  - run_process. destruct pq as [latest|]; [|run_process; returns_and_prints].
    cbv beta iota. destruct (truthy v) eqn:Hv; cbn [negb].
    2:{ create_then_return. }
    destruct v as [| | | | |b]; try by rewrite andb_true_l in Hok.
    destruct (differs_from _ _); [create_then_return|].
    destruct latest as [df|]; [|run_process; returns_and_prints].
    destruct (py_set _); [|run_process; returns_and_prints].
    destruct (bool_decide _); [run_process; returns_and_prints|].
    destruct (negb _); run_process; returns_and_prints.
Qed.

Lemma test_no_job_loss'_raises pq bl me ck t out :
  aborted_by_baseline (Process pq bl me ck t out) = true →
  ∃ e, test_no_job_loss' to_datetime isoformat (Process pq bl me ck t out)
       = (Raises e, Process pq bl me ck t out).
Proof.
  unfold aborted_by_baseline. cbn [p_baseline p_parquet]. intros Hab.
  unfold test_no_job_loss'.
  destruct bl as [| |v]; [done| |].
  - exists ValueError. reflexivity.
  - exists AttributeError. run_process.
    destruct v as [| | | | |b]; try done;
      apply andb_true_iff in Hab as [Hv Hpq]; apply bool_decide_eq_true in Hpq;
      (destruct pq as [latest|]; [|done]);
      cbv beta iota; cbn [truthy] in *; rewrite Hv; cbn [negb];
      reflexivity.
Qed.

Lemma test_date_progression'_returns pq bl me ck t out :
  bl ≠ NotJson →
  ∃ r ls,
    test_date_progression' to_datetime to_datetime1 isoformat
      (Process pq bl me ck t out)
    = (Returns r, Process pq bl me ck t (out ++ ls)) ∧ ls ≠ [].
Proof.
  intros Hbl. unfold test_date_progression'.
  assert (∀ r l, ∃ r' ls,
            (Returns r, Process pq bl me ck t (out ++ [l])) =
            (Returns r' : outcome bool, Process pq bl me ck t (out ++ ls)) ∧
            ls ≠ []) as Hone by (intros; by eexists _, _).
  destruct bl as [| |v]; [|done|]; run_process;
    (destruct pq as [latest|]; [|run_process; by apply Hone]); cbv beta iota.
  - run_process. by apply Hone.
  - destruct (truthy v) eqn:Hv; cbn [negb]; [|run_process; by apply Hone].
    destruct latest as [df|]; [|run_process; by apply Hone].
    destruct (negb (has_column _ _)); [run_process; by apply Hone|].
    destruct (_ =? _)%nat; [run_process; by apply Hone|].
    destruct (most_recent_in _ _ _); [|run_process; by apply Hone].
    destruct v as [| | | | |b]; try (run_process; by apply Hone).
    destruct (truthy (default _ _)); [|run_process; by apply Hone].
    destruct (to_datetime1 _); [|run_process; by apply Hone].
    destruct (_ <? _).
    { run_process. eexists _, _. split;
        [rewrite <- !(assoc_L (++)); reflexivity|done]. }
    destruct (_ >? _); run_process; by apply Hone.
Qed.

End ProcessFacts.
Section RunFacts.

Variable to_datetime : list (option pystr) -> list (option Z).
Variable to_datetime1 : json -> option Z.
Variable isoformat : Z -> pystr.

Lemma aborted_by_baseline_files d d' :
  p_baseline d' = p_baseline d → p_parquet d' = p_parquet d →
  aborted_by_baseline d' = aborted_by_baseline d.
Proof. unfold aborted_by_baseline. by intros -> ->. Qed.

(** A check that does not read the baseline file runs and reports. *)
Lemma lifted_runs_and_reports title (test : M bool) d :
  behaved test → (∀ w, printed test w ≠ []) →
  ∃ r ls,
    ls ≠ [] ∧
    runs_and_reports title (lift test) d r
      (add_stdout (Line PLAIN title [] :: ls) d).
Proof.
  intros Hb Hp.
  exists (test (view (add_stdout [Line PLAIN title []] d))).1,
         (printed test (view (add_stdout [Line PLAIN title []] d))).
  split; [apply Hp|].
  exists (add_stdout [Line PLAIN title []] d), 
         (printed test (view (add_stdout [Line PLAIN title []] d))).
  split; [reflexivity|]. split; [|split; [apply Hp|]].
  - rewrite (lift_behaved test _ Hb). by rewrite add_stdout_app.
  - reflexivity.
Qed.

Lemma test_no_job_loss'_runs_and_reports d :
  aborted_by_baseline d = false →
  ∃ r d',
    runs_and_reports "2. NO JOB LOSS TEST"
      (test_no_job_loss' to_datetime isoformat) d r d' ∧
    p_parquet d' = p_parquet d ∧ p_metrics d' = p_metrics d ∧
    p_baseline d' ≠ NotJson.
Proof.
  destruct d as [pq bl me ck t out]. intros Hok.
  destruct (test_no_job_loss'_returns to_datetime isoformat pq bl me ck t
              (out ++ [Line PLAIN "2. NO JOB LOSS TEST" []]) Hok)
    as (r & bl' & t' & ls & E & Hls & Hbl).
  exists r, (Process pq bl' me ck t'
               ((out ++ [Line PLAIN "2. NO JOB LOSS TEST" []]) ++ ls)).
  split; [|split; [done|split; [done|]]].
  - eexists _, ls. split; [reflexivity|]. split; [exact E|]. split; [done|].
    cbn [p_stdout]. by rewrite <- (assoc_L (++)).
  - cbn [p_baseline]. destruct Hbl as [->|[b ->]]; [|done].
    intros ->. done.
Qed.

Lemma test_date_progression'_runs_and_reports d :
  p_baseline d ≠ NotJson →
  ∃ r ls,
    ls ≠ [] ∧
    runs_and_reports "3. DATE PROGRESSION TEST"
      (test_date_progression' to_datetime to_datetime1 isoformat) d r
      (add_stdout (Line PLAIN "3. DATE PROGRESSION TEST" [] :: ls) d).
Proof.
  destruct d as [pq bl me ck t out]. cbn [p_baseline]. intros Hbl.
  destruct (test_date_progression'_returns to_datetime to_datetime1 isoformat
              pq bl me ck t
              (out ++ [Line PLAIN "3. DATE PROGRESSION TEST" []]) Hbl)
    as (r & ls & E & Hls).
  exists r, ls. split; [done|].
  exists (Process pq bl me ck t
            (out ++ [Line PLAIN "3. DATE PROGRESSION TEST" []])), ls.
  split; [reflexivity|]. split; [|split; [done|]].
  - rewrite E. unfold add_stdout. cbn. by rewrite <- (assoc_L (++)).
  - reflexivity.
Qed.

Lemma update_baseline'_returns d :
  ∃ d' ls,
    update_baseline' to_datetime isoformat d = (Returns tt, d') ∧
    p_stdout d' = p_stdout d ++ ls.
Proof.
  destruct d as [pq bl me ck t out]. unfold update_baseline'.
  rewrite (P_bind_returns _ _ _ _ _ (lift_get_latest_parquet_file _)).
  rewrite add_stdout_nil. cbn [p_parquet].
  destruct pq as [latest|].
  - destruct (create_initial_baseline'_returns to_datetime isoformat latest
                (Some latest) bl me ck t out)
      as ([] & bl' & t' & ls & E & _). eexists _, ls. by split.
  - exists (Process None bl me ck t out), []. split; [done|].
    cbn. by rewrite app_nil_r.
Qed.

Lemma test_no_job_loss'_aborts d :
  aborted_by_baseline d = true →
  ∃ e, test_no_job_loss' to_datetime isoformat d = (Raises e, d).
Proof.
  destruct d as [pq bl me ck t out].
  apply test_no_job_loss'_raises.
Qed.

Lemma all_passed_and r1 r2 r3 r4 r5 :
  (if negb r5 then false
   else if negb r4 then false
   else if negb r3 then false
   else if negb r2 then false
   else if negb r1 then false else true)
  = r1 && r2 && r3 && r4 && r5.
Proof. by destruct r1, r2, r3, r4, r5. Qed.

Lemma lift_print_header title d :
  lift (print_header title) d = (Returns tt, add_stdout [Line PLAIN title []] d).
Proof. reflexivity. Qed.

Ltac step H := rewrite (P_bind_returns _ _ _ _ _ H); cbv beta zeta.

Ltac step_in Hrun H :=
  rewrite (P_bind_returns _ _ _ _ _ H) in Hrun; cbv beta zeta in Hrun.

Ltac check_in Hrun H :=
  let Hh := fresh "Hh" in
  let Ht := fresh "Ht" in
  pose proof H as (? & ? & Hh & Ht & _ & _);
  step_in Hrun Hh; step_in Hrun Ht; clear Hh Ht.

(** C7: a run executes the five checks unless the baseline file aborts
    it.  When the run is not aborted (the baseline file is absent, holds
    an object or a false value, or there is no data file and it holds
    JSON), each of the five checks runs, in the state the previous one
    left and whatever the previous ones returned, and reports at least
    one line after its header; the run returns 0 exactly when the five
    checks returned true, 1 otherwise, and prints its summary.  When the
    run is aborted, the first check has run and reported, the exception
    is raised in the no-job-loss check before it prints anything, the
    baseline file is as it was and the interpreter exits with status 1:
    the three last checks do not run. *)
Theorem run_tests_runs_all_checks (d : process) :
  let d0 :=
    Process (p_parquet d) (p_baseline d) (p_metrics d) (p_clock d)
      (S (p_ticks d))
      (p_stdout d ++
       [Line PLAIN "2210 JOBS DATA INTEGRITY TESTS" [];
        Line PLAIN "Run Time" [AStr (p_clock d (p_ticks d))]]) in
  let run := run_tests' to_datetime to_datetime1 isoformat d in
  (aborted_by_baseline d = false →
   ∃ r1 d1 r2 d2 r3 d3 r4 d4 r5 d5,
     runs_and_reports "1. PARQUET FILE VALIDITY"
       test_parquet_file_validity' d0 r1 d1 ∧
     runs_and_reports "2. NO JOB LOSS TEST"
       (test_no_job_loss' to_datetime isoformat) d1 r2 d2 ∧
     runs_and_reports "3. DATE PROGRESSION TEST"
       (test_date_progression' to_datetime to_datetime1 isoformat) d2 r3 d3 ∧
     runs_and_reports "4. OCTOBER 1, 2024 FILTER TEST"
       (test_october_filter' to_datetime) d3 r4 d4 ∧
     runs_and_reports "5. METRICS JSON TEST" test_metrics_json' d4 r5 d5 ∧
     run.1 = Returns (if r1 && r2 && r3 && r4 && r5 then 0 else 1) ∧
     (exit_status run.1 = 0 ↔
      r1 = true ∧ r2 = true ∧ r3 = true ∧ r4 = true ∧ r5 = true) ∧
     ∃ summary,
       p_stdout run.2 = p_stdout d5 ++ Line PLAIN "TEST SUMMARY" [] :: summary) ∧
  (aborted_by_baseline d = true →
   ∃ r1 d1 e,
     runs_and_reports "1. PARQUET FILE VALIDITY"
       test_parquet_file_validity' d0 r1 d1 ∧
     run = (Raises e, add_stdout [Line PLAIN "2. NO JOB LOSS TEST" []] d1) ∧
     p_baseline run.2 = p_baseline d ∧
     exit_status run.1 = 1).
Proof.
  intros d0 run. destruct d as [pq bl me ck t out].
  cbn [p_parquet p_baseline p_metrics p_clock p_ticks p_stdout] in d0.
  assert (run =
          (lift (print_header "1. PARQUET FILE VALIDITY") ≫= λ _,
           test_parquet_file_validity' ≫= λ r,
           lift (print_header "2. NO JOB LOSS TEST") ≫= λ _,
           test_no_job_loss' to_datetime isoformat ≫= λ r0,
           lift (print_header "3. DATE PROGRESSION TEST") ≫= λ _,
           test_date_progression' to_datetime to_datetime1 isoformat ≫= λ r1,
           lift (print_header "4. OCTOBER 1, 2024 FILTER TEST") ≫= λ _,
           test_october_filter' to_datetime ≫= λ r2,
           lift (print_header "5. METRICS JSON TEST") ≫= λ _,
           test_metrics_json' ≫= λ r3,
           lift (print_header "TEST SUMMARY") ≫= λ _,
           if (if negb r3 then false
               else if negb r2 then false
               else if negb r1 then false
               else if negb r0 then false
               else if negb r then false else true)
           then
             lift (print (Line PASS "ALL TESTS PASSED!" [])) ≫= λ _,
             lift (print (Line PLAIN
                            "Data integrity verified. Updating baseline..." []))
               ≫= λ _,
             update_baseline' to_datetime isoformat ≫= λ _,
             lift (print (Line PASS "Baseline updated" [])) ≫= λ _, mret 0
           else
             lift (print (Line FAIL "SOME TESTS FAILED!" [])) ≫= λ _,
             lift (print (Line PLAIN "Data integrity issues detected!" []))
               ≫= λ _, mret 1) d0) as Hrun.
  { subst run d0. unfold run_tests'.
    step (lift_print (Line PLAIN "2210 JOBS DATA INTEGRITY TESTS" [])
            (Process pq bl me ck t out)).
    unfold add_stdout at 1.
    cbn [p_parquet p_baseline p_metrics p_clock p_ticks p_stdout].
    unfold mbind at 1, P_bind at 1, datetime_now' at 1.
    cbn [p_parquet p_baseline p_metrics p_clock p_ticks p_stdout].
    rewrite (P_bind_returns _ _ _ _ _ (lift_print _ _)).
    unfold add_stdout.
    cbn [p_parquet p_baseline p_metrics p_clock p_ticks p_stdout].
    by rewrite <- (assoc_L (++)). }
  clearbody run.
  unfold test_parquet_file_validity', test_october_filter',
    test_metrics_json' in *.
  destruct (lifted_runs_and_reports "1. PARQUET FILE VALIDITY"
              test_parquet_file_validity d0
              (readonly_behaved _ readonly_test_parquet_file_validity)
              test_parquet_file_validity_reports)
    as (r1 & ls1 & Hls1 & H1).
  set (d1 := add_stdout (Line PLAIN "1. PARQUET FILE VALIDITY" [] :: ls1) d0)
    in *.
  split.
  - intros Hok.
    assert (aborted_by_baseline d1 = false) as Hok1 by exact Hok.
    destruct (test_no_job_loss'_runs_and_reports d1 Hok1)
      as (r2 & d2 & H2 & Hpq2 & Hme2 & Hbl2).
    destruct (test_date_progression'_runs_and_reports d2 Hbl2)
      as (r3 & ls3 & Hls3 & H3).
    set (d3 := add_stdout (Line PLAIN "3. DATE PROGRESSION TEST" [] :: ls3) d2)
      in *.
    destruct (lifted_runs_and_reports "4. OCTOBER 1, 2024 FILTER TEST"
                (test_october_filter to_datetime) d3
                (readonly_behaved _ (readonly_test_october_filter to_datetime))
                (test_october_filter_reports to_datetime))
      as (r4 & ls4 & Hls4 & H4).
    set (d4 := add_stdout
                 (Line PLAIN "4. OCTOBER 1, 2024 FILTER TEST" [] :: ls4) d3)
      in *.
    destruct (lifted_runs_and_reports "5. METRICS JSON TEST"
                test_metrics_json d4
                (readonly_behaved _ readonly_test_metrics_json)
                test_metrics_json_reports)
      as (r5 & ls5 & Hls5 & H5).
    set (d5 := add_stdout (Line PLAIN "5. METRICS JSON TEST" [] :: ls5) d4)
      in *.
    exists r1, d1, r2, d2, r3, d3, r4, d4, r5, d5.
    do 5 (split; [done|]).
    check_in Hrun H1. check_in Hrun H2. check_in Hrun H3. check_in Hrun H4.
    check_in Hrun H5.
    rewrite all_passed_and in Hrun.
    step_in Hrun (lift_print_header "TEST SUMMARY" d5).
    destruct (r1 && r2 && r3 && r4 && r5) eqn:Hall.
    + step_in Hrun (lift_print (Line PASS "ALL TESTS PASSED!" [])
                      (add_stdout [Line PLAIN "TEST SUMMARY" []] d5)).
      step_in Hrun
        (lift_print
           (Line PLAIN "Data integrity verified. Updating baseline..." [])
           (add_stdout [Line PASS "ALL TESTS PASSED!" []]
              (add_stdout [Line PLAIN "TEST SUMMARY" []] d5))).
      match type of Hrun with
      | _ = (_ ≫= _) ?st =>
          destruct (update_baseline'_returns st) as (d' & ls & E & Hs)
      end.
      step_in Hrun E.
      step_in Hrun (lift_print (Line PASS "Baseline updated" []) d').
      unfold mret, P_ret in Hrun. rewrite Hrun. cbn [fst snd exit_status].
      split; [done|]. split.
      { split; [intros _|done].
        by destruct r1, r2, r3, r4, r5. }
      unfold add_stdout at 1. cbn [p_stdout]. rewrite Hs.
      unfold add_stdout. cbn [p_stdout].
      eexists. rewrite <- !(assoc_L (++)). reflexivity.
    + step_in Hrun (lift_print (Line FAIL "SOME TESTS FAILED!" [])
                      (add_stdout [Line PLAIN "TEST SUMMARY" []] d5)).
      step_in Hrun
        (lift_print (Line PLAIN "Data integrity issues detected!" [])
           (add_stdout [Line FAIL "SOME TESTS FAILED!" []]
              (add_stdout [Line PLAIN "TEST SUMMARY" []] d5))).
      unfold mret, P_ret in Hrun. rewrite Hrun. cbn [fst snd exit_status].
      split; [done|]. split.
      { split; [done|]. intros (-> & -> & -> & -> & ->). done. }
      unfold add_stdout. cbn [p_stdout].
      eexists. rewrite <- !(assoc_L (++)). reflexivity.
  - intros Hab.
    assert (aborted_by_baseline
              (add_stdout [Line PLAIN "2. NO JOB LOSS TEST" []] d1) = true)
      as Hab1 by exact Hab.
    destruct (test_no_job_loss'_aborts _ Hab1) as [e E].
    exists r1, d1, e. split; [done|].
    check_in Hrun H1.
    step_in Hrun (lift_print_header "2. NO JOB LOSS TEST" d1).
    rewrite (P_bind_raises _ _ _ _ _ E) in Hrun.
    split; [done|]. by rewrite Hrun.
Qed.

End RunFacts.

(** C7, counterexample: with a data file, a metrics file and a baseline
    file that holds no JSON, the run ends on a [ValueError] after the
    header of the second check: the date, cutoff and metrics checks have
    not run.  So it is, on an [AttributeError], when the baseline file
    holds a list. *)
Lemma run_tests_aborted_by_baseline :
  (run_tests' Iso.to_datetime Iso.to_datetime1 Iso.isoformat Crash.garbled).1
  = Raises ValueError ∧
  p_stdout
    (run_tests' Iso.to_datetime Iso.to_datetime1 Iso.isoformat Crash.garbled).2
  = [ Line PLAIN "2210 JOBS DATA INTEGRITY TESTS" [];
      Line PLAIN "Run Time" [AStr (py "2025-11-03T12:00:00")];
      Line PLAIN "1. PARQUET FILE VALIDITY" [];
      Line PASS "Parquet file valid" [ANum 2];
      Line PLAIN "2. NO JOB LOSS TEST" [] ] ∧
  (run_tests' Iso.to_datetime Iso.to_datetime1 Iso.isoformat Crash.listed).1
  = Raises AttributeError ∧
  p_stdout
    (run_tests' Iso.to_datetime Iso.to_datetime1 Iso.isoformat Crash.listed).2
  = p_stdout
      (run_tests' Iso.to_datetime Iso.to_datetime1 Iso.isoformat
         Crash.garbled).2.
Proof. repeat split; vm_compute; reflexivity. Qed.
